(** * Correlation function inversion ([cfi_dac.py]): the lag-windowed pair
    search and the weighted inversion of [cfi], embedded in Rocq, followed by
    the mean wind lookup [vel], the reader [get_meas] and the sweeps over
    lags that call [cfi].

    Numbers.  The program computes on IEEE doubles; the embedding computes on
    the real numbers [R] (exact arithmetic, [sqrt] and [PI] are the real ones),
    so rounding is abstracted away and inputs are finite.  NaN, which the
    program uses as its "no estimate" sentinel, is a separate constructor of
    [fval].

    Data.  The dict [m] of parallel arrays ([t], [heights], [dops], [lats],
    [lons], [braggs]) is one list of records, a measurement per index, so that
    index [k] means the same measurement in every field.

    Effects.  A Python exception that escapes [cfi] is the [Raises]
    constructor of [result]; the lists and the dict that the pair loop mutates
    are threaded through the loop as the record [Found]. *)

From Stdlib Require Import Reals Lra Lia List ZArith Bool Arith Permutation.
Import ListNotations.
Local Open Scope R_scope.

(** ** Comparisons on numbers, as booleans *)

Definition Rltb (x y : R) : bool := if Rlt_dec x y then true else false.
Definition Rleb (x y : R) : bool := if Rle_dec x y then true else false.

Notation "x <? y" := (Rltb x y) : R_scope.
Notation "x <=? y" := (Rleb x y) : R_scope.

(** ** Exceptions and results *)

Inductive exn : Type :=
| ValueError      (* n.max / n.min of an empty array, int(nan), interp1d out of range *)
| OverflowError   (* int(inf) *)
| IndexError.     (* assignment to an index past the end of an array *)

Inductive result (A : Type) : Type :=
| Returns (a : A)
| Raises (e : exn).
Arguments Returns {A} a.
Arguments Raises {A} e.

Definition bind {A B : Type} (r : result A) (f : A -> result B) : result B :=
  match r with
  | Returns a => f a
  | Raises e => Raises e
  end.

Notation "x <- r ;; k" := (bind r (fun x => k))
  (at level 61, r at next level, right associativity).

(** A double that may be NaN. *)
Inductive fval : Type :=
| Num (x : R)
| NaN.

(** ** The numpy functions [cfi] calls on arrays of doubles *)

Module Np.

(** [n.mod(x, y)] for a positive [y]: the remainder of floored division. *)
Definition mod_ (x y : R) : R := x - y * IZR (Zfloor (x / y)).

(** [n.max(a)], [n.min(a)]: a [ValueError] on an empty array. *)
Fixpoint max_ (a : list R) : result R :=
  match a with
  | [] => Raises ValueError
  | [x] => Returns x
  | x :: r => y <- max_ r ;; Returns (Rmax x y)
  end.

Fixpoint min_ (a : list R) : result R :=
  match a with
  | [] => Raises ValueError
  | [x] => Returns x
  | x :: r => y <- min_ r ;; Returns (Rmin x y)
  end.

Definition sum (a : list R) : R := fold_right Rplus 0 a.

(** [n.mean(a)]: NaN (and a warning, no exception) on an empty list. *)
Definition mean (a : list R) : fval :=
  match a with
  | [] => NaN
  | _ => Num (sum a / INR (length a))
  end.

(** [n.where(mask)[0]]: the indices at which the mask holds, ascending. *)
Fixpoint where_from {A : Type} (p : A -> bool) (i : nat) (a : list A) : list nat :=
  match a with
  | [] => []
  | x :: r => if p x then i :: where_from p (S i) r else where_from p (S i) r
  end.

Definition where_ {A : Type} (p : A -> bool) (a : list A) : list nat :=
  where_from p 0 a.

(** [int(x)] of a finite double: truncation towards zero. *)
Definition int (x : R) : Z := if Rle_dec 0 x then Zfloor x else Zceil x.

(** [range(n)]. *)
Definition range (n : Z) : list Z := map Z.of_nat (seq 0 (Z.to_nat n)).

(** [n.sqrt(x)]: nan (and a warning, no exception) below zero.  Where the
    argument is a sum or a mean of squares the embedding writes [sqrt]. *)
Definition sqrt_ (x : R) : fval := if x <? 0 then NaN else Num (sqrt x).

End Np.

(** [a * b] for a double [a] that may be NaN. *)
Definition mul_f (a : fval) (b : R) : fval :=
  match a with
  | Num x => Num (x * b)
  | NaN => NaN
  end.

(** ** Constants *)

Definition latdeg2km : R := 111.321.
Definition londeg2km : R := 65.122785.

(** ** Data model *)

(** One measurement: index [k] of the arrays of [m]. *)
Record Meas : Type := mkMeas {
  t : R;                 (* m["t"], seconds *)
  heights : R;           (* m["heights"], km *)
  dops : R;              (* m["dops"] *)
  lats : R;              (* m["lats"], degrees *)
  lons : R;              (* m["lons"], degrees *)
  braggs : R * R * R     (* m["braggs"][k,:] *)
}.

Definition meas0 : Meas := mkMeas 0 0 0 0 0 (0, 0, 0).

(** [a[k]] for an index that [n.where] produced. *)
Definition get (a : list Meas) (k : nat) : Meas := nth k a meas0.

(** [braggs[k, j]]. *)
Definition bragg (x : Meas) (j : nat) : R :=
  match j with
  | O => fst (fst (braggs x))
  | S O => snd (fst (braggs x))
  | _ => snd (braggs x)
  end.

(** The keyword arguments of [cfi]: one lag specification. *)
Record LagSpec : Type := mkLagSpec {
  h0 : R;
  dh : R;
  ds_z : R;
  s_z : R;
  s_x : R;
  ds_x : R;
  s_y : R;
  ds_y : R;
  s_h : R;
  ds_h : R;
  tau : R;
  dtau : R;
  horizontal_dist : bool;
  hour_of_day : R;
  dhour_of_day : R
}.

(** The defaults of the signature of [cfi]. *)
Definition default_spec : LagSpec :=
  {| h0 := 90; dh := 2; ds_z := 1; s_z := 0; s_x := 0; ds_x := 1; s_y := 0;
     ds_y := 0; s_h := 0; ds_h := 100; tau := 0; dtau := 300;
     horizontal_dist := false; hour_of_day := 0; dhour_of_day := 48 |}.

(** ** The time-of-day restriction (lines 160-170) *)

(** [hod = n.mod(t/3600.0, 24)]. *)
Definition hod (x : Meas) : R := Np.mod_ (t x / 3600) 24.

(** [t_idx = n.where(n.abs(hod-hour_of_day) <= dhour_of_day/2.0)[0]], and the
    arrays restricted to [t_idx]: the working set. *)
Definition in_hour_window (s : LagSpec) (x : Meas) : bool :=
  Rabs (hod x - hour_of_day s) <=? dhour_of_day s / 2.

Definition working_set (s : LagSpec) (m : list Meas) : list Meas :=
  filter (in_hour_window s) m.

(** ** The pair finder (lines 172-237) *)

(** What the window loop accumulates. [pair_dict] holds the keys
    ["%d-%d" % (k, l)]; two non-negative indices are recovered from such a
    key, so a key is the pair of indices itself.  [pairs] and the realized lag
    lists grow together, by [append]. *)
Record Found : Type := mkFound {
  pairs : list (nat * nat);
  pair_dict : list (nat * nat);
  tods : list R;
  taus : list R;
  s_xs : list R;
  s_ys : list R;
  s_zs : list R;
  s_hs : list R
}.

Definition found0 : Found := mkFound [] [] [] [] [] [] [] [].

Definition key_eqb (a b : nat * nat) : bool :=
  Nat.eqb (fst a) (fst b) && Nat.eqb (snd a) (snd b).

(** [key in pair_dict]. *)
Definition in_dict (key : nat * nat) (d : list (nat * nat)) : bool :=
  existsb (key_eqb key) d.

Section PairFinder.

Variable s : LagSpec.
(** The working set: the arrays after the time-of-day restriction. *)
Variable tbl : list Meas.

(** [n.sqrt((latdeg2km*(lats[l]-lat0))**2.0 + (londeg2km*(lons[l]-lon0))**2.0)]. *)
Definition hor_dist (k l : nat) : R :=
  sqrt ((latdeg2km * (lats (get tbl l) - lats (get tbl k))) ^ 2
        + (londeg2km * (lons (get tbl l) - lons (get tbl k))) ^ 2).

(** The realized offsets of a pair, as the loop appends them. *)
Definition east (k l : nat) : R := londeg2km * (lons (get tbl l) - lons (get tbl k)).
Definition north (k l : nat) : R := latdeg2km * (lats (get tbl l) - lats (get tbl k)).
Definition lag_t (k l : nat) : R := t (get tbl l) - t (get tbl k).
Definition lag_z (k l : nat) : R := heights (get tbl l) - heights (get tbl k).

(** [dist_filter] (lines 215-218), at one element [l] of [idx1]. *)
Definition dist_filter (k l : nat) : bool :=
  if horizontal_dist s
  then Rabs (hor_dist k l - s_h s) <? ds_h s / 2
  else (Rabs (latdeg2km * (lats (get tbl l) - lats (get tbl k)) - s_y s) <? ds_y s / 2)
       && (Rabs (londeg2km * (lons (get tbl l) - lons (get tbl k)) - s_x s) <? ds_x s / 2).

(** The mask of lines 220-223, at one element [l] of [idx1]. *)
Definition lag_mask (k l : nat) : bool :=
  dist_filter k l
  && (Rabs ((heights (get tbl l) - heights (get tbl k)) - s_z s) <? ds_z s / 2)
  && negb (Nat.eqb l k)
  && (Rabs (t (get tbl l) - t (get tbl k) - tau s) <? dtau s / 2).

(** The floors of line 228. *)
Definition floors (k l : nat) : bool :=
  (2 <? hor_dist k l) && (2 <? Rabs (t (get tbl l) - t (get tbl k))).

(** The body of [for l in idxt] (lines 225-237). *)
Definition visit (k : nat) (st : Found) (l : nat) : Found :=
  if in_dict (k, l) (pair_dict st) then st
  else if floors k l then
    {| pairs := pairs st ++ [(k, l)];
       pair_dict := (l, k) :: (k, l) :: pair_dict st;
       tods := tods st ++ [t (get tbl k)];
       taus := taus st ++ [t (get tbl l) - t (get tbl k)];
       s_xs := s_xs st ++ [londeg2km * (lons (get tbl l) - lons (get tbl k))];
       s_ys := s_ys st ++ [latdeg2km * (lats (get tbl l) - lats (get tbl k))];
       s_zs := s_zs st ++ [heights (get tbl l) - heights (get tbl k)];
       s_hs := s_hs st ++ [hor_dist k l] |}
  else st.

(** The masks of [idx0] and [idx1] (lines 198-199) for the window
    [(it0, it1)]. *)
Definition ref_mask (it0 it1 : R) (x : Meas) : bool :=
  (h0 s - dh s * 0.5 <? heights x) && (heights x <? h0 s + dh s * 0.5)
  && (it0 <? t x) && (t x <? it1).

Definition lagged_mask (it0 it1 : R) (x : Meas) : bool :=
  (h0 s + s_z s - 0.5 * dh s <? heights x) && (heights x <? h0 s + s_z s + 0.5 * dh s)
  && (it0 + tau s <? t x) && (t x <? it1 + tau s).

(** The bounds of window [i] (lines 191-195). *)
Definition it0_of (t0 : R) (i : Z) : R := IZR i * dtau s + t0.
Definition it1_of (t0 tmax : R) (n_times i : Z) : R :=
  if Z.eqb i (n_times - 1) then tmax else IZR i * dtau s + 2 * dtau s + t0.

(** The body of [for ki,k in enumerate(idx0)]. *)
Definition scan (idx1 : list nat) (st : Found) (k : nat) : Found :=
  fold_left (visit k) (filter (lag_mask k) idx1) st.

(** The body of [for i in range(n_times)]. *)
Definition window (t0 tmax : R) (n_times : Z) (st : Found) (i : Z) : Found :=
  let it0 := it0_of t0 i in
  let it1 := it1_of t0 tmax n_times i in
  let idx0 := Np.where_ (ref_mask it0 it1) tbl in
  let idx1 := Np.where_ (lagged_mask it0 it1) tbl in
  fold_left (scan idx1) idx0 st.

(** [n_times = int((n.max(t)-n.min(t))/(dtau))]: the quotient of a numpy
    double by zero is inf or nan (a warning), and [int] of either raises. *)
Definition n_times_of (tmax tmin : R) : result Z :=
  if Req_dec_T (dtau s) 0
  then (if Req_dec_T (tmax - tmin) 0 then Raises ValueError else Raises OverflowError)
  else Returns (Np.int ((tmax - tmin) / dtau s)).

(** Lines 187-237: the pairs found, with [t0] (line 188), which the
    weights use again. *)
Definition find_pairs : result (R * Found) :=
  tmax <- Np.max_ (map t tbl) ;;
  tmin <- Np.min_ (map t tbl) ;;
  n_times <- n_times_of tmax tmin ;;
  let t0 := tmin in
  Returns (t0, fold_left (window t0 tmax n_times) (Np.range n_times) found0).

End PairFinder.

(** ** Arrays of shape (n, 6) and (6,) *)

(** [row[j]]. *)
Definition col (j : nat) (row : list R) : R := nth j row 0.

(** Elementwise [a op b] of two arrays of one shape. *)
Fixpoint zip_with (f : R -> R -> R) (a b : list R) : list R :=
  match a, b with
  | x :: a', y :: b' => f x y :: zip_with f a' b'
  | _, _ => []
  end.

(** The product of a row of six entries with a vector of six. *)
Definition dot6 (a x : list R) : R :=
  Np.sum (map (fun j => col j a * col j x) (seq 0 6)).

(** [n.dot(M, x)] for [M] of shape (n, 6) and [x] of shape (6,). *)
Definition dot_mv (M : list (list R)) (x : list R) : list R :=
  map (fun row => dot6 row x) M.

(** [n.transpose(M)] for [M] of shape (n, 6): shape (6, n). *)
Definition transpose (M : list (list R)) : list (list R) :=
  map (fun j => map (col j) M) (seq 0 6).

(** [n.dot(B, M)] for [B] of shape (6, n) and [M] of shape (n, 6). *)
Definition dot_mm (B M : list (list R)) : list (list R) :=
  map (fun b => map (fun j => Np.sum (zip_with Rmult b (map (col j) M))) (seq 0 6)) B.

(** [n.diag(M)]. *)
Definition diag (M : list (list R)) : list R :=
  map (fun i => col i (nth i M [])) (seq 0 (length M)).

(** [a[i] = v]: an [IndexError] past the end. *)
Fixpoint set_index (a : list R) (i : nat) (v : R) : result (list R) :=
  match a, i with
  | [], _ => Raises IndexError
  | _ :: r, O => Returns (v :: r)
  | x :: r, S i' => r' <- set_index r i' v ;; Returns (x :: r')
  end.

(** ** The library functions behind [cfi]

    [n.histogram], [si.interp1d], [n.linalg.lstsq] and [n.linalg.inv] are
    code of numpy and scipy, not of this program: they are parameters of the
    embedding.  [interp1d x y] is the callable [countf]; calling it raises
    when the argument is outside the range of [x], and its values lie between
    the counts it interpolates, which line 249 floors at 1, so the quotient
    [1.0/countf(...)] divides by no zero.  [lstsq] and [inv] are called inside
    the [try] block, which catches whatever they raise, so their failure is
    [None]; [lstsq] answers a vector of shape (6,), as [acf[:] = xhat]
    expects. *)
Record Lib : Type := mkLib {
  n_histogram : list R -> nat -> list R * list R;   (* (hist, bin_edges) *)
  interp1d : list R -> list R -> R -> result R;
  lstsq : list (list R) -> list R -> option (list R);   (* n.linalg.lstsq(A, m)[0] *)
  inv : list (list R) -> option (list (list R))
}.

(** ** The diurnal density model (lines 240-255) *)

Definition density_model (L : Lib) (tods : list R) : result (R -> result R) :=
  let '(thist, tbins) := n_histogram L (map (fun x => Np.mod_ (x / 3600) 24) tods) 48 in
  let thist := map (fun c => if c <? 1 then 1 else c) thist in
  let tbins2 := zip_with (fun a b => 0.5 * (a + b))
                  (firstn (length tbins - 1) tbins) (skipn 1 tbins) in
  tbins2 <- set_index tbins2 0 0 ;;
  tbins2 <- set_index tbins2 (length tbins2 - 1) 24 ;;
  Returns (interp1d L tbins2 thist).

(** ** The design matrices (lines 257-294) *)

Record Design : Type := mkDesign {
  A : list (list R);
  Ao : list (list R);
  m : list R;
  mo : list R;
  ws : list R
}.

(** The hour at which line 273 evaluates [countf] for reference [k]. *)
Definition weight_hour (tbl : list Meas) (t0 : R) (k : nat) : R :=
  Np.mod_ ((t (get tbl k) - t0) / 3600) 24.

(** Row [pi] of [Ao] and of [A], and entry [pi] of [mo] and of [m]. *)
Definition Ao_row (xk xl : Meas) : list R :=
  [ bragg xk 0 * bragg xl 0;
    bragg xk 1 * bragg xl 1;
    bragg xk 2 * bragg xl 2;
    bragg xk 0 * bragg xl 1 + bragg xk 1 * bragg xl 0;
    bragg xk 0 * bragg xl 2 + bragg xk 2 * bragg xl 0;
    bragg xk 1 * bragg xl 2 + bragg xk 2 * bragg xl 1 ].

Definition A_row (w : R) (xk xl : Meas) : list R :=
  [ w * bragg xk 0 * bragg xl 0;
    w * bragg xk 1 * bragg xl 1;
    w * bragg xk 2 * bragg xl 2;
    w * (bragg xk 0 * bragg xl 1 + bragg xk 1 * bragg xl 0);
    w * (bragg xk 0 * bragg xl 2 + bragg xk 2 * bragg xl 0);
    w * (bragg xk 1 * bragg xl 2 + bragg xk 2 * bragg xl 1) ].

Definition mo_entry (xk xl : Meas) : R := (2 * PI) ^ 2 * dops xk * dops xl.
Definition m_entry (w : R) (xk xl : Meas) : R := w * (2 * PI) ^ 2 * dops xk * dops xl.

(** The loop [for pi in range(n_meas)]: one row per pair, in the order of
    [pairs]; it stops at the first pair for which [countf] raises. *)
Fixpoint design (countf : R -> result R) (tbl : list Meas) (t0 : R)
  (pairs : list (nat * nat)) : result Design :=
  match pairs with
  | [] => Returns (mkDesign [] [] [] [] [])
  | (k, l) :: rest =>
      c <- countf (weight_hour tbl t0 k) ;;
      let w := 1 / c in
      let xk := get tbl k in
      let xl := get tbl l in
      d <- design countf tbl t0 rest ;;
      Returns (mkDesign (A_row w xk xl :: A d) (Ao_row xk xl :: Ao d)
                 (m_entry w xk xl :: m d) (mo_entry xk xl :: mo d) (w :: ws d))
  end.

(** ** The inversion and its uncertainty (lines 295-309) *)

Definition nan6 : list fval := repeat NaN 6.

(** [n.mean(a)] of a non-empty array. *)
Definition mean_ (a : list R) : R := Np.sum a / INR (length a).

(** The [try] block and its [except].  With no pair the name [w] is unbound,
    [n.array(w)] raises and the [except] branch stores NaN.  [acf] and [err]
    are assigned last, so a failure of [inv] leaves NaN in both. *)
Definition invert (L : Lib) (d : Design) : list fval * list fval :=
  match ws d with
  | [] => (nan6, nan6)
  | _ :: _ =>
      match lstsq L (A d) (m d) with
      | None => (nan6, nan6)
      | Some xhat =>
          let resid := zip_with Rminus (mo d) (dot_mv (Ao d) xhat) in
          let stdev := 3 * sqrt (mean_ (map (fun r => Rabs r ^ 2) resid)) in
          match inv L (dot_mm (transpose (Ao d)) (Ao d)) with
          | None => (nan6, nan6)
          | Some N => (map Num xhat, map (fun v => mul_f (Np.sqrt_ v) stdev) (diag N))
          end
      end
  end.

(** ** [cfi] *)

Record InversionResult : Type := mkResult {
  acf : list fval;
  err : list fval;
  mean_tau : fval;
  mean_sx : fval;
  mean_sy : fval;
  mean_sz : fval;
  mean_sh : fval
}.

Definition cfi (L : Lib) (meas : list Meas) (s : LagSpec) : result InversionResult :=
  let tbl := working_set s meas in
  found <- find_pairs s tbl ;;
  let '(t0, st) := found in
  countf <- density_model L (tods st) ;;
  d <- design countf tbl t0 (pairs st) ;;
  let '(acf, err) := invert L d in
  Returns (mkResult acf err (Np.mean (taus st)) (Np.mean (s_xs st))
             (Np.mean (s_ys st)) (Np.mean (s_zs st)) (Np.mean (s_hs st))).

(** ** Facts about the helpers *)

Lemma Rltb_true (x y : R) : (x <? y) = true <-> x < y.
Proof. unfold Rltb. destruct (Rlt_dec x y); split; intros; try easy. Qed.

Lemma Rltb_false (x y : R) : (x <? y) = false <-> ~ x < y.
Proof. unfold Rltb. destruct (Rlt_dec x y); split; intros; try easy. Qed.

Lemma Rleb_true (x y : R) : (x <=? y) = true <-> x <= y.
Proof. unfold Rleb. destruct (Rle_dec x y); split; intros; try easy. Qed.

Lemma Rleb_false (x y : R) : (x <=? y) = false <-> ~ x <= y.
Proof. unfold Rleb. destruct (Rle_dec x y); split; intros; try easy. Qed.

Lemma key_eqb_eq (a b : nat * nat) : key_eqb a b = true <-> a = b.
Proof.
  destruct a as [a1 a2], b as [b1 b2]. unfold key_eqb. simpl.
  rewrite andb_true_iff, !Nat.eqb_eq. split.
  - intros [-> ->]. reflexivity.
  - intros H. injection H as -> ->. auto.
Qed.

Lemma in_dict_In (key : nat * nat) (d : list (nat * nat)) :
  in_dict key d = true <-> In key d.
Proof.
  unfold in_dict. rewrite existsb_exists. split.
  - intros [x [Hx He]]. apply key_eqb_eq in He. subst. exact Hx.
  - intros H. exists key. split; [exact H | apply key_eqb_eq; reflexivity].
Qed.

Lemma in_dict_not_In (key : nat * nat) (d : list (nat * nat)) :
  in_dict key d = false <-> ~ In key d.
Proof.
  rewrite <- in_dict_In. destruct (in_dict key d); split; intros; easy.
Qed.

Lemma In_where_from {A : Type} (p : A -> bool) (d : A) (a : list A) :
  forall i k,
    In k (Np.where_from p i a) <->
    (i <= k < i + length a)%nat /\ p (nth (k - i) a d) = true.
Proof.
  induction a as [|x r IH]; intros i k; simpl.
  - split; [tauto | lia].
  - assert (Hstep : forall j, (i < j)%nat -> (j - i = S (j - S i))%nat) by (intros; lia).
    destruct (p x) eqn:Hp; simpl; rewrite IH; split.
    + intros [<- | [H1 H2]].
      * split; [lia|]. rewrite Nat.sub_diag. exact Hp.
      * split; [lia|]. rewrite Hstep by lia. exact H2.
    + intros [H1 H2]. destruct (Nat.eq_dec i k) as [->|Hne]; [left; reflexivity|right].
      split; [lia|]. rewrite Hstep in H2 by lia. exact H2.
    + intros [H1 H2]. split; [lia|]. rewrite Hstep by lia. exact H2.
    + intros [H1 H2]. destruct (Nat.eq_dec i k) as [->|Hne].
      * rewrite Nat.sub_diag in H2. congruence.
      * split; [lia|]. rewrite Hstep in H2 by lia. exact H2.
Qed.

Lemma In_where (p : Meas -> bool) (a : list Meas) (k : nat) :
  In k (Np.where_ p a) <-> (k < length a)%nat /\ p (get a k) = true.
Proof.
  unfold Np.where_, get. rewrite (In_where_from p meas0 a 0 k), Nat.sub_0_r.
  split; intros [H1 H2]; (split; [lia | exact H2]).
Qed.

Lemma In_range (n i : Z) : In i (Np.range n) <-> (0 <= i < n)%Z.
Proof.
  unfold Np.range. rewrite in_map_iff. split.
  - intros [j [<- Hj]]. apply in_seq in Hj. lia.
  - intros H. exists (Z.to_nat i). split; [lia|]. apply in_seq. lia.
Qed.

Lemma fold_left_inv {A B : Type} (f : A -> B -> A) (P : A -> Prop) (Q : B -> Prop) :
  (forall a b, P a -> Q b -> P (f a b)) ->
  forall l a, Forall Q l -> P a -> P (fold_left f l a).
Proof.
  intros Hf l. induction l as [|b l IH]; intros a Hl Ha; simpl.
  - exact Ha.
  - inversion Hl; subst. apply IH; auto.
Qed.

(** ** The invariant of the pair loop *)

Section PairInvariant.

Variable s : LagSpec.
Variable tbl : list Meas.
Variables (t0 tmax : R) (n_times : Z).

(** Window [i] of the loop has [k] in [idx0] and [l] in [idx1]. *)
Definition in_window (i : Z) (k l : nat) : Prop :=
  (0 <= i < n_times)%Z
  /\ In k (Np.where_ (ref_mask s (it0_of s t0 i) (it1_of s t0 tmax n_times i)) tbl)
  /\ In l (Np.where_ (lagged_mask s (it0_of s t0 i) (it1_of s t0 tmax n_times i)) tbl).

(** What the loop has checked of a pair before it appends it. *)
Definition accepted (p : nat * nat) : Prop :=
  (exists i, in_window i (fst p) (snd p))
  /\ lag_mask s tbl (fst p) (snd p) = true
  /\ floors tbl (fst p) (snd p) = true.

Record Inv (st : Found) : Prop := mkInv {
  inv_accepted : Forall accepted (pairs st);
  inv_dict : forall key,
      In key (pair_dict st) <-> In key (pairs st) \/ In (snd key, fst key) (pairs st);
  inv_nodup : NoDup (pairs st);
  inv_one_way : forall k l, In (k, l) (pairs st) -> ~ In (l, k) (pairs st);
  inv_tods : tods st = map (fun p => t (get tbl (fst p))) (pairs st);
  inv_taus : taus st = map (fun p => lag_t tbl (fst p) (snd p)) (pairs st);
  inv_s_xs : s_xs st = map (fun p => east tbl (fst p) (snd p)) (pairs st);
  inv_s_ys : s_ys st = map (fun p => north tbl (fst p) (snd p)) (pairs st);
  inv_s_zs : s_zs st = map (fun p => lag_z tbl (fst p) (snd p)) (pairs st);
  inv_s_hs : s_hs st = map (fun p => hor_dist tbl (fst p) (snd p)) (pairs st)
}.

Lemma Inv_found0 : Inv found0.
Proof.
  constructor; simpl; try reflexivity.
  - constructor.
  - intros key. tauto.
  - constructor.
  - intros k l [].
Qed.

Lemma lag_mask_neq (k l : nat) : lag_mask s tbl k l = true -> l <> k.
Proof.
  unfold lag_mask. rewrite !andb_true_iff, negb_true_iff, Nat.eqb_neq. tauto.
Qed.

Lemma visit_Inv (k l : nat) (st : Found) :
  Inv st -> (exists i, in_window i k l) -> lag_mask s tbl k l = true ->
  Inv (visit tbl k st l).
Proof.
  intros HI Hw Hm. unfold visit.
  destruct (in_dict (k, l) (pair_dict st)) eqn:Hd; [exact HI|].
  destruct (floors tbl k l) eqn:Hf; [|exact HI].
  apply in_dict_not_In in Hd.
  assert (Hkl : ~ In (k, l) (pairs st)).
  { intros H. apply Hd. apply (inv_dict st HI). left. exact H. }
  assert (Hlk : ~ In (l, k) (pairs st)).
  { intros H. apply Hd. apply (inv_dict st HI). right. exact H. }
  pose proof (lag_mask_neq k l Hm) as Hne.
  destruct HI as [Hacc Hdict Hnd Hone Htod Htau Hsx Hsy Hsz Hsh].
  constructor; simpl.
  - apply Forall_app. split; [exact Hacc|]. constructor; [|constructor].
    unfold accepted. simpl. auto.
  - intros [a b]. simpl. rewrite !in_app_iff, Hdict. simpl. split.
    + intros [H | [H | H]].
      * injection H as <- <-. right. right. left. reflexivity.
      * injection H as <- <-. left. right. left. reflexivity.
      * tauto.
    + intros [[H | [H | []]] | [H | [H | []]]]; try tauto;
        injection H as <- <-; auto.
  - apply NoDup_app; [exact Hnd | repeat constructor; simpl; tauto |].
    intros p Hp [<- | []]. exact (Hkl Hp).
  - intros a b. rewrite !in_app_iff. simpl. intros [H | [H | []]] [H' | [H' | []]].
    + exact (Hone a b H H').
    + injection H' as <- <-. exact (Hlk H).
    + injection H as <- <-. exact (Hlk H').
    + injection H as <- <-. injection H' as H1 H2. congruence.
  - rewrite map_app, Htod. reflexivity.
  - rewrite map_app, Htau. reflexivity.
  - rewrite map_app, Hsx. reflexivity.
  - rewrite map_app, Hsy. reflexivity.
  - rewrite map_app, Hsz. reflexivity.
  - rewrite map_app, Hsh. reflexivity.
Qed.

Lemma scan_Inv (i : Z) (k : nat) (st : Found) :
  let idx1 := Np.where_ (lagged_mask s (it0_of s t0 i) (it1_of s t0 tmax n_times i)) tbl in
  (0 <= i < n_times)%Z ->
  In k (Np.where_ (ref_mask s (it0_of s t0 i) (it1_of s t0 tmax n_times i)) tbl) ->
  Inv st -> Inv (scan s tbl idx1 st k).
Proof.
  intros idx1 Hi Hk HI. unfold scan.
  apply (fold_left_inv (visit tbl k) Inv
           (fun l => In l idx1 /\ lag_mask s tbl k l = true)).
  - intros st' l HI' [Hl Hm]. apply visit_Inv; auto.
    exists i. unfold in_window. auto.
  - apply Forall_forall. intros l Hl. apply filter_In in Hl. exact Hl.
  - exact HI.
Qed.

Lemma window_Inv (i : Z) (st : Found) :
  (0 <= i < n_times)%Z -> Inv st -> Inv (window s tbl t0 tmax n_times st i).
Proof.
  intros Hi HI. unfold window.
  apply (fold_left_inv _ Inv
           (fun k => In k (Np.where_ (ref_mask s (it0_of s t0 i)
                                        (it1_of s t0 tmax n_times i)) tbl))).
  - intros st' k HI' Hk. apply scan_Inv; auto.
  - apply Forall_forall. auto.
  - exact HI.
Qed.

Lemma windows_Inv :
  Inv (fold_left (window s tbl t0 tmax n_times) (Np.range n_times) found0).
Proof.
  apply (fold_left_inv _ Inv (fun i => (0 <= i < n_times)%Z)).
  - intros st i HI Hi. apply window_Inv; auto.
  - apply Forall_forall. intros i Hi. apply In_range. exact Hi.
  - exact Inv_found0.
Qed.

End PairInvariant.

Lemma find_pairs_Returns (s : LagSpec) (tbl : list Meas) (t0 : R) (st : Found) :
  find_pairs s tbl = Returns (t0, st) ->
  exists tmax n_times,
    Np.max_ (map t tbl) = Returns tmax
    /\ Np.min_ (map t tbl) = Returns t0
    /\ n_times_of s tmax t0 = Returns n_times
    /\ st = fold_left (window s tbl t0 tmax n_times) (Np.range n_times) found0.
Proof.
  unfold find_pairs. intros H.
  destruct (Np.max_ (map t tbl)) as [tmax|e]; simpl in H; [|discriminate].
  destruct (Np.min_ (map t tbl)) as [tmin|e]; simpl in H; [|discriminate].
  destruct (n_times_of s tmax tmin) as [n|e] eqn:Hn; simpl in H; [|discriminate].
  injection H as <- <-. exists tmax, n. auto.
Qed.

Lemma find_pairs_Inv (s : LagSpec) (tbl : list Meas) (t0 : R) (st : Found) :
  find_pairs s tbl = Returns (t0, st) ->
  exists tmax n_times, Inv s tbl t0 tmax n_times st.
Proof.
  intros H. apply find_pairs_Returns in H.
  destruct H as [tmax [n [_ [_ [_ ->]]]]]. exists tmax, n. apply windows_Inv.
Qed.

(** ** What every accepted pair satisfies *)

Lemma accepted_floors (s : LagSpec) (tbl : list Meas) (t0 tmax : R) (n : Z)
  (p : nat * nat) :
  accepted s tbl t0 tmax n p ->
  2 < hor_dist tbl (fst p) (snd p)
  /\ 2 < Rabs (t (get tbl (snd p)) - t (get tbl (fst p)))
  /\ fst p <> snd p.
Proof.
  intros [_ [Hm Hf]]. unfold floors in Hf.
  apply andb_true_iff in Hf. destruct Hf as [H1 H2].
  apply Rltb_true in H1. apply Rltb_true in H2.
  apply lag_mask_neq in Hm. auto.
Qed.

Lemma accepted_lags (s : LagSpec) (tbl : list Meas) (t0 tmax : R) (n : Z)
  (p : nat * nat) :
  accepted s tbl t0 tmax n p ->
  Rabs (lag_t tbl (fst p) (snd p) - tau s) < dtau s / 2
  /\ Rabs (lag_z tbl (fst p) (snd p) - s_z s) < ds_z s / 2
  /\ (if horizontal_dist s
      then Rabs (hor_dist tbl (fst p) (snd p) - s_h s) < ds_h s / 2
      else Rabs (east tbl (fst p) (snd p) - s_x s) < ds_x s / 2
           /\ Rabs (north tbl (fst p) (snd p) - s_y s) < ds_y s / 2).
Proof.
  intros [_ [Hm _]]. unfold lag_mask, dist_filter in Hm.
  rewrite !andb_true_iff, !Rltb_true in Hm.
  destruct Hm as [[[Hd Hz] _] Ht].
  split; [exact Ht|]. split; [exact Hz|].
  destruct (horizontal_dist s).
  - apply Rltb_true in Hd. exact Hd.
  - rewrite andb_true_iff, !Rltb_true in Hd. unfold east, north. tauto.
Qed.

Lemma Forall_map_iff {X Y : Type} (f : X -> Y) (P : Y -> Prop) (l : list X) :
  Forall P (map f l) <-> Forall (fun x => P (f x)) l.
Proof.
  induction l as [|x l IH]; simpl.
  - split; constructor.
  - split; intros H; inversion H; subst; constructor; auto; apply IH; auto.
Qed.

(** C7. Within one invocation the accepted pair list holds no pair twice, and
    never both [(k, l)] and [(l, k)]: an unordered pair of indices has at most
    one representative, however many windows the two measurements share. *)
Theorem pairs_unordered_unique (meas : list Meas) (s : LagSpec) (t0 : R) (st : Found) :
  find_pairs s (working_set s meas) = Returns (t0, st) ->
  NoDup (pairs st)
  /\ (forall k l, In (k, l) (pairs st) -> ~ In (l, k) (pairs st)).
Proof.
  intros H. apply find_pairs_Inv in H. destruct H as [tmax [n HI]].
  split.
  - exact (inv_nodup _ _ _ _ _ _ HI).
  - exact (inv_one_way _ _ _ _ _ _ HI).
Qed.

(** C8. Every accepted pair is more than 2 km apart horizontally (flat-earth
    distance) and more than 2 s apart in time; its two indices differ. *)
Theorem pairs_above_floors (meas : list Meas) (s : LagSpec) (t0 : R) (st : Found) :
  find_pairs s (working_set s meas) = Returns (t0, st) ->
  Forall (fun p =>
            2 < hor_dist (working_set s meas) (fst p) (snd p)
            /\ 2 < Rabs (t (get (working_set s meas) (snd p))
                         - t (get (working_set s meas) (fst p)))
            /\ fst p <> snd p)
    (pairs st).
Proof.
  intros H. apply find_pairs_Inv in H. destruct H as [tmax [n HI]].
  eapply Forall_impl; [|exact (inv_accepted _ _ _ _ _ _ HI)].
  intros p Hp. exact (accepted_floors _ _ _ _ _ _ Hp).
Qed.

(** C10. The realized lags recorded with the accepted pairs are those of the
    pairs, entry by entry, and each lies inside the requested window: the
    temporal lag within [dtau/2] of [tau], the vertical offset within [ds_z/2]
    of [s_z], and either the horizontal distance within [ds_h/2] of [s_h]
    (when [horizontal_dist]) or the east and north offsets within [ds_x/2] of
    [s_x] and [ds_y/2] of [s_y]. *)
Theorem realized_lags_in_window (meas : list Meas) (s : LagSpec) (t0 : R) (st : Found) :
  find_pairs s (working_set s meas) = Returns (t0, st) ->
  let tbl := working_set s meas in
  (taus st = map (fun p => t (get tbl (snd p)) - t (get tbl (fst p))) (pairs st)
   /\ s_zs st = map (fun p => heights (get tbl (snd p)) - heights (get tbl (fst p))) (pairs st)
   /\ s_hs st = map (fun p => hor_dist tbl (fst p) (snd p)) (pairs st)
   /\ s_xs st = map (fun p => londeg2km * (lons (get tbl (snd p)) - lons (get tbl (fst p)))) (pairs st)
   /\ s_ys st = map (fun p => latdeg2km * (lats (get tbl (snd p)) - lats (get tbl (fst p)))) (pairs st))
  /\ Forall (fun x => Rabs (x - tau s) < dtau s / 2) (taus st)
  /\ Forall (fun x => Rabs (x - s_z s) < ds_z s / 2) (s_zs st)
  /\ (if horizontal_dist s
      then Forall (fun x => Rabs (x - s_h s) < ds_h s / 2) (s_hs st)
      else Forall (fun x => Rabs (x - s_x s) < ds_x s / 2) (s_xs st)
           /\ Forall (fun x => Rabs (x - s_y s) < ds_y s / 2) (s_ys st)).
Proof.
  intros H tbl. apply find_pairs_Inv in H. destruct H as [tmax [n HI]].
  fold tbl in HI.
  pose proof (inv_accepted _ _ _ _ _ _ HI) as Hacc.
  assert (Hl : Forall (fun p =>
            Rabs (lag_t tbl (fst p) (snd p) - tau s) < dtau s / 2
            /\ Rabs (lag_z tbl (fst p) (snd p) - s_z s) < ds_z s / 2
            /\ (if horizontal_dist s
                then Rabs (hor_dist tbl (fst p) (snd p) - s_h s) < ds_h s / 2
                else Rabs (east tbl (fst p) (snd p) - s_x s) < ds_x s / 2
                  /\ Rabs (north tbl (fst p) (snd p) - s_y s) < ds_y s / 2)) (pairs st)).
  { eapply Forall_impl; [|exact Hacc]. intros p Hp. exact (accepted_lags _ _ _ _ _ _ Hp). }
  split.
  - rewrite (inv_taus _ _ _ _ _ _ HI), (inv_s_zs _ _ _ _ _ _ HI),
      (inv_s_hs _ _ _ _ _ _ HI), (inv_s_xs _ _ _ _ _ _ HI), (inv_s_ys _ _ _ _ _ _ HI).
    repeat split; reflexivity.
  - rewrite (inv_taus _ _ _ _ _ _ HI), (inv_s_zs _ _ _ _ _ _ HI),
      (inv_s_hs _ _ _ _ _ _ HI), (inv_s_xs _ _ _ _ _ _ HI), (inv_s_ys _ _ _ _ _ _ HI).
    split; [|split].
    + apply Forall_map_iff. eapply Forall_impl; [|exact Hl].
      intros p Hp. cbv beta in Hp. tauto.
    + apply Forall_map_iff. eapply Forall_impl; [|exact Hl].
      intros p Hp. cbv beta in Hp. tauto.
    + revert Hl. destruct (horizontal_dist s); intros Hl.
      * apply Forall_map_iff. eapply Forall_impl; [|exact Hl].
        intros p Hp. cbv beta in Hp. tauto.
      * split; apply Forall_map_iff; (eapply Forall_impl; [|exact Hl]);
          intros p Hp; cbv beta in Hp; tauto.
Qed.

(** ** Evaluating the numeric helpers *)

Lemma mod_bounds (x y : R) : 0 < y -> 0 <= Np.mod_ x y < y.
Proof.
  intros Hy. unfold Np.mod_.
  pose proof (Zfloor_bound (x / y)) as [H1 H2].
  assert (Hx : x = y * (x / y)) by (field; lra).
  apply (Rmult_le_compat_l y) in H1; [|lra].
  apply (Rmult_lt_compat_l y) in H2; [|lra].
  rewrite <- Hx in H1, H2. lra.
Qed.

Lemma mod_eq (x y : R) (z : Z) :
  0 < y -> IZR z * y <= x < (IZR z + 1) * y -> Np.mod_ x y = x - y * IZR z.
Proof.
  intros Hy [H1 H2]. unfold Np.mod_. f_equal. f_equal. f_equal.
  apply Zfloor_eq. split.
  - apply (Rmult_le_reg_r y); [exact Hy|].
    replace (x / y * y) with x by (field; lra). exact H1.
  - apply (Rmult_lt_reg_r y); [exact Hy|].
    replace (x / y * y) with x by (field; lra). exact H2.
Qed.

Lemma int_eq (x : R) (z : Z) : 0 <= x -> IZR z <= x < IZR z + 1 -> Np.int x = z.
Proof.
  intros H0 Hz. unfold Np.int. destruct (Rle_dec 0 x); [|contradiction].
  apply Zfloor_eq. exact Hz.
Qed.

Lemma hor_dist_self (tbl : list Meas) (k : nat) : hor_dist tbl k k = 0.
Proof.
  unfold hor_dist. rewrite !Rminus_diag, !Rmult_0_r. simpl.
  rewrite !Rmult_0_l, Rplus_0_r. apply sqrt_0.
Qed.

Lemma hor_dist_sym (tbl : list Meas) (k l : nat) : hor_dist tbl k l = hor_dist tbl l k.
Proof. unfold hor_dist. f_equal. ring. Qed.

Lemma hor_dist_nonneg (tbl : list Meas) (k l : nat) : 0 <= hor_dist tbl k l.
Proof. unfold hor_dist. apply sqrt_pos. Qed.

(** The distance of two measurements on one meridian. *)
Lemma hor_dist_north (tbl : list Meas) (k l : nat) :
  lons (get tbl l) = lons (get tbl k) ->
  hor_dist tbl k l = latdeg2km * Rabs (lats (get tbl l) - lats (get tbl k)).
Proof.
  intros H. unfold hor_dist. rewrite H, Rminus_diag, Rmult_0_r.
  replace ((latdeg2km * (lats (get tbl l) - lats (get tbl k))) ^ 2 + 0 ^ 2)
    with ((latdeg2km * (lats (get tbl l) - lats (get tbl k)))²)
    by (unfold Rsqr; ring).
  rewrite sqrt_Rsqr_abs, Rabs_mult. f_equal.
  apply Rabs_pos_eq. unfold latdeg2km. lra.
Qed.

(** Comparisons, maxima and minima of closed terms, decided by [lra]. *)
Ltac rsolve :=
  unfold Rabs;
  repeat match goal with
    | |- context [Rcase_abs ?x] => destruct (Rcase_abs x)
    end;
  lra.

Ltac rminmax :=
  repeat match goal with
    | |- context [Rmax ?a ?b] =>
        first [ rewrite (Rmax_right a b) by lra | rewrite (Rmax_left a b) by lra ]
    | |- context [Rmin ?a ?b] =>
        first [ rewrite (Rmin_right a b) by lra | rewrite (Rmin_left a b) by lra ]
    end.

Ltac rcmp :=
  repeat match goal with
    | |- context [Rltb ?a ?b] =>
        first [ rewrite (proj2 (Rltb_true a b)) by rsolve
              | rewrite (proj2 (Rltb_false a b)) by rsolve ]
    | |- context [Rleb ?a ?b] =>
        first [ rewrite (proj2 (Rleb_true a b)) by rsolve
              | rewrite (proj2 (Rleb_false a b)) by rsolve ]
    end.

(** With the default hour window ([hour_of_day = 0], [dhour_of_day = 48])
    every measurement is in the working set. *)
Lemma working_set_default (s : LagSpec) (meas : list Meas) :
  hour_of_day s = 0 -> dhour_of_day s = 48 -> working_set s meas = meas.
Proof.
  intros H1 H2. unfold working_set.
  induction meas as [|x r IH]; simpl; [reflexivity|].
  assert (Hx : in_hour_window s x = true).
  { unfold in_hour_window. apply Rleb_true. rewrite H1, H2.
    pose proof (mod_bounds (t x / 3600) 24 ltac:(lra)) as Hb. fold (hod x) in Hb.
    unfold Rabs. destruct (Rcase_abs (hod x - 0)); lra. }
  rewrite Hx, IH. reflexivity.
Qed.

(** ** A worked run of the pair finder

    Four measurements at height 90 km on one meridian, at 0 s, 10 s, 100 s and
    400 s; the third lies 0.1 degree north of the others.  With the default
    lags and [horizontal_dist] there is one window, (0, 400), and one pair. *)

Definition demo_spec : LagSpec :=
  {| h0 := 90; dh := 2; ds_z := 1; s_z := 0; s_x := 0; ds_x := 1; s_y := 0;
     ds_y := 0; s_h := 0; ds_h := 100; tau := 0; dtau := 300;
     horizontal_dist := true; hour_of_day := 0; dhour_of_day := 48 |}.

Definition at_ (time lat : R) : Meas := mkMeas time 90 1 lat 0 (1, 0, 0).

Definition demo_tbl : list Meas := [at_ 0 0; at_ 10 0; at_ 100 0.1; at_ 400 0].

Definition demo_found : Found :=
  {| pairs := [(1%nat, 2%nat)];
     pair_dict := [(2%nat, 1%nat); (1%nat, 2%nat)];
     tods := [10];
     taus := [90];
     s_xs := [0];
     s_ys := [11.1321];
     s_zs := [0];
     s_hs := [11.1321] |}.

Lemma demo_hor_dist : hor_dist demo_tbl 1 2 = 11.1321.
Proof.
  rewrite hor_dist_north by reflexivity. simpl.
  rewrite Rabs_pos_eq by lra. unfold latdeg2km. lra.
Qed.

Lemma demo_max : Np.max_ (map t demo_tbl) = Returns 400.
Proof. simpl. rminmax. reflexivity. Qed.

Lemma demo_min : Np.min_ (map t demo_tbl) = Returns 0.
Proof. simpl. rminmax. reflexivity. Qed.

Lemma demo_n_times : n_times_of demo_spec 400 0 = Returns 1%Z.
Proof.
  unfold n_times_of. simpl. destruct (Req_dec_T 300 0); [lra|].
  f_equal. apply int_eq; lra.
Qed.

Lemma demo_find_pairs : find_pairs demo_spec demo_tbl = Returns (0, demo_found).
Proof.
  unfold find_pairs. rewrite demo_max, demo_min. cbn [bind].
  rewrite demo_n_times. cbn [bind]. do 2 f_equal.
  unfold Np.range. simpl map. simpl fold_left at 1.
  unfold window, it0_of, it1_of. simpl Z.eqb. cbv iota.
  unfold Np.where_, ref_mask, lagged_mask. simpl. rcmp. simpl.
  unfold scan. simpl. unfold lag_mask, dist_filter. simpl.
  rewrite !hor_dist_self, (hor_dist_sym _ 2 1), demo_hor_dist. rcmp. simpl.
  unfold visit, floors. simpl. rewrite demo_hor_dist. rcmp. simpl.
  unfold demo_found, londeg2km, latdeg2km. repeat f_equal; lra.
Qed.

Lemma demo_working_set : working_set demo_spec demo_tbl = demo_tbl.
Proof. apply working_set_default; reflexivity. Qed.

Lemma demo_run : find_pairs demo_spec (working_set demo_spec demo_tbl) = Returns (0, demo_found).
Proof. rewrite demo_working_set. exact demo_find_pairs. Qed.

Lemma pairs_unordered_unique_witness :
  find_pairs demo_spec (working_set demo_spec demo_tbl) = Returns (0, demo_found)
  /\ NoDup (pairs demo_found)
  /\ (forall k l, In (k, l) (pairs demo_found) -> ~ In (l, k) (pairs demo_found)).
Proof.
  split; [exact demo_run|].
  exact (pairs_unordered_unique demo_tbl demo_spec 0 demo_found demo_run).
Defined.

Lemma pairs_above_floors_witness :
  find_pairs demo_spec (working_set demo_spec demo_tbl) = Returns (0, demo_found)
  /\ Forall (fun p =>
               2 < hor_dist (working_set demo_spec demo_tbl) (fst p) (snd p)
               /\ 2 < Rabs (t (get (working_set demo_spec demo_tbl) (snd p))
                            - t (get (working_set demo_spec demo_tbl) (fst p)))
               /\ fst p <> snd p)
       (pairs demo_found).
Proof.
  split; [exact demo_run|].
  exact (pairs_above_floors demo_tbl demo_spec 0 demo_found demo_run).
Defined.

Lemma realized_lags_in_window_witness :
  find_pairs demo_spec (working_set demo_spec demo_tbl) = Returns (0, demo_found)
  /\ Forall (fun x => Rabs (x - tau demo_spec) < dtau demo_spec / 2) (taus demo_found)
  /\ Forall (fun x => Rabs (x - s_z demo_spec) < ds_z demo_spec / 2) (s_zs demo_found)
  /\ Forall (fun x => Rabs (x - s_h demo_spec) < ds_h demo_spec / 2) (s_hs demo_found).
Proof.
  split; [exact demo_run|].
  exact (proj2 (realized_lags_in_window demo_tbl demo_spec 0 demo_found demo_run)).
Defined.

(** ** The time-of-day restriction *)

(** The comparison the specification words: the distance of two hours on the
    24-hour circle, so that hour 0.2 is 0.7 h away from hour 23.5. *)
Definition wrap_distance (a b : R) : R :=
  Rmin (Np.mod_ (a - b) 24) (Np.mod_ (b - a) 24).

Definition spec_in_hour_window (s : LagSpec) (x : Meas) : Prop :=
  wrap_distance (hod x) (hour_of_day s) <= dhour_of_day s / 2.

(** A lag specification for the hour before midnight: 23.5 h +/- 1 h. *)
Definition late_spec : LagSpec :=
  {| h0 := 90; dh := 2; ds_z := 1; s_z := 0; s_x := 0; ds_x := 1; s_y := 0;
     ds_y := 0; s_h := 0; ds_h := 100; tau := 0; dtau := 300;
     horizontal_dist := true; hour_of_day := 23.5; dhour_of_day := 2 |}.

Lemma hod_720 : hod (at_ 720 0) = 0.2.
Proof.
  unfold hod. simpl. rewrite (mod_eq _ _ 0%Z); lra.
Qed.

(** C6, as stated, fails: a measurement at 00:12 (hour 0.2) is within one
    hour of 23.5 on the 24-hour circle, and the restriction to 23.5 +/- 1
    drops it. *)
Lemma hour_window_drops_across_midnight :
  In (at_ 720 0) [at_ 720 0]
  /\ spec_in_hour_window late_spec (at_ 720 0)
  /\ ~ In (at_ 720 0) (working_set late_spec [at_ 720 0]).
Proof.
  split; [left; reflexivity|]. split.
  - unfold spec_in_hour_window, wrap_distance. rewrite hod_720. simpl.
    rewrite (mod_eq (0.2 - 23.5) 24 (-1)%Z) by lra.
    rewrite (mod_eq (23.5 - 0.2) 24 0%Z) by lra.
    rminmax. lra.
  - unfold working_set, in_hour_window. simpl. rewrite hod_720. rcmp.
    simpl. tauto.
Qed.

Lemma filter_idempotent {X : Type} (p : X -> bool) (l : list X) :
  filter p (filter p l) = filter p l.
Proof.
  induction l as [|x l IH]; simpl; [reflexivity|].
  destruct (p x) eqn:Hp; simpl; [rewrite Hp, IH|]; auto.
Qed.

(** C6, amended. The restriction keeps exactly the measurements whose hour of
    day [hod = mod(t/3600, 24)] satisfies [|hod - hour_of_day| <=
    dhour_of_day/2], the plain absolute difference of the two hours (no wrap
    across midnight), and the rest of the call sees those measurements only. *)
Theorem working_set_plain_window (L : Lib) (meas : list Meas) (s : LagSpec) :
  (forall x, In x (working_set s meas) <->
             In x meas /\ Rabs (hod x - hour_of_day s) <= dhour_of_day s / 2)
  /\ cfi L meas s = cfi L (working_set s meas) s.
Proof.
  split.
  - intros x. unfold working_set. rewrite filter_In. unfold in_hour_window.
    rewrite Rleb_true. tauto.
  - unfold cfi, working_set. rewrite filter_idempotent. reflexivity.
Qed.

(** ** What the pair loop records *)

Lemma fold_left_mono {X Y : Type} (f : X -> Y -> X) (P : X -> Prop) :
  (forall a b, P a -> P (f a b)) ->
  forall l a, P a -> P (fold_left f l a).
Proof.
  intros Hf l. induction l as [|b l IH]; intros a Ha; simpl; auto.
Qed.

Lemma fold_left_reach {X Y : Type} (f : X -> Y -> X) (P : X -> Prop) (b : Y) :
  (forall a b', P a -> P (f a b')) ->
  (forall a, P (f a b)) ->
  forall l a, In b l -> P (fold_left f l a).
Proof.
  intros Hmono Hb l. induction l as [|c l IH]; intros a Hin; simpl.
  - destruct Hin.
  - destruct Hin as [-> | Hin].
    + apply fold_left_mono; auto.
    + apply IH. exact Hin.
Qed.

Section Recording.

Variable s : LagSpec.
Variable tbl : list Meas.
Variables (t0 tmax : R) (n_times : Z).

Lemma visit_dict_mono (key : nat * nat) (k l : nat) (st : Found) :
  In key (pair_dict st) -> In key (pair_dict (visit tbl k st l)).
Proof.
  intros H. unfold visit.
  destruct (in_dict (k, l) (pair_dict st)); [exact H|].
  destruct (floors tbl k l); [|exact H].
  simpl. auto.
Qed.

Lemma visit_records (k l : nat) (st : Found) :
  floors tbl k l = true -> In (k, l) (pair_dict (visit tbl k st l)).
Proof.
  intros Hf. unfold visit.
  destruct (in_dict (k, l) (pair_dict st)) eqn:Hd.
  - apply in_dict_In. exact Hd.
  - rewrite Hf. simpl. auto.
Qed.

Lemma scan_dict_mono (key : nat * nat) (idx1 : list nat) (k : nat) (st : Found) :
  In key (pair_dict st) -> In key (pair_dict (scan s tbl idx1 st k)).
Proof.
  unfold scan.
  apply (fold_left_mono (visit tbl k) (fun st => In key (pair_dict st))).
  intros a b. apply visit_dict_mono.
Qed.

Lemma scan_records (idx1 : list nat) (k l : nat) (st : Found) :
  In l idx1 -> lag_mask s tbl k l = true -> floors tbl k l = true ->
  In (k, l) (pair_dict (scan s tbl idx1 st k)).
Proof.
  intros Hl Hm Hf. unfold scan.
  apply (fold_left_reach (visit tbl k) (fun st => In (k, l) (pair_dict st)) l).
  - intros a b. apply visit_dict_mono.
  - intros a. apply visit_records. exact Hf.
  - apply filter_In. auto.
Qed.

Lemma window_dict_mono (key : nat * nat) (i : Z) (st : Found) :
  In key (pair_dict st) -> In key (pair_dict (window s tbl t0 tmax n_times st i)).
Proof.
  unfold window.
  apply (fold_left_mono _ (fun st => In key (pair_dict st))).
  intros a b. apply scan_dict_mono.
Qed.

Lemma window_records (i : Z) (k l : nat) (st : Found) :
  in_window s tbl t0 tmax n_times i k l ->
  lag_mask s tbl k l = true -> floors tbl k l = true ->
  In (k, l) (pair_dict (window s tbl t0 tmax n_times st i)).
Proof.
  intros [_ [Hk Hl]] Hm Hf. unfold window.
  apply (fold_left_reach _ (fun st => In (k, l) (pair_dict st)) k).
  - intros a b. apply scan_dict_mono.
  - intros a. apply scan_records; assumption.
  - exact Hk.
Qed.

(** A pair that passes the masks of some window, the lag mask and the floors
    is in the list, in one of its two orders. *)
Lemma accepted_recorded (p : nat * nat) :
  accepted s tbl t0 tmax n_times p ->
  let st := fold_left (window s tbl t0 tmax n_times) (Np.range n_times) found0 in
  In p (pairs st) \/ In (snd p, fst p) (pairs st).
Proof.
  intros [[i Hw] [Hm Hf]] st.
  apply (inv_dict s tbl t0 tmax n_times st (windows_Inv s tbl t0 tmax n_times)).
  destruct p as [k l]. simpl in *. unfold st.
  apply (fold_left_reach _ (fun st => In (k, l) (pair_dict st)) i).
  - intros a b. apply window_dict_mono.
  - intros a. apply window_records; assumption.
  - apply In_range. destruct Hw as [Hi _]. exact Hi.
Qed.

End Recording.

(** ** Which pairs the windows cover *)

(** Two times less than [dtau/2] apart, both strictly between the first and
    the last time of the working set, fall in one window of the loop. *)
Lemma window_covers (s : LagSpec) (t0 tmax u v : R) :
  0 < dtau s -> dtau s <= tmax - t0 ->
  t0 < u -> t0 < v -> u < tmax -> v < tmax -> Rabs (v - u) < dtau s / 2 ->
  exists i, (0 <= i < Np.int ((tmax - t0) / dtau s))%Z
    /\ it0_of s t0 i < u /\ it0_of s t0 i < v
    /\ u < it1_of s t0 tmax (Np.int ((tmax - t0) / dtau s)) i
    /\ v < it1_of s t0 tmax (Np.int ((tmax - t0) / dtau s)) i.
Proof.
  intros Hd Hspan Hu Hv Hu' Hv' Huv.
  unfold it0_of, it1_of.
  set (d := dtau s) in *.
  set (n := Np.int ((tmax - t0) / d)).
  assert (HX : 1 <= (tmax - t0) / d).
  { apply (Rmult_le_reg_r d); [lra|].
    replace ((tmax - t0) / d * d) with (tmax - t0) by (field; lra). lra. }
  assert (Hn : (1 <= n)%Z).
  { unfold n, Np.int. destruct (Rle_dec 0 ((tmax - t0) / d)); [|lra].
    apply (Zfloor_lub 1). exact HX. }
  set (lo := Rmin u v).
  assert (Hlo : t0 < lo /\ lo <= u /\ lo <= v /\ u < lo + d / 2 /\ v < lo + d / 2).
  { unfold lo, Rmin. apply Rabs_def2 in Huv. destruct (Rle_dec u v); lra. }
  destruct Hlo as [Hlo0 [Hlou [Hlov [Hulo Hvlo]]]].
  set (c := Zceil ((lo - t0) / d)).
  pose proof (Zceil_bound ((lo - t0) / d)) as [Hc1 Hc2]. fold c in Hc1, Hc2.
  assert (Hq : (lo - t0) / d * d = lo - t0) by (field; lra).
  assert (Hc1' : (IZR c - 1) * d < lo - t0).
  { rewrite <- Hq. apply Rmult_lt_compat_r; lra. }
  assert (Hc2' : lo - t0 <= IZR c * d).
  { rewrite <- Hq. apply Rmult_le_compat_r; lra. }
  assert (Hcpos : (1 <= c)%Z).
  { assert (0 < IZR c).
    { apply Rlt_le_trans with ((lo - t0) / d); [|exact Hc2].
      apply Rdiv_lt_0_compat; lra. }
    apply lt_IZR in H. lia. }
  destruct (Z_lt_ge_dec (c - 1) (n - 1)) as [Hlt | Hge].
  - exists (c - 1)%Z.
    rewrite (proj2 (Z.eqb_neq _ _)) by lia. rewrite minus_IZR.
    repeat split; try lia; lra.
  - exists (n - 1)%Z. rewrite Z.eqb_refl.
    assert (Hle : IZR (n - 1) <= IZR c - 1).
    { rewrite <- minus_IZR. apply IZR_le. lia. }
    assert (Hm : IZR (n - 1) * d <= (IZR c - 1) * d).
    { apply Rmult_le_compat_r; lra. }
    repeat split; try lia; lra.
Qed.

(** The predicates of the pair finder that do not depend on the windows: both
    indices in the working set, [k] in the reference height band, [l] in the
    lagged height band, the lag mask and the floors. *)
Definition eligible (s : LagSpec) (tbl : list Meas) (k l : nat) : Prop :=
  (k < length tbl)%nat /\ (l < length tbl)%nat
  /\ (h0 s - dh s * 0.5 < heights (get tbl k) < h0 s + dh s * 0.5)
  /\ (h0 s + s_z s - 0.5 * dh s < heights (get tbl l) < h0 s + s_z s + 0.5 * dh s)
  /\ lag_mask s tbl k l = true
  /\ floors tbl k l = true.

Lemma lag_mask_time (s : LagSpec) (tbl : list Meas) (k l : nat) :
  lag_mask s tbl k l = true ->
  Rabs (t (get tbl l) - t (get tbl k) - tau s) < dtau s / 2.
Proof.
  unfold lag_mask. rewrite !andb_true_iff, !Rltb_true. tauto.
Qed.

(** The loop records every eligible pair whose reference time and shifted
    lagged time lie strictly between the first and the last time of the
    working set, when that span holds at least one [dtau]. *)
Lemma interior_pairs_recorded (s : LagSpec) (tbl : list Meas) (t0 tmax : R)
  (st : Found) (k l : nat) :
  find_pairs s tbl = Returns (t0, st) ->
  Np.max_ (map t tbl) = Returns tmax ->
  0 < dtau s -> dtau s <= tmax - t0 ->
  eligible s tbl k l ->
  t0 < t (get tbl k) < tmax ->
  t0 < t (get tbl l) - tau s < tmax ->
  In (k, l) (pairs st) \/ In (l, k) (pairs st).
Proof.
  intros Hf Hmax Hd Hspan [Hk [Hl [Hrk [Hrl [Hm Hfl]]]]] [Hk0 Hk1] [Hl0 Hl1].
  apply find_pairs_Returns in Hf.
  destruct Hf as [tmax' [n [Hmax' [_ [Hn ->]]]]].
  rewrite Hmax in Hmax'. injection Hmax' as <-.
  unfold n_times_of in Hn.
  destruct (Req_dec_T (dtau s) 0) as [He|_]; [lra|]. injection Hn as <-.
  pose proof (lag_mask_time s tbl k l Hm) as Ht.
  destruct (window_covers s t0 tmax (t (get tbl k)) (t (get tbl l) - tau s))
    as [i [Hi [H1 [H2 [H3 H4]]]]]; try assumption.
  { replace (t (get tbl l) - tau s - t (get tbl k))
      with (t (get tbl l) - t (get tbl k) - tau s) by ring. exact Ht. }
  apply (accepted_recorded s tbl t0 tmax _ (k, l)).
  split; [|simpl; auto].
  exists i. simpl. split; [exact Hi|]. split.
  - apply In_where. split; [exact Hk|]. unfold ref_mask.
    rewrite !andb_true_iff, !Rltb_true. lra.
  - apply In_where. split; [exact Hl|]. unfold lagged_mask.
    rewrite !andb_true_iff, !Rltb_true. lra.
Qed.

(** ** Pairs the windows miss *)

(** Two measurements 100 s and about 11 km apart: one [dtau] is longer than
    their time span, so [n_times = 0]. *)
Definition short_tbl : list Meas := [at_ 0 0; at_ 100 0.1].

(** The same two, followed by a third at 400 s: one window, (0, 400), whose
    strict lower bound leaves out the measurement at the first time. *)
Definition edge_tbl : list Meas := [at_ 0 0; at_ 100 0.1; at_ 400 0].

Lemma short_hor_dist : hor_dist short_tbl 0 1 = 11.1321.
Proof.
  rewrite hor_dist_north by reflexivity. simpl.
  rewrite Rabs_pos_eq by lra. unfold latdeg2km. lra.
Qed.

Lemma edge_hor_dist : hor_dist edge_tbl 0 1 = 11.1321.
Proof.
  rewrite hor_dist_north by reflexivity. simpl.
  rewrite Rabs_pos_eq by lra. unfold latdeg2km. lra.
Qed.

Lemma short_eligible : eligible demo_spec short_tbl 0 1.
Proof.
  unfold eligible. simpl. repeat split; try lia; try lra.
  - unfold lag_mask, dist_filter. simpl. rewrite short_hor_dist. rcmp. reflexivity.
  - unfold floors. simpl. rewrite short_hor_dist. rcmp. reflexivity.
Qed.

Lemma edge_eligible : eligible demo_spec edge_tbl 0 1.
Proof.
  unfold eligible. simpl. repeat split; try lia; try lra.
  - unfold lag_mask, dist_filter. simpl. rewrite edge_hor_dist. rcmp. reflexivity.
  - unfold floors. simpl. rewrite edge_hor_dist. rcmp. reflexivity.
Qed.

Lemma short_find_pairs : find_pairs demo_spec short_tbl = Returns (0, found0).
Proof.
  unfold find_pairs. simpl Np.max_. simpl Np.min_. rminmax. cbn [bind].
  assert (Hn : n_times_of demo_spec 100 0 = Returns 0%Z).
  { unfold n_times_of. simpl. destruct (Req_dec_T 300 0); [lra|].
    f_equal. apply int_eq; lra. }
  rewrite Hn. reflexivity.
Qed.

Lemma edge_find_pairs : find_pairs demo_spec edge_tbl = Returns (0, found0).
Proof.
  unfold find_pairs. simpl Np.max_. simpl Np.min_. rminmax. cbn [bind].
  assert (Hn : n_times_of demo_spec 400 0 = Returns 1%Z).
  { unfold n_times_of. simpl. destruct (Req_dec_T 300 0); [lra|].
    f_equal. apply int_eq; lra. }
  rewrite Hn. cbn [bind]. do 2 f_equal.
  unfold Np.range. simpl map. simpl fold_left at 1.
  unfold window, it0_of, it1_of. simpl Z.eqb. cbv iota.
  unfold Np.where_, ref_mask, lagged_mask. simpl. rcmp. simpl.
  unfold scan. simpl. unfold lag_mask, dist_filter. simpl.
  rewrite !hor_dist_self. rcmp. simpl. reflexivity.
Qed.

(** C5, at two inputs the code can receive. In [short_tbl] and in [edge_tbl]
    the ordered pair (0, 1) satisfies both height bands, the lag mask and the
    floors, and the pair finder returns no pair at all: with [short_tbl]
    there is no window ([n_times = int(100/300) = 0]), with [edge_tbl] the
    only window is (0, 400) and [t > it0] excludes measurement 0. *)
Theorem window_blocking_misses_pairs :
  (eligible demo_spec (working_set demo_spec short_tbl) 0 1
   /\ find_pairs demo_spec (working_set demo_spec short_tbl) = Returns (0, found0))
  /\ (eligible demo_spec (working_set demo_spec edge_tbl) 0 1
      /\ find_pairs demo_spec (working_set demo_spec edge_tbl) = Returns (0, found0)).
Proof.
  rewrite !(working_set_default demo_spec) by reflexivity.
  split; split.
  - exact short_eligible.
  - exact short_find_pairs.
  - exact edge_eligible.
  - exact edge_find_pairs.
Qed.

(** ** Degenerate inputs *)

Lemma find_pairs_empty (s : LagSpec) : find_pairs s [] = Raises ValueError.
Proof. reflexivity. Qed.

(** C1, at the inputs it names first. On an empty measurement table, and on a
    table none of whose measurements passes the time-of-day restriction,
    [n.max(t)] of line 187 raises [ValueError] outside the [try] block: [cfi]
    raises and returns no result. *)
Theorem cfi_empty_working_set_raises :
  (forall (L : Lib) (s : LagSpec), cfi L [] s = Raises ValueError)
  /\ (forall (L : Lib), cfi L [at_ 720 0] late_spec = Raises ValueError).
Proof.
  split.
  - intros L s. reflexivity.
  - intros L. unfold cfi.
    assert (Hw : working_set late_spec [at_ 720 0] = []).
    { unfold working_set, in_hour_window. simpl. rewrite hod_720. rcmp. reflexivity. }
    rewrite Hw. reflexivity.
Qed.

Lemma set_index_length (a : list R) (i : nat) (v : R) :
  (i < length a)%nat ->
  exists a', set_index a i v = Returns a' /\ length a' = length a.
Proof.
  revert i. induction a as [|x r IH]; intros i Hi; simpl in *; [lia|].
  destruct i as [|i].
  - eexists. split; reflexivity.
  - destruct (IH i ltac:(lia)) as [r' [Hr Hl]]. rewrite Hr. simpl.
    eexists. split; [reflexivity|]. simpl. congruence.
Qed.

Lemma zip_with_length (f : R -> R -> R) (a b : list R) :
  length (zip_with f a b) = Nat.min (length a) (length b).
Proof.
  revert b. induction a as [|x a IH]; intros [|y b]; simpl; auto.
Qed.

(** The density model is built without an exception when the histogram has
    at least two bin edges ([n.histogram] with 48 bins returns 49). *)
Lemma density_model_Returns (L : Lib) (tods : list R) :
  (2 <= length (snd (n_histogram L (map (fun x => Np.mod_ (x / 3600) 24) tods) 48)))%nat ->
  exists countf, density_model L tods = Returns countf.
Proof.
  unfold density_model.
  destruct (n_histogram L (map (fun x => Np.mod_ (x / 3600) 24) tods) 48)
    as [thist tbins]. cbn [snd]. intros Hlen.
  set (z := zip_with (fun a b => 0.5 * (a + b))
              (firstn (length tbins - 1) tbins) (skipn 1 tbins)).
  assert (Hz : (0 < length z)%nat).
  { unfold z. rewrite zip_with_length, length_firstn, length_skipn. lia. }
  destruct (set_index_length z 0 0 Hz) as [z1 [H1 Hl1]]. rewrite H1. cbn [bind].
  destruct (set_index_length z1 (length z1 - 1) 24 ltac:(lia)) as [z2 [H2 _]].
  rewrite H2. cbn [bind]. eexists. reflexivity.
Qed.

(** With a working set that is not empty and [dtau <> 0], a call that finds
    no pair returns NaN in all six [acf] and all six [err] entries: the
    [try] block fails on the unbound [w] and the [except] branch answers. *)
Lemma cfi_no_pairs_nan (L : Lib) (meas : list Meas) (s : LagSpec) (t0 : R) (st : Found) :
  find_pairs s (working_set s meas) = Returns (t0, st) ->
  pairs st = [] ->
  (2 <= length (snd (n_histogram L [] 48)))%nat ->
  exists r, cfi L meas s = Returns r
            /\ acf r = repeat NaN 6 /\ err r = repeat NaN 6
            /\ mean_tau r = NaN /\ mean_sh r = NaN.
Proof.
  intros Hf Hp Hh.
  destruct (find_pairs_Inv _ _ _ _ Hf) as [tmax [n HI]].
  pose proof (inv_tods _ _ _ _ _ _ HI) as Htod.
  pose proof (inv_taus _ _ _ _ _ _ HI) as Htau.
  pose proof (inv_s_hs _ _ _ _ _ _ HI) as Hsh.
  rewrite Hp in Htod, Htau, Hsh. simpl in Htod, Htau, Hsh.
  unfold cfi. rewrite Hf. cbn [bind].
  destruct (density_model_Returns L (tods st)) as [countf Hc].
  { rewrite Htod. exact Hh. }
  rewrite Hc. cbn [bind]. rewrite Hp. simpl.
  eexists. split; [reflexivity|]. simpl. rewrite Htau, Hsh. auto.
Qed.

(** A call that returns has found its pairs, built the density model and the
    design matrices of those pairs, and answers what the [try] block left in
    [acf] and [err]. *)
Lemma cfi_Returns (L : Lib) (meas : list Meas) (s : LagSpec) (r : InversionResult) :
  cfi L meas s = Returns r ->
  exists t0 st countf d,
    find_pairs s (working_set s meas) = Returns (t0, st)
    /\ density_model L (tods st) = Returns countf
    /\ design countf (working_set s meas) t0 (pairs st) = Returns d
    /\ invert L d = (acf r, err r).
Proof.
  unfold cfi. intros H.
  destruct (find_pairs s (working_set s meas)) as [[t0 st]|e]; [|discriminate].
  cbn [bind] in H.
  destruct (density_model L (tods st)) as [countf|e] eqn:Hc; [|discriminate].
  cbn [bind] in H.
  destruct (design countf (working_set s meas) t0 (pairs st)) as [d|e] eqn:Hd;
    [|discriminate].
  cbn [bind] in H.
  destruct (invert L d) as [a e] eqn:Hinv.
  injection H as <-. exists t0, st, countf, d. simpl.
  split; [reflexivity|]. split; [exact Hc|]. split; [exact Hd|exact Hinv].
Qed.

(** ** The rows of the design matrices *)

Lemma design_nth (countf : R -> result R) (tbl : list Meas) (t0 : R) :
  forall (prs : list (nat * nat)) (d : Design) (i k l : nat),
    design countf tbl t0 prs = Returns d ->
    nth_error prs i = Some (k, l) ->
    exists c,
      countf (weight_hour tbl t0 k) = Returns c
      /\ nth_error (ws d) i = Some (1 / c)
      /\ nth_error (A d) i = Some (A_row (1 / c) (get tbl k) (get tbl l))
      /\ nth_error (Ao d) i = Some (Ao_row (get tbl k) (get tbl l))
      /\ nth_error (m d) i = Some (m_entry (1 / c) (get tbl k) (get tbl l))
      /\ nth_error (mo d) i = Some (mo_entry (get tbl k) (get tbl l)).
Proof.
  induction prs as [|[k' l'] rest IH]; intros d i k l Hd Hi.
  - destruct i; discriminate.
  - simpl in Hd.
    destruct (countf (weight_hour tbl t0 k')) as [c|e] eqn:Hc; [|discriminate].
    cbn [bind] in Hd.
    destruct (design countf tbl t0 rest) as [d'|e] eqn:Hrest; [|discriminate].
    cbn [bind] in Hd. injection Hd as <-.
    destruct i as [|i]; simpl in Hi.
    + injection Hi as -> ->. exists c. simpl. auto 10.
    + destruct (IH d' i k l eq_refl Hi) as [c' H]. exists c'. simpl. exact H.
Qed.

(** C2. Row [pi] of the unweighted design matrix is
    [[ku*lu, kv*lv, kw*lw, ku*lv+kv*lu, ku*lw+kw*lu, kv*lw+kw*lv]] for the
    Bragg vectors of the pair [(k, l)] at index [pi]; the unweighted
    observation is [(2 pi)^2 dop(k) dop(l)]; the weighted row and the weighted
    observation are these, each multiplied by the weight of the pair. *)
Theorem design_row_of_pair (countf : R -> result R) (tbl : list Meas) (t0 : R)
  (prs : list (nat * nat)) (d : Design) (i k l : nat) (ku kv kw lu lv lw : R) :
  design countf tbl t0 prs = Returns d ->
  nth_error prs i = Some (k, l) ->
  braggs (get tbl k) = (ku, kv, kw) ->
  braggs (get tbl l) = (lu, lv, lw) ->
  let row := [ku * lu; kv * lv; kw * lw;
              ku * lv + kv * lu; ku * lw + kw * lu; kv * lw + kw * lv] in
  let obs := (2 * PI) ^ 2 * dops (get tbl k) * dops (get tbl l) in
  exists w,
    nth_error (ws d) i = Some w
    /\ nth_error (Ao d) i = Some row
    /\ nth_error (mo d) i = Some obs
    /\ nth_error (A d) i = Some (map (fun a => a * w) row)
    /\ nth_error (m d) i = Some (obs * w).
Proof.
  intros Hd Hi Hk Hl row obs.
  destruct (design_nth countf tbl t0 prs d i k l Hd Hi)
    as [c [_ [Hw [HA [HAo [Hm Hmo]]]]]].
  exists (1 / c). split; [exact Hw|].
  unfold A_row, Ao_row, m_entry, mo_entry, bragg in *.
  rewrite Hk, Hl in HA, HAo. simpl in HA, HAo.
  split; [exact HAo|]. split; [exact Hmo|]. split.
  - rewrite HA. unfold row. simpl. f_equal.
    repeat (apply f_equal2; [ring|]). reflexivity.
  - rewrite Hm. unfold obs. f_equal. ring.
Qed.

Definition demo_design : Design :=
  {| A := [A_row (1 / 2) (get demo_tbl 1) (get demo_tbl 2)];
     Ao := [Ao_row (get demo_tbl 1) (get demo_tbl 2)];
     m := [m_entry (1 / 2) (get demo_tbl 1) (get demo_tbl 2)];
     mo := [mo_entry (get demo_tbl 1) (get demo_tbl 2)];
     ws := [1 / 2] |}.

Lemma design_row_of_pair_witness :
  design (fun _ => Returns 2) demo_tbl 0 (pairs demo_found) = Returns demo_design
  /\ nth_error (pairs demo_found) 0 = Some (1%nat, 2%nat)
  /\ braggs (get demo_tbl 1) = (1, 0, 0)
  /\ braggs (get demo_tbl 2) = (1, 0, 0)
  /\ exists w,
      nth_error (ws demo_design) 0 = Some w
      /\ nth_error (Ao demo_design) 0
         = Some [1 * 1; 0 * 0; 0 * 0; 1 * 0 + 0 * 1; 1 * 0 + 0 * 1; 0 * 0 + 0 * 0]
      /\ nth_error (mo demo_design) 0
         = Some ((2 * PI) ^ 2 * dops (get demo_tbl 1) * dops (get demo_tbl 2))
      /\ nth_error (A demo_design) 0
         = Some (map (fun a => a * w)
                   [1 * 1; 0 * 0; 0 * 0; 1 * 0 + 0 * 1; 1 * 0 + 0 * 1; 0 * 0 + 0 * 0])
      /\ nth_error (m demo_design) 0
         = Some ((2 * PI) ^ 2 * dops (get demo_tbl 1) * dops (get demo_tbl 2) * w).
Proof.
  split; [reflexivity|]. split; [reflexivity|].
  split; [reflexivity|]. split; [reflexivity|].
  exact (design_row_of_pair (fun _ => Returns 2) demo_tbl 0 (pairs demo_found)
           demo_design 0 1 2 1 0 0 1 0 0 eq_refl eq_refl eq_refl eq_refl).
Defined.

(** ** The hour at which a pair is weighted *)

(** Five measurements on one meridian, the first at 01:00:00; the second is
    the reference of two pairs, the third of one. *)
Definition busy_tbl : list Meas :=
  [at_ 3600 0; at_ 3610 0; at_ 3700 0.1; at_ 3710 0.2; at_ 4000 0].

Definition busy_found : Found :=
  {| pairs := [(1%nat, 2%nat); (1%nat, 3%nat); (2%nat, 3%nat)];
     pair_dict := [(3%nat, 2%nat); (2%nat, 3%nat); (3%nat, 1%nat); (1%nat, 3%nat);
                   (2%nat, 1%nat); (1%nat, 2%nat)];
     tods := [3610; 3610; 3700];
     taus := [90; 100; 10];
     s_xs := [0; 0; 0];
     s_ys := [11.1321; 22.2642; 11.1321];
     s_zs := [0; 0; 0];
     s_hs := [11.1321; 22.2642; 11.1321] |}.

Lemma busy_hor_dist_12 : hor_dist busy_tbl 1 2 = 11.1321.
Proof.
  rewrite hor_dist_north by reflexivity. simpl.
  rewrite Rabs_pos_eq by lra. unfold latdeg2km. lra.
Qed.

Lemma busy_hor_dist_13 : hor_dist busy_tbl 1 3 = 22.2642.
Proof.
  rewrite hor_dist_north by reflexivity. simpl.
  rewrite Rabs_pos_eq by lra. unfold latdeg2km. lra.
Qed.

Lemma busy_hor_dist_23 : hor_dist busy_tbl 2 3 = 11.1321.
Proof.
  rewrite hor_dist_north by reflexivity. simpl.
  rewrite Rabs_pos_eq by lra. unfold latdeg2km. lra.
Qed.

(** The window (3600, 4000) holds the measurements 1, 2 and 3, as references
    and as lagged ones. *)
Lemma busy_idx0 :
  Np.where_ (ref_mask demo_spec 3600 4000) busy_tbl = [1; 2; 3]%nat.
Proof. unfold Np.where_, ref_mask. simpl. rcmp. reflexivity. Qed.

Lemma busy_idx1 :
  Np.where_ (lagged_mask demo_spec 3600 4000) busy_tbl = [1; 2; 3]%nat.
Proof. unfold Np.where_, lagged_mask. simpl. rcmp. reflexivity. Qed.

Lemma busy_lag_mask_self (k : nat) : lag_mask demo_spec busy_tbl k k = false.
Proof.
  unfold lag_mask. rewrite Nat.eqb_refl. simpl.
  rewrite andb_false_r. reflexivity.
Qed.

Lemma busy_lag_mask_12 : lag_mask demo_spec busy_tbl 1 2 = true.
Proof.
  unfold lag_mask, dist_filter. simpl. rewrite busy_hor_dist_12. rcmp. reflexivity.
Qed.

Lemma busy_lag_mask_13 : lag_mask demo_spec busy_tbl 1 3 = true.
Proof.
  unfold lag_mask, dist_filter. simpl. rewrite busy_hor_dist_13. rcmp. reflexivity.
Qed.

Lemma busy_lag_mask_23 : lag_mask demo_spec busy_tbl 2 3 = true.
Proof.
  unfold lag_mask, dist_filter. simpl. rewrite busy_hor_dist_23. rcmp. reflexivity.
Qed.

Lemma busy_lag_mask_21 : lag_mask demo_spec busy_tbl 2 1 = true.
Proof.
  unfold lag_mask, dist_filter. simpl.
  rewrite (hor_dist_sym _ 2 1), busy_hor_dist_12. rcmp. reflexivity.
Qed.

Lemma busy_lag_mask_31 : lag_mask demo_spec busy_tbl 3 1 = true.
Proof.
  unfold lag_mask, dist_filter. simpl.
  rewrite (hor_dist_sym _ 3 1), busy_hor_dist_13. rcmp. reflexivity.
Qed.

Lemma busy_lag_mask_32 : lag_mask demo_spec busy_tbl 3 2 = true.
Proof.
  unfold lag_mask, dist_filter. simpl.
  rewrite (hor_dist_sym _ 3 2), busy_hor_dist_23. rcmp. reflexivity.
Qed.

Lemma busy_floors_12 : floors busy_tbl 1 2 = true.
Proof. unfold floors. rewrite busy_hor_dist_12. simpl. rcmp. reflexivity. Qed.

Lemma busy_floors_13 : floors busy_tbl 1 3 = true.
Proof. unfold floors. rewrite busy_hor_dist_13. simpl. rcmp. reflexivity. Qed.

Lemma busy_floors_23 : floors busy_tbl 2 3 = true.
Proof. unfold floors. rewrite busy_hor_dist_23. simpl. rcmp. reflexivity. Qed.

(** One step of [for l in idxt]. *)
Lemma visit_seen (tbl : list Meas) (k l : nat) (st : Found) :
  in_dict (k, l) (pair_dict st) = true -> visit tbl k st l = st.
Proof. intros H. unfold visit. rewrite H. reflexivity. Qed.

Lemma visit_new (tbl : list Meas) (k l : nat) (st : Found) :
  in_dict (k, l) (pair_dict st) = false -> floors tbl k l = true ->
  visit tbl k st l
  = {| pairs := pairs st ++ [(k, l)];
       pair_dict := (l, k) :: (k, l) :: pair_dict st;
       tods := tods st ++ [t (get tbl k)];
       taus := taus st ++ [t (get tbl l) - t (get tbl k)];
       s_xs := s_xs st ++ [londeg2km * (lons (get tbl l) - lons (get tbl k))];
       s_ys := s_ys st ++ [latdeg2km * (lats (get tbl l) - lats (get tbl k))];
       s_zs := s_zs st ++ [heights (get tbl l) - heights (get tbl k)];
       s_hs := s_hs st ++ [hor_dist tbl k l] |}.
Proof. intros H1 H2. unfold visit. rewrite H1, H2. reflexivity. Qed.

Ltac visit_step :=
  match goal with
  | |- context [visit ?tb ?k (mkFound ?a ?b ?c ?d ?e ?f ?g ?h) ?l] =>
      first [ rewrite (visit_seen tb k l (mkFound a b c d e f g h)) by reflexivity
            | rewrite (visit_new tb k l (mkFound a b c d e f g h))
                by (reflexivity || assumption) ]
  end;
  cbn [pairs pair_dict tods taus s_xs s_ys s_zs s_hs app].

Lemma busy_find_pairs : find_pairs demo_spec busy_tbl = Returns (3600, busy_found).
Proof.
  unfold find_pairs. simpl Np.max_. simpl Np.min_. rminmax. cbn [bind].
  assert (Hn : n_times_of demo_spec 4000 3600 = Returns 1%Z).
  { unfold n_times_of. simpl. destruct (Req_dec_T 300 0); [lra|].
    f_equal. apply int_eq; lra. }
  rewrite Hn. cbn [bind]. do 2 f_equal.
  unfold Np.range. simpl map. cbn [fold_left].
  unfold window, it0_of, it1_of. simpl Z.eqb. cbv iota.
  replace (IZR 0 * dtau demo_spec + 3600) with 3600 by (simpl; lra).
  rewrite busy_idx0, busy_idx1.
  cbn [fold_left]. unfold scan. cbn [filter].
  rewrite !busy_lag_mask_self, busy_lag_mask_12, busy_lag_mask_13, busy_lag_mask_23,
    busy_lag_mask_21, busy_lag_mask_31, busy_lag_mask_32.
  pose proof busy_floors_12 as F12. pose proof busy_floors_13 as F13.
  pose proof busy_floors_23 as F23.
  cbn [fold_left]. unfold found0.
  do 6 visit_step.
  rewrite busy_hor_dist_12, busy_hor_dist_13, busy_hor_dist_23.
  unfold busy_found, londeg2km, latdeg2km. simpl.
  repeat f_equal; lra.
Qed.

(** *** What numpy and scipy document of [histogram] and [interp1d]

    [n.histogram(a, bins)] without a range, for data that are not all equal:
    [bins] bins of equal width from the least entry [lo] to the greatest
    [hi]; an entry is counted in the bin whose left edge is at or below it
    and whose right edge is above it, and [hi] in the last bin.
    [si.interp1d(x, y)], of the default kind: between two adjacent points of
    [x] the straight line through the two values. *)

Definition edge (lo hi : R) (bins j : nat) : R := lo + INR j * ((hi - lo) / INR bins).

Definition in_bin (lo hi : R) (bins j : nat) (x : R) : bool :=
  (edge lo hi bins j <=? x)
  && ((x <? edge lo hi bins (S j)) || (Nat.eqb (S j) bins && (hi <=? x))).

Definition histogram_contract (L : Lib) : Prop :=
  forall a lo hi bins,
    Np.min_ a = Returns lo -> Np.max_ a = Returns hi -> lo < hi ->
    n_histogram L a bins
    = (map (fun j => INR (length (filter (in_bin lo hi bins j) a))) (seq 0 bins),
       map (edge lo hi bins) (seq 0 (S bins))).

Fixpoint increasing (xs : list R) : Prop :=
  match xs with
  | x0 :: ((x1 :: _) as r) => x0 < x1 /\ increasing r
  | _ => True
  end.

Definition interp1d_contract (L : Lib) : Prop :=
  forall xs ys i x0 x1 y0 y1 x,
    increasing xs -> length xs = length ys ->
    nth_error xs i = Some x0 -> nth_error xs (S i) = Some x1 ->
    nth_error ys i = Some y0 -> nth_error ys (S i) = Some y1 ->
    x0 <= x <= x1 ->
    interp1d L xs ys x = Returns (y0 + (y1 - y0) * ((x - x0) / (x1 - x0))).

(** *** The density model of the run *)

Lemma busy_hours :
  map (fun x => Np.mod_ (x / 3600) 24) (tods busy_found) = [361 / 360; 361 / 360; 37 / 36].
Proof.
  simpl. rewrite !(mod_eq _ _ 0%Z) by lra.
  apply f_equal2; [lra|]. apply f_equal2; [lra|]. apply f_equal2; [lra | reflexivity].
Qed.

Lemma INR_48 : INR 48 = 48.
Proof. rewrite INR_IZR_INZ. reflexivity. Qed.

Lemma edge_step (lo hi : R) (j : nat) :
  lo < hi -> edge lo hi 48 j < edge lo hi 48 (S j).
Proof.
  intros H. unfold edge. rewrite INR_48, S_INR.
  assert (0 < (hi - lo) / 48) by (unfold Rdiv; lra). lra.
Qed.

Lemma edge_first (lo hi : R) : edge lo hi 48 0 = lo.
Proof. unfold edge. simpl. lra. Qed.

Lemma edge_last (lo hi : R) : edge lo hi 48 48 = hi.
Proof. unfold edge. rewrite INR_48. field. Qed.

Lemma edge_at (lo hi : R) (j : nat) :
  edge lo hi 48 j = lo + INR j * ((hi - lo) / 48).
Proof. unfold edge. rewrite INR_48. reflexivity. Qed.

(** The knots of line 255 for 49 edges from [lo] to [hi] with
    [0 < lo < hi < 24]: the centres of the bins, the first moved to 0 and the
    last to 24. *)
Lemma knots_of_edges (lo hi : R) :
  0 < lo -> lo < hi -> hi < 24 ->
  let tbins := map (edge lo hi 48) (seq 0 49) in
  exists tbins2 rest,
    set_index (zip_with (fun a b => 0.5 * (a + b))
                 (firstn (length tbins - 1) tbins) (skipn 1 tbins)) 0 0
    = Returns tbins2
    /\ set_index tbins2 (length tbins2 - 1) 24
       = Returns (0 :: 0.5 * (edge lo hi 48 1 + edge lo hi 48 2) :: rest)
    /\ length rest = 46%nat
    /\ increasing (0 :: 0.5 * (edge lo hi 48 1 + edge lo hi 48 2) :: rest).
Proof.
  intros H0 Hlt H24 tbins. unfold tbins.
  cbn [map seq length Nat.sub firstn skipn zip_with set_index bind].
  eexists. eexists. split; [reflexivity|].
  cbn [length Nat.sub set_index bind].
  split; [reflexivity|]. split; [reflexivity|].
  pose proof (edge_first lo hi) as E0. pose proof (edge_last lo hi) as E48.
  assert (He : forall j, edge lo hi 48 j < edge lo hi 48 (S j))
    by (intros j; apply edge_step; exact Hlt).
  pose proof (He 0%nat). pose proof (He 1%nat). pose proof (He 2%nat).
  pose proof (He 3%nat). pose proof (He 4%nat). pose proof (He 5%nat).
  pose proof (He 6%nat). pose proof (He 7%nat). pose proof (He 8%nat).
  pose proof (He 9%nat). pose proof (He 10%nat). pose proof (He 11%nat).
  pose proof (He 12%nat). pose proof (He 13%nat). pose proof (He 14%nat).
  pose proof (He 15%nat). pose proof (He 16%nat). pose proof (He 17%nat).
  pose proof (He 18%nat). pose proof (He 19%nat). pose proof (He 20%nat).
  pose proof (He 21%nat). pose proof (He 22%nat). pose proof (He 23%nat).
  pose proof (He 24%nat). pose proof (He 25%nat). pose proof (He 26%nat).
  pose proof (He 27%nat). pose proof (He 28%nat). pose proof (He 29%nat).
  pose proof (He 30%nat). pose proof (He 31%nat). pose proof (He 32%nat).
  pose proof (He 33%nat). pose proof (He 34%nat). pose proof (He 35%nat).
  pose proof (He 36%nat). pose proof (He 37%nat). pose proof (He 38%nat).
  pose proof (He 39%nat). pose proof (He 40%nat). pose proof (He 41%nat).
  pose proof (He 42%nat). pose proof (He 43%nat). pose proof (He 44%nat).
  pose proof (He 45%nat). pose proof (He 46%nat). pose proof (He 47%nat).
  clear He. cbn [increasing]. repeat split; lra.
Qed.

(** The two first counts: both references at 01:00:10 fall in bin 0, the
    reference at 01:01:40 in the last bin, and bin 1 is empty. *)
Lemma busy_count_0 :
  length (filter (in_bin (361 / 360) (37 / 36) 48 0) [361 / 360; 361 / 360; 37 / 36])
  = 2%nat.
Proof.
  unfold in_bin. rewrite !edge_at. simpl. rcmp. reflexivity.
Qed.

Lemma busy_count_1 :
  length (filter (in_bin (361 / 360) (37 / 36) 48 1) [361 / 360; 361 / 360; 37 / 36])
  = 0%nat.
Proof.
  unfold in_bin. rewrite !edge_at. simpl. rcmp. reflexivity.
Qed.

(** The density of the run between 0 h and the centre of bin 1: the line
    from the count 2 of bin 0, moved to 0 h, down to the floor 1 of bin 1. *)
Lemma busy_density (L : Lib) :
  histogram_contract L -> interp1d_contract L ->
  exists countf,
    density_model L (tods busy_found) = Returns countf
    /\ forall x, 0 <= x <= 361 / 360 + 1 / 1280 ->
                 countf x = Returns (2 - x / (361 / 360 + 1 / 1280)).
Proof.
  intros Hh Hi. unfold density_model. rewrite busy_hours.
  rewrite (Hh _ (361 / 360) (37 / 36) 48%nat).
  2:{ simpl. rminmax. reflexivity. }
  2:{ simpl. rminmax. reflexivity. }
  2:{ lra. }
  destruct (knots_of_edges (361 / 360) (37 / 36)) as [k1 [rest [Hk1 [Hk [Hlen Hinc]]]]];
    try lra.
  cbv zeta in Hk1. cbv beta iota zeta.
  rewrite Hk1. cbn [bind]. rewrite Hk. cbn [bind].
  eexists. split; [reflexivity|].
  intros x Hx.
  assert (Hc1 : 0.5 * (edge (361 / 360) (37 / 36) 48 1 + edge (361 / 360) (37 / 36) 48 2)
                = 361 / 360 + 1 / 1280).
  { rewrite !edge_at. simpl. lra. }
  change (seq 0 48) with (0%nat :: 1%nat :: seq 2 46). cbn [map].
  rewrite busy_count_0, busy_count_1.
  change (INR 2) with (1 + 1). change (INR 0) with 0.
  rewrite (proj2 (Rltb_false (1 + 1) 1)) by lra.
  rewrite (proj2 (Rltb_true 0 1)) by lra.
  rewrite (Hi _ _ 0%nat 0 (361 / 360 + 1 / 1280) (1 + 1) 1 x).
  - f_equal. field.
  - rewrite Hc1 in Hinc. rewrite Hc1. exact Hinc.
  - cbn [length]. rewrite !length_map, length_seq, Hlen. reflexivity.
  - reflexivity.
  - rewrite Hc1. reflexivity.
  - reflexivity.
  - reflexivity.
  - exact Hx.
Qed.

Lemma weight_hour_busy_1 : weight_hour busy_tbl 3600 1 = 1 / 360.
Proof. unfold weight_hour. simpl. rewrite (mod_eq _ _ 0%Z); lra. Qed.

Lemma weight_hour_busy_2 : weight_hour busy_tbl 3600 2 = 1 / 36.
Proof. unfold weight_hour. simpl. rewrite (mod_eq _ _ 0%Z); lra. Qed.

Lemma hod_busy_1 : hod (get busy_tbl 1) = 361 / 360.
Proof. unfold hod. simpl. rewrite (mod_eq _ _ 0%Z); lra. Qed.

Lemma quotient_bounds (x c : R) : 0 <= x -> 1 <= c -> 0 <= x / c <= x.
Proof.
  intros Hx Hc. assert (Hi : 0 < / c <= 1).
  { split; [apply Rinv_0_lt_compat; lra|].
    rewrite <- Rinv_1. apply Rinv_le_contravar; lra. }
  unfold Rdiv. split; [apply Rmult_le_pos; lra|].
  rewrite <- (Rmult_1_r x) at 2. apply Rmult_le_compat_l; lra.
Qed.

(** C4, at an input the code can receive. In [busy_tbl] the pair (1, 2) is
    accepted, with reference time 01:00:10.  The histogram is built over the
    hours of day of the references, and the density at that hour of day,
    361/360, is close to the floor 1, so that the weight the claim names is
    above 0.99.  Line 273 evaluates [countf] at
    [mod((t[k]-t0)/3600, 24) = 1/360] instead, because [t0 = 3600] is
    subtracted first; there the density is close to the count 2 of bin 0, and
    the weight that multiplies the row and the observation of the pair is
    below 0.51. *)
Theorem weight_hour_is_not_hour_of_day (L : Lib) :
  histogram_contract L -> interp1d_contract L ->
  exists countf d w_code c_hod,
    find_pairs demo_spec (working_set demo_spec busy_tbl) = Returns (3600, busy_found)
    /\ nth 0 (pairs busy_found) (0%nat, 0%nat) = (1%nat, 2%nat)
    /\ density_model L (tods busy_found) = Returns countf
    /\ design countf (working_set demo_spec busy_tbl) 3600 (pairs busy_found) = Returns d
    /\ nth 0 (ws d) 0 = w_code
    /\ nth 0 (A d) [] = A_row w_code (get busy_tbl 1) (get busy_tbl 2)
    /\ nth 0 (m d) 0 = m_entry w_code (get busy_tbl 1) (get busy_tbl 2)
    /\ countf (hod (get busy_tbl 1)) = Returns c_hod
    /\ w_code < 0.51
    /\ 0.99 < 1 / c_hod.
Proof.
  intros Hh Hi.
  destruct (busy_density L Hh Hi) as [countf [Hc Hline]].
  rewrite (working_set_default demo_spec) by reflexivity.
  pose proof (quotient_bounds (1 / 360) (361 / 360 + 1 / 1280)
                ltac:(lra) ltac:(lra)) as [Q1 Q2].
  pose proof (quotient_bounds (1 / 36) (361 / 360 + 1 / 1280)
                ltac:(lra) ltac:(lra)) as [Q3 Q4].
  pose proof (quotient_bounds (1 / 1280) (361 / 360 + 1 / 1280)
                ltac:(lra) ltac:(lra)) as [Q5 Q6].
  assert (Hd : exists d,
    design countf busy_tbl 3600 (pairs busy_found) = Returns d
    /\ nth 0 (ws d) 0 = 1 / (2 - 1 / 360 / (361 / 360 + 1 / 1280))
    /\ nth 0 (A d) [] = A_row (1 / (2 - 1 / 360 / (361 / 360 + 1 / 1280)))
                          (get busy_tbl 1) (get busy_tbl 2)
    /\ nth 0 (m d) 0 = m_entry (1 / (2 - 1 / 360 / (361 / 360 + 1 / 1280)))
                         (get busy_tbl 1) (get busy_tbl 2)).
  { cbn [design pairs busy_found].
    rewrite weight_hour_busy_1, weight_hour_busy_2.
    rewrite !Hline by lra. cbn [bind].
    eexists. split; [reflexivity|]. repeat split; reflexivity. }
  destruct Hd as [d [Hd [Hw [HA Hm]]]].
  exists countf, d, (1 / (2 - 1 / 360 / (361 / 360 + 1 / 1280))),
    (2 - 361 / 360 / (361 / 360 + 1 / 1280)).
  split; [exact busy_find_pairs|]. split; [reflexivity|]. split; [exact Hc|].
  split; [exact Hd|]. split; [exact Hw|]. split; [exact HA|]. split; [exact Hm|].
  split; [rewrite hod_busy_1; apply Hline; lra|].
  assert (Hr : 361 / 360 / (361 / 360 + 1 / 1280)
               = 1 - 1 / 1280 / (361 / 360 + 1 / 1280)) by (field; lra).
  split.
  - apply (Rmult_lt_reg_r (2 - 1 / 360 / (361 / 360 + 1 / 1280))); [lra|].
    replace (1 / (2 - 1 / 360 / (361 / 360 + 1 / 1280))
             * (2 - 1 / 360 / (361 / 360 + 1 / 1280))) with 1 by (field; lra).
    lra.
  - rewrite Hr.
    apply (Rmult_lt_reg_r (2 - (1 - 1 / 1280 / (361 / 360 + 1 / 1280)))); [lra|].
    replace (1 / (2 - (1 - 1 / 1280 / (361 / 360 + 1 / 1280)))
             * (2 - (1 - 1 / 1280 / (361 / 360 + 1 / 1280)))) with 1 by (field; lra).
    lra.
Qed.

(** *** A library that keeps the two contracts *)

(** [n.histogram]: the range of data that are all equal is widened by 1/2
    on either side, that of no data is (0, 1). *)
Definition np_histogram (a : list R) (bins : nat) : list R * list R :=
  match Np.min_ a, Np.max_ a with
  | Returns lo, Returns hi =>
      let lo' := if Req_dec_T lo hi then lo - 1 / 2 else lo in
      let hi' := if Req_dec_T lo hi then hi + 1 / 2 else hi in
      (map (fun j => INR (length (filter (in_bin lo' hi' bins j) a))) (seq 0 bins),
       map (edge lo' hi' bins) (seq 0 (S bins)))
  | _, _ => (repeat 0 bins, map (edge 0 1 bins) (seq 0 (S bins)))
  end.

(** [si.interp1d]: the line of the first segment that holds [x]; a
    [ValueError] outside the range of the points. *)
Fixpoint linear (xs ys : list R) (x : R) : result R :=
  match xs, ys with
  | x0 :: ((x1 :: _) as xs'), y0 :: ((y1 :: _) as ys') =>
      if (x0 <=? x) && (x <=? x1)
      then Returns (y0 + (y1 - y0) * ((x - x0) / (x1 - x0)))
      else linear xs' ys' x
  | _, _ => Raises ValueError
  end.

Definition line_lib : Lib :=
  {| n_histogram := np_histogram;
     interp1d := linear;
     lstsq := fun _ _ => None;
     inv := fun _ => None |}.

Lemma np_histogram_contract : histogram_contract line_lib.
Proof.
  intros a lo hi bins Hmin Hmax Hlt. simpl. unfold np_histogram.
  rewrite Hmin, Hmax. destruct (Req_dec_T lo hi); [lra | reflexivity].
Qed.

Lemma increasing_tail (x : R) (xs : list R) : increasing (x :: xs) -> increasing xs.
Proof. destruct xs as [|y r]; simpl; tauto. Qed.

Lemma increasing_head (xs : list R) (i : nat) (a b : R) :
  increasing xs -> nth_error xs 0 = Some a -> nth_error xs i = Some b ->
  a <= b /\ ((0 < i)%nat -> a < b).
Proof.
  revert xs a. induction i as [|i IH]; intros xs a Hinc Ha Hb.
  - rewrite Ha in Hb. injection Hb as <-. split; [lra | lia].
  - destruct xs as [|x0 [|x1 r]]; try discriminate.
    + destruct i; discriminate.
    + simpl in Ha. injection Ha as <-. destruct Hinc as [H01 Hinc].
      destruct (IH (x1 :: r) x1 Hinc eq_refl Hb) as [H1 _].
      split; [lra | intros _; lra].
Qed.

Lemma linear_contract : interp1d_contract line_lib.
Proof.
  intros xs ys i. simpl. revert xs ys.
  induction i as [|i IH]; intros xs ys x0 x1 y0 y1 x Hinc Hlen H0 H1 G0 G1 Hx.
  - destruct xs as [|a [|a1 r]]; try discriminate.
    destruct ys as [|b [|b1 s]]; try discriminate.
    simpl in H0, H1, G0, G1.
    injection H0 as ->. injection H1 as ->. injection G0 as ->. injection G1 as ->.
    simpl. rewrite (proj2 (Rleb_true x0 x)), (proj2 (Rleb_true x x1)) by lra.
    reflexivity.
  - destruct xs as [|a [|a1 r]]; try discriminate H0.
    { destruct i; discriminate H0. }
    destruct ys as [|b [|b1 s]]; try discriminate G0.
    { destruct i; discriminate G0. }
    destruct Hinc as [Ha Hinc].
    change (nth_error (a :: a1 :: r) (S i)) with (nth_error (a1 :: r) i) in H0.
    change (nth_error (a :: a1 :: r) (S (S i))) with (nth_error (a1 :: r) (S i)) in H1.
    change (nth_error (b :: b1 :: s) (S i)) with (nth_error (b1 :: s) i) in G0.
    change (nth_error (b :: b1 :: s) (S (S i))) with (nth_error (b1 :: s) (S i)) in G1.
    destruct (increasing_head (a1 :: r) i a1 x0 Hinc eq_refl H0) as [Hle Hlt].
    destruct (increasing_head (a1 :: r) (S i) a1 x1 Hinc eq_refl H1) as [_ Hlt1].
    specialize (Hlt1 ltac:(lia)).
    cbn [linear].
    destruct (Rle_dec x a1) as [Hxa|Hxa].
    + assert (Ex : x = a1) by lra. assert (E0 : x0 = a1) by lra.
      assert (Ei : i = 0%nat).
      { destruct i; [reflexivity|]. specialize (Hlt ltac:(lia)). lra. }
      subst i. simpl in G0. injection G0 as <-.
      rewrite (proj2 (Rleb_true a x)), (proj2 (Rleb_true x a1)) by lra.
      simpl. f_equal. rewrite Ex, E0. field. lra.
    + rewrite (proj2 (Rleb_false x a1)) by exact Hxa.
      rewrite andb_false_r.
      apply (IH (a1 :: r) (b1 :: s)); try assumption.
      simpl in Hlen. simpl. lia.
Qed.

Lemma weight_hour_is_not_hour_of_day_witness :
  histogram_contract line_lib /\ interp1d_contract line_lib
  /\ exists countf d w_code c_hod,
      find_pairs demo_spec (working_set demo_spec busy_tbl) = Returns (3600, busy_found)
      /\ nth 0 (pairs busy_found) (0%nat, 0%nat) = (1%nat, 2%nat)
      /\ density_model line_lib (tods busy_found) = Returns countf
      /\ design countf (working_set demo_spec busy_tbl) 3600 (pairs busy_found)
         = Returns d
      /\ nth 0 (ws d) 0 = w_code
      /\ nth 0 (A d) [] = A_row w_code (get busy_tbl 1) (get busy_tbl 2)
      /\ nth 0 (m d) 0 = m_entry w_code (get busy_tbl 1) (get busy_tbl 2)
      /\ countf (hod (get busy_tbl 1)) = Returns c_hod
      /\ w_code < 0.51
      /\ 0.99 < 1 / c_hod.
Proof.
  split; [exact np_histogram_contract|]. split; [exact linear_contract|].
  exact (weight_hour_is_not_hour_of_day line_lib np_histogram_contract linear_contract).
Defined.

(** ** The estimate and its uncertainty

    The claim is stated in sums over rows and entries, written out; it does
    not go through the array helpers ([dot_mv], [dot_mm], [transpose],
    [diag], [mean_], [zip_with], [Np.sum]) with which [invert] computes. *)

(** [sum_{j<6} row_j x_j]: entry [p] of [M x] for the row [p] of [M]. *)
Definition row_dot (row x : list R) : R :=
  nth 0 row 0 * nth 0 x 0 + nth 1 row 0 * nth 1 x 0 + nth 2 row 0 * nth 2 x 0
  + nth 3 row 0 * nth 3 x 0 + nth 4 row 0 * nth 4 x 0 + nth 5 row 0 * nth 5 x 0.

(** [||M x - b||^2 = sum_p ((M x)_p - b_p)^2]. *)
Fixpoint misfit (M : list (list R)) (b x : list R) : R :=
  match M, b with
  | row :: M', bp :: b' => (row_dot row x - bp) ^ 2 + misfit M' b' x
  | _, _ => 0
  end.

(** Entry [(a, b)] of [Ao^T Ao]: [sum_p Ao_pa Ao_pb]. *)
Fixpoint gram (Ao : list (list R)) (a b : nat) : R :=
  match Ao with
  | [] => 0
  | row :: Ao' => nth a row 0 * nth b row 0 + gram Ao' a b
  end.

(** Entry [(a, b)] of a matrix given by its rows. *)
Definition entry (N : list (list R)) (a b : nat) : R := nth b (nth a N []) 0.

Definition sum6 (f : nat -> R) : R :=
  f 0%nat + f 1%nat + f 2%nat + f 3%nat + f 4%nat + f 5%nat.

(** [N] is the inverse of the 6 x 6 matrix with entries [G a b]:
    [G N = N G = 1]. *)
Definition inverse6 (G : nat -> nat -> R) (N : list (list R)) : Prop :=
  length N = 6%nat
  /\ forall a b, (a < 6)%nat -> (b < 6)%nat ->
       sum6 (fun c => G a c * entry N c b) = (if Nat.eqb a b then 1 else 0)
       /\ sum6 (fun c => entry N a c * G c b) = (if Nat.eqb a b then 1 else 0).

(** What numpy documents of the two solvers: [lstsq] returns a minimizer of
    the squared Euclidean norm of [M x - b]; [inv] returns the inverse of a
    square matrix (and raises on a singular one). *)
Definition lstsq_contract (L : Lib) : Prop :=
  forall M b x, lstsq L M b = Some x -> forall y, misfit M b x <= misfit M b y.

Definition inv_contract (L : Lib) : Prop :=
  forall M N, inv L M = Some N -> inverse6 (entry M) N.

(** *** The arrays of [invert], entry by entry *)

Lemma dot6_row_dot (row x : list R) : dot6 row x = row_dot row x.
Proof. unfold dot6, row_dot, col, Np.sum. simpl. ring. Qed.

(** [mean(|resid|^2)] of lines 300-301 is [||Ao xhat - mo||^2] over the
    number of pairs. *)
Lemma resid_sum (Ao : list (list R)) (mo xhat : list R) :
  Np.sum (map (fun r => Rabs r ^ 2) (zip_with Rminus mo (dot_mv Ao xhat)))
  = misfit Ao mo xhat.
Proof.
  revert mo. induction Ao as [|row Ao IH]; intros [|y mo]; try reflexivity.
  unfold dot_mv in *. cbn [map zip_with misfit].
  change (Np.sum (?a :: ?l)) with (a + Np.sum l).
  rewrite IH, dot6_row_dot, pow2_abs. ring.
Qed.

Lemma resid_length (Ao : list (list R)) (mo xhat : list R) :
  length mo = length Ao ->
  length (map (fun r => Rabs r ^ 2) (zip_with Rminus mo (dot_mv Ao xhat))) = length mo.
Proof.
  intros H. rewrite length_map, zip_with_length. unfold dot_mv.
  rewrite length_map, H. apply Nat.min_id.
Qed.

Lemma gram_dot_mm (Ao : list (list R)) (a b : nat) :
  (a < 6)%nat -> (b < 6)%nat ->
  entry (dot_mm (transpose Ao) Ao) a b = gram Ao a b.
Proof.
  intros Ha Hb.
  assert (Hg : forall i j, Np.sum (zip_with Rmult (map (col i) Ao) (map (col j) Ao))
                           = gram Ao i j).
  { intros i j. induction Ao as [|row Ao IH]; [reflexivity|].
    cbn [map zip_with gram]. change (Np.sum (?x :: ?l)) with (x + Np.sum l).
    rewrite IH. reflexivity. }
  unfold entry, dot_mm, transpose. rewrite map_map.
  do 6 (destruct a as [|a]; [do 6 (destruct b as [|b]; [apply Hg|]); lia|]). lia.
Qed.

Lemma inverse6_ext (G G' : nat -> nat -> R) (N : list (list R)) :
  (forall a b, (a < 6)%nat -> (b < 6)%nat -> G a b = G' a b) ->
  inverse6 G N -> inverse6 G' N.
Proof.
  intros He [Hlen H]. split; [exact Hlen|]. intros a b Ha Hb.
  destruct (H a b Ha Hb) as [H1 H2]. unfold sum6 in *.
  rewrite <- !He by lia. split; assumption.
Qed.

(** [v^T (Ao^T Ao) v = ||Ao v||^2] is not negative. *)
Lemma gram_quadratic_nonneg (Ao : list (list R)) (v : nat -> R) :
  0 <= sum6 (fun a => v a * sum6 (fun b => gram Ao a b * v b)).
Proof.
  induction Ao as [|row Ao IH].
  - unfold sum6. simpl. lra.
  - unfold sum6 in *. cbn [gram].
    pose proof (pow2_ge_0 (sum6 (fun a => nth a row 0 * v a))) as Hsq.
    unfold sum6 in Hsq.
    match goal with
    | |- 0 <= ?e =>
        match type of IH with
        | 0 <= ?old =>
            match type of Hsq with
            | 0 <= ?sq => replace e with (sq + old) by ring
            end
        end
    end.
    lra.
Qed.

(** The diagonal of the inverse of [Ao^T Ao] is not negative, so the square
    root of line 303 is taken of no negative number. *)
Lemma inverse_gram_diag_nonneg (Ao N : list (list R)) (i : nat) :
  inverse6 (gram Ao) N -> (i < 6)%nat -> 0 <= entry N i i.
Proof.
  intros [_ H] Hi.
  pose proof (gram_quadratic_nonneg Ao (fun a => entry N a i)) as Hq.
  assert (Hs : sum6 (fun a => entry N a i * sum6 (fun b => gram Ao a b * entry N b i))
               = entry N i i).
  { unfold sum6 at 1.
    rewrite (proj1 (H 0%nat i ltac:(lia) Hi)), (proj1 (H 1%nat i ltac:(lia) Hi)),
      (proj1 (H 2%nat i ltac:(lia) Hi)), (proj1 (H 3%nat i ltac:(lia) Hi)),
      (proj1 (H 4%nat i ltac:(lia) Hi)), (proj1 (H 5%nat i ltac:(lia) Hi)).
    do 6 (destruct i as [|i]; [simpl; ring|]). lia. }
  cbv beta in Hq. rewrite Hs in Hq. exact Hq.
Qed.

Lemma diag_nth (N : list (list R)) (i : nat) (f : R -> fval) :
  length N = 6%nat -> (i < 6)%nat ->
  nth i (map f (diag N)) NaN = f (entry N i i).
Proof.
  intros Hlen Hi. unfold diag, entry, col. rewrite Hlen.
  do 6 (destruct i as [|i]; [reflexivity|]). lia.
Qed.

(** Every design that [design] builds has one observation per row. *)
Lemma design_shape (countf : R -> result R) (tbl : list Meas) (t0 : R)
  (prs : list (nat * nat)) (d : Design) :
  design countf tbl t0 prs = Returns d ->
  length (mo d) = length (Ao d) /\ length (m d) = length (A d).
Proof.
  revert d. induction prs as [|[k l] rest IH]; intros d H; simpl in H.
  - injection H as <-. split; reflexivity.
  - destruct (countf (weight_hour tbl t0 k)) as [c|e]; [|discriminate].
    cbn [bind] in H.
    destruct (design countf tbl t0 rest) as [d'|e]; [|discriminate].
    cbn [bind] in H. injection H as <-.
    destruct (IH d' eq_refl) as [H1 H2]. simpl. split; congruence.
Qed.

(** C3. When the [try] block succeeds, the estimate minimizes
    [||A x - m||^2] over the weighted system, and the uncertainty has six
    entries, entry [i] being [sigma * sqrt(((Ao^T Ao)^-1)_ii)] with
    [sigma = 3 * sqrt(mean(r^2))] and [r = mo - Ao xhat], the residual of the
    unweighted system, one entry per pair ([design_shape]: the designs of
    [design] have one observation per row, which is the third premise). *)
Theorem inversion_estimate (L : Lib) (d : Design) (acf_ err_ : list fval) :
  lstsq_contract L -> inv_contract L ->
  length (mo d) = length (Ao d) ->
  invert L d = (acf_, err_) ->
  acf_ <> repeat NaN 6 ->
  exists xhat N,
    acf_ = map Num xhat
    /\ (forall y, misfit (A d) (m d) xhat <= misfit (A d) (m d) y)
    /\ inverse6 (gram (Ao d)) N
    /\ length err_ = 6%nat
    /\ forall i, (i < 6)%nat ->
         nth i err_ NaN
         = Num (3 * sqrt (misfit (Ao d) (mo d) xhat / INR (length (mo d)))
                * sqrt (entry N i i)).
Proof.
  intros Hl Hi Hlen Hinv Hok. unfold invert in Hinv.
  destruct (ws d) as [|w0 wr].
  { injection Hinv as <- <-. contradiction. }
  destruct (lstsq L (A d) (m d)) as [xhat|] eqn:Hx.
  2:{ injection Hinv as <- <-. contradiction. }
  destruct (inv L (dot_mm (transpose (Ao d)) (Ao d))) as [N|] eqn:HN.
  2:{ injection Hinv as <- <-. contradiction. }
  injection Hinv as <- <-. exists xhat, N.
  assert (HG : inverse6 (gram (Ao d)) N).
  { apply (inverse6_ext (entry (dot_mm (transpose (Ao d)) (Ao d)))).
    - intros a b Ha Hb. apply gram_dot_mm; assumption.
    - exact (Hi _ _ HN). }
  split; [reflexivity|]. split; [exact (Hl _ _ _ Hx)|]. split; [exact HG|].
  split.
  - rewrite length_map. unfold diag. rewrite length_map, length_seq. exact (proj1 HG).
  - intros i Hlt. rewrite (diag_nth N i _ (proj1 HG) Hlt).
    pose proof (inverse_gram_diag_nonneg _ _ _ HG Hlt) as Hpos.
    unfold Np.sqrt_. rewrite (proj2 (Rltb_false (entry N i i) 0)) by lra.
    unfold mul_f, mean_. rewrite resid_sum, resid_length by exact Hlen.
    f_equal. ring.
Qed.

(** *** An inversion with weights and a residual

    Seven pairs: the rows of [Ao] are the six unit vectors and the first unit
    vector again; every weight is 1/2, so [A = Ao / 2] and [m = mo / 2].  The
    first component is observed twice, as 1 and as 3: the estimate is 2 and
    the residual is [(-1, 0, 0, 0, 0, 0, 1)]. *)

Definition identity6 : list (list R) :=
  map (fun i => map (fun j => if Nat.eqb i j then 1 else 0) (seq 0 6)) (seq 0 6).

Definition twice_Ao : list (list R) := identity6 ++ [[1; 0; 0; 0; 0; 0]].

Definition twice_design : Design :=
  {| A := map (map (fun x => 1 / 2 * x)) twice_Ao;
     Ao := twice_Ao;
     m := [1 / 2; 1; 3 / 2; 2; 5 / 2; 3; 3 / 2];
     mo := [1; 2; 3; 4; 5; 6; 3];
     ws := [1 / 2; 1 / 2; 1 / 2; 1 / 2; 1 / 2; 1 / 2; 1 / 2] |}.

Definition twice_xhat : list R := [2; 2; 3; 4; 5; 6].

(** [Ao^T Ao] and its inverse. *)
Definition twice_gram : list (list R) :=
  [[2; 0; 0; 0; 0; 0]; [0; 1; 0; 0; 0; 0]; [0; 0; 1; 0; 0; 0];
   [0; 0; 0; 1; 0; 0]; [0; 0; 0; 0; 1; 0]; [0; 0; 0; 0; 0; 1]].

Definition twice_inverse : list (list R) :=
  [[1 / 2; 0; 0; 0; 0; 0]; [0; 1; 0; 0; 0; 0]; [0; 0; 1; 0; 0; 0];
   [0; 0; 0; 1; 0; 0]; [0; 0; 0; 0; 1; 0]; [0; 0; 0; 0; 0; 1]].

(** Solvers that answer on this system only. *)
Definition lstsq_twice (M : list (list R)) (b : list R) : option (list R) :=
  if list_eq_dec (list_eq_dec Req_dec_T) M (A twice_design)
  then if list_eq_dec Req_dec_T b (m twice_design) then Some twice_xhat else None
  else None.

Definition inv_twice (M : list (list R)) : option (list (list R)) :=
  if list_eq_dec (list_eq_dec Req_dec_T) M twice_gram then Some twice_inverse else None.

Definition twice_lib : Lib :=
  {| n_histogram := fun _ _ => ([], []);
     interp1d := fun _ _ _ => Returns 2;
     lstsq := lstsq_twice;
     inv := inv_twice |}.

Lemma lstsq_twice_contract : lstsq_contract twice_lib.
Proof.
  intros M b x. simpl. unfold lstsq_twice.
  destruct (list_eq_dec (list_eq_dec Req_dec_T) M (A twice_design)) as [->|];
    [|discriminate].
  destruct (list_eq_dec Req_dec_T b (m twice_design)) as [->|]; [|discriminate].
  intros H. injection H as <-. intros y.
  unfold twice_design, twice_Ao, identity6, twice_xhat. simpl.
  unfold row_dot. simpl.
  generalize (nth 0 y 0), (nth 1 y 0), (nth 2 y 0), (nth 3 y 0), (nth 4 y 0), (nth 5 y 0).
  intros y0 y1 y2 y3 y4 y5.
  pose proof (pow2_ge_0 (y0 - 2)). pose proof (pow2_ge_0 (y1 - 2)).
  pose proof (pow2_ge_0 (y2 - 3)). pose proof (pow2_ge_0 (y3 - 4)).
  pose proof (pow2_ge_0 (y4 - 5)). pose proof (pow2_ge_0 (y5 - 6)).
  simpl in *. lra.
Qed.

Lemma inv_twice_contract : inv_contract twice_lib.
Proof.
  intros M N. simpl. unfold inv_twice.
  destruct (list_eq_dec (list_eq_dec Req_dec_T) M twice_gram) as [->|]; [|discriminate].
  intros H. injection H as <-. split; [reflexivity|].
  intros a b Ha Hb. unfold sum6, entry, twice_gram, twice_inverse.
  do 6 (destruct a as [|a]; [do 6 (destruct b as [|b]; [simpl; split; lra|]); lia|]).
  lia.
Qed.

Lemma twice_gram_eq : dot_mm (transpose twice_Ao) twice_Ao = twice_gram.
Proof.
  unfold dot_mm, transpose, twice_Ao, identity6, twice_gram, col, Np.sum. simpl.
  repeat (apply f_equal2; [repeat (apply f_equal2; [ring|]); reflexivity|]).
  reflexivity.
Qed.

Lemma twice_invert :
  exists err_, invert twice_lib twice_design = (map Num twice_xhat, err_).
Proof.
  unfold invert.
  cbn [ws A Ao m mo lstsq inv twice_lib twice_design].
  unfold lstsq_twice.
  destruct (list_eq_dec (list_eq_dec Req_dec_T) _ (A twice_design)) as [_|Hne];
    [|exfalso; apply Hne; reflexivity].
  destruct (list_eq_dec Req_dec_T _ (m twice_design)) as [_|Hne];
    [|exfalso; apply Hne; reflexivity].
  rewrite twice_gram_eq. unfold inv_twice.
  destruct (list_eq_dec (list_eq_dec Req_dec_T) twice_gram twice_gram) as [_|Hne];
    [|contradiction].
  eexists. reflexivity.
Qed.

Lemma twice_invert_succeeds : fst (invert twice_lib twice_design) <> repeat NaN 6.
Proof.
  destruct twice_invert as [e He]. rewrite He. simpl. discriminate.
Qed.

Lemma twice_shape : length (mo twice_design) = length (Ao twice_design).
Proof. reflexivity. Qed.

Lemma inversion_estimate_witness :
  lstsq_contract twice_lib /\ inv_contract twice_lib
  /\ length (mo twice_design) = length (Ao twice_design)
  /\ fst (invert twice_lib twice_design) <> repeat NaN 6
  /\ exists xhat N,
      fst (invert twice_lib twice_design) = map Num xhat
      /\ (forall y, misfit (A twice_design) (m twice_design) xhat
                    <= misfit (A twice_design) (m twice_design) y)
      /\ inverse6 (gram (Ao twice_design)) N
      /\ length (snd (invert twice_lib twice_design)) = 6%nat
      /\ forall i, (i < 6)%nat ->
           nth i (snd (invert twice_lib twice_design)) NaN
           = Num (3 * sqrt (misfit (Ao twice_design) (mo twice_design) xhat
                            / INR (length (mo twice_design)))
                  * sqrt (entry N i i)).
Proof.
  split; [exact lstsq_twice_contract|]. split; [exact inv_twice_contract|].
  split; [exact twice_shape|]. split; [exact twice_invert_succeeds|].
  exact (inversion_estimate twice_lib twice_design
           (fst (invert twice_lib twice_design)) (snd (invert twice_lib twice_design))
           lstsq_twice_contract inv_twice_contract twice_shape
           (surjective_pairing _) twice_invert_succeeds).
Defined.

(** Solvers for systems that are solved exactly: [lstsq_exact] answers [b]
    when [M b = b], [inv_identity] inverts the identity. *)
Definition lstsq_exact (M : list (list R)) (b : list R) : option (list R) :=
  if list_eq_dec Req_dec_T (dot_mv M b) b then Some b else None.

Definition inv_identity (M : list (list R)) : option (list (list R)) :=
  if list_eq_dec (list_eq_dec Req_dec_T) M identity6 then Some identity6 else None.

(** ** Swapping the roles of reference and lagged measurement *)

(** The specification with the requested lags negated, as C9 words it. *)
Definition mirror (s : LagSpec) : LagSpec :=
  {| h0 := h0 s; dh := dh s; ds_z := ds_z s; s_z := - s_z s;
     s_x := - s_x s; ds_x := ds_x s; s_y := - s_y s; ds_y := ds_y s;
     s_h := - s_h s; ds_h := ds_h s; tau := - tau s; dtau := dtau s;
     horizontal_dist := horizontal_dist s;
     hour_of_day := hour_of_day s; dhour_of_day := dhour_of_day s |}.

(** The specification under which the swapped pair passes the masks: the
    signed lags negated, the target height moved to the lagged band, the
    unsigned distance [s_h] kept. *)
Definition mirror_lag (s : LagSpec) : LagSpec :=
  {| h0 := h0 s + s_z s; dh := dh s; ds_z := ds_z s; s_z := - s_z s;
     s_x := - s_x s; ds_x := ds_x s; s_y := - s_y s; ds_y := ds_y s;
     s_h := s_h s; ds_h := ds_h s; tau := - tau s; dtau := dtau s;
     horizontal_dist := horizontal_dist s;
     hour_of_day := hour_of_day s; dhour_of_day := dhour_of_day s |}.

(** Three lag specifications and their tables: a vertical lag of 5 km, a
    horizontal distance of 11 +/- 2 km, a temporal lag of 390 s. *)
Definition up_spec : LagSpec :=
  {| h0 := 90; dh := 2; ds_z := 1; s_z := 5; s_x := 0; ds_x := 1; s_y := 0;
     ds_y := 0; s_h := 0; ds_h := 100; tau := 0; dtau := 300;
     horizontal_dist := true; hour_of_day := 0; dhour_of_day := 48 |}.

Definition ring_spec : LagSpec :=
  {| h0 := 90; dh := 2; ds_z := 1; s_z := 0; s_x := 0; ds_x := 1; s_y := 0;
     ds_y := 0; s_h := 11; ds_h := 4; tau := 0; dtau := 300;
     horizontal_dist := true; hour_of_day := 0; dhour_of_day := 48 |}.

Definition lag_spec : LagSpec :=
  {| h0 := 90; dh := 2; ds_z := 1; s_z := 0; s_x := 0; ds_x := 1; s_y := 0;
     ds_y := 0; s_h := 0; ds_h := 100; tau := 390; dtau := 300;
     horizontal_dist := true; hour_of_day := 0; dhour_of_day := 48 |}.

Definition up_tbl : list Meas :=
  [at_ 0 0; at_ 10 0; mkMeas 100 95 1 0.1 0 (1, 0, 0); at_ 400 0].

Definition tail_tbl : list Meas := [at_ 0 0; at_ 10 0; at_ 400 0.1].

Lemma up_hor_dist : hor_dist up_tbl 1 2 = 11.1321.
Proof.
  rewrite hor_dist_north by reflexivity. simpl.
  rewrite Rabs_pos_eq by lra. unfold latdeg2km. lra.
Qed.

Lemma tail_hor_dist : hor_dist tail_tbl 1 2 = 11.1321.
Proof.
  rewrite hor_dist_north by reflexivity. simpl.
  rewrite Rabs_pos_eq by lra. unfold latdeg2km. lra.
Qed.

(** The steps of a run with one window. *)
Ltac one_window Hn :=
  unfold find_pairs; simpl Np.max_; simpl Np.min_; rminmax; cbn [bind];
  rewrite Hn; cbn [bind];
  unfold Np.range; simpl map; simpl fold_left at 1;
  unfold window, it0_of, it1_of; simpl Z.eqb; cbv iota;
  unfold Np.where_, ref_mask, lagged_mask; simpl; rcmp; simpl;
  unfold scan; simpl; unfold lag_mask, dist_filter; simpl.

Lemma n_times_400 (s : LagSpec) :
  dtau s = 300 -> n_times_of s 400 0 = Returns 1%Z.
Proof.
  intros H. unfold n_times_of. rewrite H.
  destruct (Req_dec_T 300 0); [lra|]. f_equal. apply int_eq; lra.
Qed.

Lemma up_find_pairs :
  exists st, find_pairs up_spec up_tbl = Returns (0, st) /\ pairs st = [(1%nat, 2%nat)].
Proof.
  one_window (n_times_400 up_spec eq_refl).
  rewrite up_hor_dist. rcmp. simpl.
  unfold visit, floors. simpl. rewrite up_hor_dist. rcmp. simpl.
  eexists. split; reflexivity.
Qed.

Lemma up_mirror_find_pairs :
  find_pairs (mirror up_spec) up_tbl = Returns (0, found0).
Proof.
  one_window (n_times_400 (mirror up_spec) eq_refl).
  reflexivity.
Qed.

Lemma tail_hor_dist_10 : hor_dist tail_tbl 1 0 = 0.
Proof.
  rewrite hor_dist_north by reflexivity. simpl.
  rewrite Rminus_diag, Rabs_R0. ring.
Qed.

Lemma ring_find_pairs :
  exists st, find_pairs ring_spec demo_tbl = Returns (0, st) /\ pairs st = [(1%nat, 2%nat)].
Proof.
  one_window (n_times_400 ring_spec eq_refl).
  rewrite !hor_dist_self, (hor_dist_sym _ 2 1), demo_hor_dist. rcmp. simpl.
  unfold visit, floors. simpl. rewrite demo_hor_dist. rcmp. simpl.
  eexists. split; reflexivity.
Qed.

Lemma ring_mirror_find_pairs :
  find_pairs (mirror ring_spec) demo_tbl = Returns (0, found0).
Proof.
  one_window (n_times_400 (mirror ring_spec) eq_refl).
  rewrite !hor_dist_self, (hor_dist_sym _ 2 1), demo_hor_dist. rcmp. simpl.
  reflexivity.
Qed.

Lemma tail_find_pairs :
  exists st, find_pairs lag_spec tail_tbl = Returns (0, st) /\ pairs st = [(1%nat, 2%nat)].
Proof.
  one_window (n_times_400 lag_spec eq_refl).
  rewrite tail_hor_dist. rcmp. simpl.
  unfold visit, floors. simpl. rewrite tail_hor_dist. rcmp. simpl.
  eexists. split; reflexivity.
Qed.

Lemma tail_mirror_find_pairs :
  find_pairs (mirror lag_spec) tail_tbl = Returns (0, found0).
Proof.
  one_window (n_times_400 (mirror lag_spec) eq_refl).
  rewrite tail_hor_dist_10. rcmp. simpl.
  reflexivity.
Qed.

(** C9 as stated: after an invocation that accepts [(k, l)], the invocation
    with [tau], [s_x], [s_y], [s_z] and [s_h] negated accepts the same two
    measurements, in either order. *)
Definition mirrored_pair_accepted (s : LagSpec) (meas : list Meas) (k l : nat) : Prop :=
  exists t0 st,
    find_pairs (mirror s) (working_set (mirror s) meas) = Returns (t0, st)
    /\ (In (l, k) (pairs st) \/ In (k, l) (pairs st)).

Definition pair_accepted (s : LagSpec) (meas : list Meas) (k l : nat) : Prop :=
  exists t0 st,
    find_pairs s (working_set s meas) = Returns (t0, st) /\ In (k, l) (pairs st).

Lemma not_mirrored (s : LagSpec) (meas : list Meas) (k l : nat) (t0 : R) :
  find_pairs (mirror s) (working_set (mirror s) meas) = Returns (t0, found0) ->
  ~ mirrored_pair_accepted s meas k l.
Proof.
  intros H [t0' [st [H' Hin]]]. rewrite H in H'. injection H' as _ <-.
  simpl in Hin. tauto.
Qed.

(** C9, as stated, fails in three ways. The pair (1, 2) is accepted and,
    under the mirrored specification, neither (2, 1) nor (1, 2) is:
    with a vertical lag ([up_spec], [s_z = 5]) measurement 2 lies outside the
    reference height band, which stays at [h0]; with a horizontal distance
    ([ring_spec], [s_h = 11]) no distance is within 2 km of -11; with a
    temporal lag ([lag_spec], [tau = 390]) measurement 2 is the last of the
    table, and no window holds the last measurement as a reference. *)
Lemma mirrored_pair_not_accepted :
  (pair_accepted up_spec up_tbl 1 2 /\ ~ mirrored_pair_accepted up_spec up_tbl 1 2)
  /\ (pair_accepted ring_spec demo_tbl 1 2 /\ ~ mirrored_pair_accepted ring_spec demo_tbl 1 2)
  /\ (pair_accepted lag_spec tail_tbl 1 2 /\ ~ mirrored_pair_accepted lag_spec tail_tbl 1 2).
Proof.
  repeat split.
  - destruct up_find_pairs as [st [H Hp]]. exists 0, st.
    rewrite (working_set_default up_spec) by reflexivity.
    split; [exact H|]. rewrite Hp. left. reflexivity.
  - apply (not_mirrored _ _ _ _ 0).
    rewrite (working_set_default (mirror up_spec)) by reflexivity.
    exact up_mirror_find_pairs.
  - destruct ring_find_pairs as [st [H Hp]]. exists 0, st.
    rewrite (working_set_default ring_spec) by reflexivity.
    split; [exact H|]. rewrite Hp. left. reflexivity.
  - apply (not_mirrored _ _ _ _ 0).
    rewrite (working_set_default (mirror ring_spec)) by reflexivity.
    exact ring_mirror_find_pairs.
  - destruct tail_find_pairs as [st [H Hp]]. exists 0, st.
    rewrite (working_set_default lag_spec) by reflexivity.
    split; [exact H|]. rewrite Hp. left. reflexivity.
  - apply (not_mirrored _ _ _ _ 0).
    rewrite (working_set_default (mirror lag_spec)) by reflexivity.
    exact tail_mirror_find_pairs.
Qed.

(** The masks and floors of a pair pass for the swapped pair under
    [mirror_lag]. *)
Lemma eligible_mirror_lag (s : LagSpec) (tbl : list Meas) (k l : nat) :
  eligible s tbl k l -> eligible (mirror_lag s) tbl l k.
Proof.
  intros [Hk [Hl [Hrk [Hrl [Hm Hf]]]]].
  unfold eligible. simpl.
  split; [exact Hl|]. split; [exact Hk|].
  split; [lra|]. split; [lra|]. split.
  - unfold lag_mask, dist_filter in *. simpl.
    rewrite !andb_true_iff, negb_true_iff, Nat.eqb_neq, !Rltb_true in Hm.
    destruct Hm as [[[Hd Hz] Hne] Ht].
    rewrite !andb_true_iff, negb_true_iff, Nat.eqb_neq, !Rltb_true.
    repeat split.
    + destruct (horizontal_dist s).
      * rewrite Rltb_true in *. rewrite (hor_dist_sym tbl l k). exact Hd.
      * rewrite andb_true_iff, !Rltb_true in *. destruct Hd as [Hy Hx]. split.
        -- replace (latdeg2km * (lats (get tbl k) - lats (get tbl l)) - - s_y s)
             with (- (latdeg2km * (lats (get tbl l) - lats (get tbl k)) - s_y s)) by ring.
           rewrite Rabs_Ropp. exact Hy.
        -- replace (londeg2km * (lons (get tbl k) - lons (get tbl l)) - - s_x s)
             with (- (londeg2km * (lons (get tbl l) - lons (get tbl k)) - s_x s)) by ring.
           rewrite Rabs_Ropp. exact Hx.
    + replace (heights (get tbl k) - heights (get tbl l) - - s_z s)
        with (- (heights (get tbl l) - heights (get tbl k) - s_z s)) by ring.
      rewrite Rabs_Ropp. exact Hz.
    + auto.
    + replace (t (get tbl k) - t (get tbl l) - - tau s)
        with (- (t (get tbl l) - t (get tbl k) - tau s)) by ring.
      rewrite Rabs_Ropp. exact Ht.
  - unfold floors in *. rewrite andb_true_iff, !Rltb_true in *.
    rewrite (hor_dist_sym tbl l k), Rabs_minus_sym. exact Hf.
Qed.

Lemma accepted_eligible (s : LagSpec) (tbl : list Meas) (t0 tmax : R) (n : Z)
  (p : nat * nat) :
  accepted s tbl t0 tmax n p -> eligible s tbl (fst p) (snd p).
Proof.
  intros [[i [_ [Hk Hl]]] [Hm Hf]].
  apply In_where in Hk. apply In_where in Hl.
  destruct Hk as [Hk Hrk]. destruct Hl as [Hl Hrl].
  unfold ref_mask in Hrk. unfold lagged_mask in Hrl.
  rewrite !andb_true_iff, !Rltb_true in Hrk, Hrl.
  unfold eligible. repeat split; try assumption; tauto.
Qed.

Lemma n_times_span (s : LagSpec) (tmax t0 : R) (n : Z) :
  n_times_of s tmax t0 = Returns n -> (1 <= n)%Z -> 0 < dtau s ->
  dtau s <= tmax - t0.
Proof.
  unfold n_times_of. intros H Hn Hd.
  destruct (Req_dec_T (dtau s) 0); [lra|]. injection H as <-.
  assert (HX : 1 <= (tmax - t0) / dtau s).
  { unfold Np.int in Hn. destruct (Rle_dec 0 ((tmax - t0) / dtau s)) as [_|Hneg].
    - pose proof (Zfloor_bound ((tmax - t0) / dtau s)) as [Hb _].
      apply IZR_le in Hn. lra.
    - pose proof (Zceil_bound ((tmax - t0) / dtau s)) as [Hb _].
      apply IZR_le in Hn. lra. }
  apply (Rmult_le_compat_r (dtau s)) in HX; [|lra].
  replace ((tmax - t0) / dtau s * dtau s) with (tmax - t0) in HX by (field; lra).
  lra.
Qed.

(** C9, amended. An accepted pair [(k, l)], with the roles swapped, passes
    both height bands, the lag mask and the floors of [mirror_lag s]: [tau],
    [s_x], [s_y] and [s_z] negated, [h0] moved to [h0 + s_z], [s_h] unchanged.
    When moreover [t[l]] and [t[k] + tau] lie strictly between the first and
    the last time of the working set, the invocation with [mirror_lag s] has
    the two measurements in its pair list, in one of the two orders. *)
Theorem swapped_pair_under_mirror_lag (meas : list Meas) (s : LagSpec)
  (t0 tmax : R) (st : Found) (k l : nat) :
  let tbl := working_set s meas in
  find_pairs s tbl = Returns (t0, st) ->
  In (k, l) (pairs st) ->
  working_set (mirror_lag s) meas = tbl
  /\ eligible (mirror_lag s) tbl l k
  /\ (Np.max_ (map t tbl) = Returns tmax ->
      t0 < t (get tbl l) < tmax ->
      t0 < t (get tbl k) + tau s < tmax ->
      exists st',
        find_pairs (mirror_lag s) tbl = Returns (t0, st')
        /\ (In (l, k) (pairs st') \/ In (k, l) (pairs st'))).
Proof.
  intros tbl Hf Hin.
  pose proof (find_pairs_Returns _ _ _ _ Hf) as [tmax' [n [Hmax [Hmin [Hn Hst]]]]].
  pose proof (windows_Inv s tbl t0 tmax' n) as HI. rewrite <- Hst in HI.
  pose proof (inv_accepted _ _ _ _ _ _ HI) as Hacc.
  rewrite Forall_forall in Hacc. specialize (Hacc _ Hin).
  pose proof (accepted_eligible _ _ _ _ _ _ Hacc) as He. simpl in He.
  pose proof (eligible_mirror_lag _ _ _ _ He) as He'.
  split; [reflexivity|]. split; [exact He'|].
  intros Hmax2 Hl Hk.
  rewrite Hmax in Hmax2. injection Hmax2 as ->.
  destruct Hacc as [[i [Hi _]] [Hm _]]. simpl in Hm.
  pose proof (lag_mask_time _ _ _ _ Hm) as Ht.
  assert (Hd : 0 < dtau s).
  { pose proof (Rabs_pos (t (get tbl l) - t (get tbl k) - tau s)). lra. }
  pose proof (n_times_span _ _ _ _ Hn ltac:(lia) Hd) as Hspan.
  assert (Hf' : find_pairs (mirror_lag s) tbl
                = Returns (t0, fold_left (window (mirror_lag s) tbl t0 tmax n)
                                 (Np.range n) found0)).
  { unfold find_pairs. rewrite Hmax, Hmin. cbn [bind].
    change (n_times_of (mirror_lag s) tmax t0) with (n_times_of s tmax t0).
    rewrite Hn. reflexivity. }
  eexists. split; [exact Hf'|].
  apply (interior_pairs_recorded (mirror_lag s) tbl t0 tmax _ l k Hf' Hmax);
    simpl; try assumption; lra.
Qed.

Lemma swapped_pair_under_mirror_lag_witness :
  find_pairs demo_spec (working_set demo_spec demo_tbl) = Returns (0, demo_found)
  /\ In (1%nat, 2%nat) (pairs demo_found)
  /\ eligible (mirror_lag demo_spec) (working_set demo_spec demo_tbl) 2 1
  /\ exists st',
      find_pairs (mirror_lag demo_spec) (working_set demo_spec demo_tbl) = Returns (0, st')
      /\ (In (2%nat, 1%nat) (pairs st') \/ In (1%nat, 2%nat) (pairs st')).
Proof.
  assert (Hin : In (1%nat, 2%nat) (pairs demo_found)) by (left; reflexivity).
  split; [exact demo_run|]. split; [exact Hin|].
  destruct (swapped_pair_under_mirror_lag demo_tbl demo_spec 0 400 demo_found 1 2
              demo_run Hin) as [_ [He Hrec]].
  split; [exact He|]. apply Hrec.
  - rewrite demo_working_set. exact demo_max.
  - rewrite demo_working_set. simpl. lra.
  - rewrite demo_working_set. simpl. lra.
Defined.

(** * Further properties of [cfi] *)

(** ** The first and the last time of the working set *)

Lemma max_Returns (a : list R) (mx : R) :
  Np.max_ a = Returns mx -> In mx a /\ Forall (fun x => x <= mx) a.
Proof.
  revert mx. induction a as [|x r IH]; intros mx H; [discriminate|].
  destruct r as [|y r'].
  - injection H as <-. split; [left; reflexivity|]. constructor; [lra|constructor].
  - change (Np.max_ (x :: y :: r')) with (bind (Np.max_ (y :: r')) (fun z => Returns (Rmax x z))) in H.
    destruct (Np.max_ (y :: r')) as [z|e]; [|discriminate].
    cbn [bind] in H. injection H as <-.
    destruct (IH z eq_refl) as [Hin Hall]. split.
    + unfold Rmax. destruct (Rle_dec x z); [right; exact Hin | left; reflexivity].
    + constructor; [apply Rmax_l|].
      eapply Forall_impl; [|exact Hall]. intros u Hu. cbv beta in Hu.
      pose proof (Rmax_r x z). lra.
Qed.

Lemma min_Returns (a : list R) (mn : R) :
  Np.min_ a = Returns mn -> In mn a /\ Forall (fun x => mn <= x) a.
Proof.
  revert mn. induction a as [|x r IH]; intros mn H; [discriminate|].
  destruct r as [|y r'].
  - injection H as <-. split; [left; reflexivity|]. constructor; [lra|constructor].
  - change (Np.min_ (x :: y :: r')) with (bind (Np.min_ (y :: r')) (fun z => Returns (Rmin x z))) in H.
    destruct (Np.min_ (y :: r')) as [z|e]; [|discriminate].
    cbn [bind] in H. injection H as <-.
    destruct (IH z eq_refl) as [Hin Hall]. split.
    + unfold Rmin. destruct (Rle_dec x z); [left; reflexivity | right; exact Hin].
    + constructor; [apply Rmin_l|].
      eapply Forall_impl; [|exact Hall]. intros u Hu. cbv beta in Hu.
      pose proof (Rmin_r x z). lra.
Qed.

Lemma max_nonempty (a : list R) : a <> [] -> exists mx, Np.max_ a = Returns mx.
Proof.
  induction a as [|x r IH]; intros H; [contradiction|].
  destruct r as [|y r'].
  - exists x. reflexivity.
  - destruct (IH ltac:(discriminate)) as [z Hz].
    exists (Rmax x z).
    change (Np.max_ (x :: y :: r')) with (bind (Np.max_ (y :: r')) (fun z => Returns (Rmax x z))).
    rewrite Hz. reflexivity.
Qed.

Lemma min_nonempty (a : list R) : a <> [] -> exists mn, Np.min_ a = Returns mn.
Proof.
  induction a as [|x r IH]; intros H; [contradiction|].
  destruct r as [|y r'].
  - exists x. reflexivity.
  - destruct (IH ltac:(discriminate)) as [z Hz].
    exists (Rmin x z).
    change (Np.min_ (x :: y :: r')) with (bind (Np.min_ (y :: r')) (fun z => Returns (Rmin x z))).
    rewrite Hz. reflexivity.
Qed.

Lemma min_le_max (a : list R) (mn mx : R) :
  Np.min_ a = Returns mn -> Np.max_ a = Returns mx -> mn <= mx.
Proof.
  intros Hn Hx. apply min_Returns in Hn. apply max_Returns in Hx.
  destruct Hn as [Hin _]. destruct Hx as [_ Hall].
  rewrite Forall_forall in Hall. exact (Hall _ Hin).
Qed.

(** The bounds of every window of the loop lie between the first and the
    last time, when [dtau > 0]. *)
Lemma window_bounds_inside (s : LagSpec) (t0 tmax : R) (i : Z) :
  0 < dtau s -> t0 <= tmax ->
  let n := Np.int ((tmax - t0) / dtau s) in
  (0 <= i < n)%Z ->
  t0 <= it0_of s t0 i /\ it1_of s t0 tmax n i <= tmax.
Proof.
  intros Hd Hle n Hi. unfold it0_of, it1_of. split.
  - assert (0 <= IZR i) by (apply IZR_le; lia).
    pose proof (Rmult_le_pos (IZR i) (dtau s) H ltac:(lra)). lra.
  - destruct (Z.eqb_spec i (n - 1)) as [_|Hne]; [lra|].
    assert (HX : 0 <= (tmax - t0) / dtau s).
    { apply Rmult_le_pos; [lra|]. left. apply Rinv_0_lt_compat. exact Hd. }
    assert (Hn : IZR n <= (tmax - t0) / dtau s).
    { unfold n, Np.int. destruct (Rle_dec 0 ((tmax - t0) / dtau s)); [|contradiction].
      apply Zfloor_bound. }
    assert (Hi2 : IZR i + 2 <= IZR n).
    { replace 2 with (IZR 2) by reflexivity. rewrite <- plus_IZR. apply IZR_le. lia. }
    assert (Hm : (IZR i + 2) * dtau s <= (tmax - t0) / dtau s * dtau s).
    { apply Rmult_le_compat_r; lra. }
    replace ((tmax - t0) / dtau s * dtau s) with (tmax - t0) in Hm by (field; lra).
    lra.
Qed.

Lemma accepted_dtau_pos (s : LagSpec) (tbl : list Meas) (t0 tmax : R) (n : Z)
  (p : nat * nat) :
  accepted s tbl t0 tmax n p -> 0 < dtau s.
Proof.
  intros [_ [Hm _]]. apply lag_mask_time in Hm.
  pose proof (Rabs_pos (t (get tbl (snd p)) - t (get tbl (fst p)) - tau s)). lra.
Qed.

(** X1. In every accepted pair the reference time lies strictly between the
    first and the last time of the working set, and the lagged time strictly
    between these two shifted by [tau]: a measurement at the first or at the
    last time is never a reference. *)
Theorem pair_times_strictly_inside (meas : list Meas) (s : LagSpec)
  (t0 tmax : R) (st : Found) :
  let tbl := working_set s meas in
  find_pairs s tbl = Returns (t0, st) ->
  Np.max_ (map t tbl) = Returns tmax ->
  Forall (fun p =>
            t0 < t (get tbl (fst p)) < tmax
            /\ t0 + tau s < t (get tbl (snd p)) < tmax + tau s)
    (pairs st).
Proof.
  intros tbl Hf Hmax.
  pose proof (find_pairs_Returns _ _ _ _ Hf) as [tmax' [n [Hmax' [Hmin [Hn Hst]]]]].
  rewrite Hmax in Hmax'. injection Hmax' as <-.
  pose proof (windows_Inv s tbl t0 tmax n) as HI. rewrite <- Hst in HI.
  eapply Forall_impl; [|exact (inv_accepted _ _ _ _ _ _ HI)].
  intros p Hp.
  pose proof (accepted_dtau_pos _ _ _ _ _ _ Hp) as Hd.
  unfold n_times_of in Hn. destruct (Req_dec_T (dtau s) 0); [lra|].
  injection Hn as <-.
  destruct Hp as [[i [Hi [Hk Hl]]] _].
  apply In_where in Hk. apply In_where in Hl.
  destruct Hk as [_ Hk]. destruct Hl as [_ Hl].
  unfold ref_mask in Hk. unfold lagged_mask in Hl.
  rewrite !andb_true_iff, !Rltb_true in Hk, Hl.
  pose proof (min_le_max _ _ _ Hmin Hmax) as Hle.
  pose proof (window_bounds_inside s t0 tmax i Hd Hle Hi) as [Hb0 Hb1].
  lra.
Qed.

Lemma pair_times_strictly_inside_witness :
  find_pairs demo_spec (working_set demo_spec demo_tbl) = Returns (0, demo_found)
  /\ Np.max_ (map t (working_set demo_spec demo_tbl)) = Returns 400
  /\ Forall (fun p =>
               0 < t (get (working_set demo_spec demo_tbl) (fst p)) < 400
               /\ 0 + tau demo_spec < t (get (working_set demo_spec demo_tbl) (snd p))
                  < 400 + tau demo_spec)
       (pairs demo_found).
Proof.
  assert (Hmax : Np.max_ (map t (working_set demo_spec demo_tbl)) = Returns 400).
  { rewrite demo_working_set. exact demo_max. }
  split; [exact demo_run|]. split; [exact Hmax|].
  exact (pair_times_strictly_inside demo_tbl demo_spec 0 400 demo_found demo_run Hmax).
Defined.

(** X2. The two indices of every accepted pair are indices of the working
    set; the reference lies strictly within [dh/2] of [h0] in height and the
    lagged measurement strictly within [dh/2] of [h0 + s_z]. *)
Theorem pair_heights_in_bands (meas : list Meas) (s : LagSpec) (t0 : R) (st : Found) :
  let tbl := working_set s meas in
  find_pairs s tbl = Returns (t0, st) ->
  Forall (fun p =>
            (fst p < length tbl)%nat /\ (snd p < length tbl)%nat
            /\ Rabs (heights (get tbl (fst p)) - h0 s) < dh s / 2
            /\ Rabs (heights (get tbl (snd p)) - (h0 s + s_z s)) < dh s / 2)
    (pairs st).
Proof.
  intros tbl Hf. destruct (find_pairs_Inv _ _ _ _ Hf) as [tmax [n HI]].
  eapply Forall_impl; [|exact (inv_accepted _ _ _ _ _ _ HI)].
  intros p Hp. apply accepted_eligible in Hp.
  destruct Hp as [Hk [Hl [Hrk [Hrl _]]]].
  split; [exact Hk|]. split; [exact Hl|].
  split; apply Rabs_def1; lra.
Qed.

Lemma pair_heights_in_bands_witness :
  find_pairs demo_spec (working_set demo_spec demo_tbl) = Returns (0, demo_found)
  /\ Forall (fun p =>
               (fst p < length (working_set demo_spec demo_tbl))%nat
               /\ (snd p < length (working_set demo_spec demo_tbl))%nat
               /\ Rabs (heights (get (working_set demo_spec demo_tbl) (fst p)) - h0 demo_spec)
                  < dh demo_spec / 2
               /\ Rabs (heights (get (working_set demo_spec demo_tbl) (snd p))
                        - (h0 demo_spec + s_z demo_spec)) < dh demo_spec / 2)
       (pairs demo_found).
Proof.
  split; [exact demo_run|].
  exact (pair_heights_in_bands demo_tbl demo_spec 0 demo_found demo_run).
Defined.

(** X3. When the time span of the working set holds at least one [dtau], an
    ordered pair that passes both height bands, the lag mask and the floors,
    and whose reference time and lagged time less [tau] lie strictly inside
    the span, is in the pair list in exactly one of its two orders. *)
Theorem interior_pair_recorded_once (meas : list Meas) (s : LagSpec)
  (t0 tmax : R) (st : Found) (k l : nat) :
  let tbl := working_set s meas in
  find_pairs s tbl = Returns (t0, st) ->
  Np.max_ (map t tbl) = Returns tmax ->
  0 < dtau s -> dtau s <= tmax - t0 ->
  eligible s tbl k l ->
  t0 < t (get tbl k) < tmax ->
  t0 < t (get tbl l) - tau s < tmax ->
  (In (k, l) (pairs st) /\ ~ In (l, k) (pairs st))
  \/ (In (l, k) (pairs st) /\ ~ In (k, l) (pairs st)).
Proof.
  intros tbl Hf Hmax Hd Hspan He Hk Hl.
  destruct (find_pairs_Inv _ _ _ _ Hf) as [tmax' [n HI]].
  pose proof (inv_one_way _ _ _ _ _ _ HI) as Hone.
  destruct (interior_pairs_recorded s tbl t0 tmax st k l Hf Hmax Hd Hspan He Hk Hl)
    as [H | H].
  - left. split; [exact H | exact (Hone _ _ H)].
  - right. split; [exact H | exact (Hone _ _ H)].
Qed.

Lemma demo_eligible : eligible demo_spec demo_tbl 1 2.
Proof.
  unfold eligible. simpl. repeat split; try lia; try lra.
  - unfold lag_mask, dist_filter. simpl. rewrite demo_hor_dist. rcmp. reflexivity.
  - unfold floors. simpl. rewrite demo_hor_dist. rcmp. reflexivity.
Qed.

Lemma interior_pair_recorded_once_witness :
  find_pairs demo_spec (working_set demo_spec demo_tbl) = Returns (0, demo_found)
  /\ Np.max_ (map t (working_set demo_spec demo_tbl)) = Returns 400
  /\ eligible demo_spec (working_set demo_spec demo_tbl) 1 2
  /\ ((In (1%nat, 2%nat) (pairs demo_found) /\ ~ In (2%nat, 1%nat) (pairs demo_found))
      \/ (In (2%nat, 1%nat) (pairs demo_found) /\ ~ In (1%nat, 2%nat) (pairs demo_found))).
Proof.
  assert (Hmax : Np.max_ (map t (working_set demo_spec demo_tbl)) = Returns 400).
  { rewrite demo_working_set. exact demo_max. }
  assert (He : eligible demo_spec (working_set demo_spec demo_tbl) 1 2).
  { rewrite demo_working_set. exact demo_eligible. }
  split; [exact demo_run|]. split; [exact Hmax|]. split; [exact He|].
  apply (interior_pair_recorded_once demo_tbl demo_spec 0 400 demo_found 1 2
           demo_run Hmax); try exact He.
  - simpl. lra.
  - simpl. lra.
  - rewrite demo_working_set. simpl. lra.
  - rewrite demo_working_set. simpl. lra.
Defined.

(** ** Lag specifications that find nothing *)

(** X4. A tolerance that is zero or negative accepts no pair: [ds_z <= 0],
    [dtau <= 0], [ds_h <= 0] with [horizontal_dist], or [ds_x <= 0] or
    [ds_y <= 0] without it.  The defaults of the signature ([ds_y = 0.0],
    [horizontal_dist = False]) are such a specification. *)
Theorem nonpositive_tolerance_no_pairs (meas : list Meas) (s : LagSpec)
  (t0 : R) (st : Found) :
  find_pairs s (working_set s meas) = Returns (t0, st) ->
  ds_z s <= 0 \/ dtau s <= 0
  \/ (horizontal_dist s = true /\ ds_h s <= 0)
  \/ (horizontal_dist s = false /\ (ds_x s <= 0 \/ ds_y s <= 0)) ->
  pairs st = [].
Proof.
  intros Hf Htol. destruct (find_pairs_Inv _ _ _ _ Hf) as [tmax [n HI]].
  pose proof (inv_accepted _ _ _ _ _ _ HI) as Hacc.
  destruct (pairs st) as [|p rest]; [reflexivity|]. exfalso.
  inversion Hacc as [|p' rest' Hp _]; subst.
  apply accepted_lags in Hp. destruct Hp as [Ht [Hz Hd]].
  pose proof (Rabs_pos (lag_t (working_set s meas) (fst p) (snd p) - tau s)).
  pose proof (Rabs_pos (lag_z (working_set s meas) (fst p) (snd p) - s_z s)).
  pose proof (Rabs_pos (hor_dist (working_set s meas) (fst p) (snd p) - s_h s)).
  pose proof (Rabs_pos (east (working_set s meas) (fst p) (snd p) - s_x s)).
  pose proof (Rabs_pos (north (working_set s meas) (fst p) (snd p) - s_y s)).
  destruct Htol as [Hz0 | [Ht0 | [[Hh Hh0] | [Hh Hxy]]]]; try lra.
  - rewrite Hh in Hd. lra.
  - rewrite Hh in Hd. destruct Hd as [Hx Hy]. destruct Hxy; lra.
Qed.

Lemma default_demo_find_pairs :
  exists st, find_pairs default_spec (working_set default_spec demo_tbl) = Returns (0, st).
Proof.
  rewrite (working_set_default default_spec) by reflexivity.
  unfold find_pairs. rewrite demo_max, demo_min. cbn [bind].
  rewrite (n_times_400 default_spec eq_refl). cbn [bind]. eexists. reflexivity.
Qed.

Lemma nonpositive_tolerance_no_pairs_witness :
  exists st,
    find_pairs default_spec (working_set default_spec demo_tbl) = Returns (0, st)
    /\ (horizontal_dist default_spec = false /\ ds_y default_spec <= 0)
    /\ pairs st = [].
Proof.
  destruct default_demo_find_pairs as [st Hst]. exists st.
  assert (Hy : ds_y default_spec <= 0) by (simpl; lra).
  split; [exact Hst|]. split; [split; [reflexivity | exact Hy]|].
  apply (nonpositive_tolerance_no_pairs demo_tbl default_spec 0 st Hst).
  right. right. right. split; [reflexivity|]. right. exact Hy.
Defined.

Lemma int_lt_1 (x : R) : x < 1 -> (Np.int x <= 0)%Z.
Proof.
  intros H. unfold Np.int. destruct (Rle_dec 0 x).
  - pose proof (Zfloor_bound x) as [Hb _].
    assert (IZR (Zfloor x) < 1) by lra. apply lt_IZR in H0. lia.
  - pose proof (Zceil_bound x) as [Hb _].
    assert (IZR (Zceil x) < 1) by lra. apply lt_IZR in H0. lia.
Qed.

Lemma range_nonpositive (n : Z) : (n <= 0)%Z -> Np.range n = [].
Proof.
  intros H. unfold Np.range. replace (Z.to_nat n) with 0%nat by lia. reflexivity.
Qed.

(** The answer of numpy's histogram on an empty array, whatever the array:
    zero counts and edges evenly spaced on (0, 1). *)
Definition empty_histogram (a : list R) (bins : nat) : list R * list R :=
  (repeat 0 bins, map (fun j => INR j / INR bins) (seq 0 (S bins))).

Definition plain_lib : Lib :=
  {| n_histogram := empty_histogram;
     interp1d := fun _ _ _ => Returns 1;
     lstsq := lstsq_exact;
     inv := inv_identity |}.

(** X5. When the time span of the working set is shorter than [dtau], or
    [dtau] is negative, no window is formed ([n_times <= 0]): the call
    returns, with NaN in all six [acf] and [err] entries and in the five mean
    lags, whatever pairs the table holds. *)
Theorem no_window_returns_nan (L : Lib) (meas : list Meas) (s : LagSpec)
  (tmax tmin : R) :
  let tbl := working_set s meas in
  Np.max_ (map t tbl) = Returns tmax ->
  Np.min_ (map t tbl) = Returns tmin ->
  dtau s <> 0 ->
  (tmax - tmin) / dtau s < 1 ->
  (2 <= length (snd (n_histogram L [] 48)))%nat ->
  cfi L meas s
  = Returns (mkResult (repeat NaN 6) (repeat NaN 6) NaN NaN NaN NaN NaN).
Proof.
  intros tbl Hmax Hmin Hd HX Hh.
  assert (Hf : find_pairs s tbl = Returns (tmin, found0)).
  { unfold find_pairs. rewrite Hmax, Hmin. cbn [bind]. unfold n_times_of.
    destruct (Req_dec_T (dtau s) 0); [contradiction|]. cbn [bind].
    rewrite range_nonpositive by (apply int_lt_1; exact HX). reflexivity. }
  unfold cfi. fold tbl. rewrite Hf. cbn [bind].
  destruct (density_model_Returns L (tods found0) Hh) as [countf Hc].
  rewrite Hc. reflexivity.
Qed.

Lemma no_window_returns_nan_witness :
  Np.max_ (map t (working_set demo_spec short_tbl)) = Returns 100
  /\ Np.min_ (map t (working_set demo_spec short_tbl)) = Returns 0
  /\ dtau demo_spec <> 0
  /\ (100 - 0) / dtau demo_spec < 1
  /\ (2 <= length (snd (n_histogram plain_lib [] 48)))%nat
  /\ cfi plain_lib short_tbl demo_spec
     = Returns (mkResult (repeat NaN 6) (repeat NaN 6) NaN NaN NaN NaN NaN).
Proof.
  assert (Hw : working_set demo_spec short_tbl = short_tbl)
    by (apply working_set_default; reflexivity).
  assert (Hmax : Np.max_ (map t (working_set demo_spec short_tbl)) = Returns 100).
  { rewrite Hw. simpl. rminmax. reflexivity. }
  assert (Hmin : Np.min_ (map t (working_set demo_spec short_tbl)) = Returns 0).
  { rewrite Hw. simpl. rminmax. reflexivity. }
  assert (Hd : dtau demo_spec <> 0) by (simpl; lra).
  assert (HX : (100 - 0) / dtau demo_spec < 1) by (simpl; lra).
  assert (Hh : (2 <= length (snd (n_histogram plain_lib [] 48)))%nat) by (simpl; lia).
  repeat (split; [assumption|]).
  exact (no_window_returns_nan plain_lib short_tbl demo_spec 100 0 Hmax Hmin Hd HX Hh).
Defined.

(** X6. With [dtau = 0] and a working set that is not empty the call raises:
    the quotient of line 187 is inf, or nan when all times are equal, and
    [int] of it is an [OverflowError], or a [ValueError]. *)
Theorem zero_dtau_raises (L : Lib) (meas : list Meas) (s : LagSpec) :
  working_set s meas <> [] ->
  dtau s = 0 ->
  cfi L meas s = Raises OverflowError \/ cfi L meas s = Raises ValueError.
Proof.
  intros Hne Hd.
  assert (Hm : map t (working_set s meas) <> []).
  { destruct (working_set s meas); [contradiction | discriminate]. }
  destruct (max_nonempty _ Hm) as [tmax Hmax].
  destruct (min_nonempty _ Hm) as [tmin Hmin].
  unfold cfi, find_pairs. rewrite Hmax, Hmin. cbn [bind]. unfold n_times_of.
  destruct (Req_dec_T (dtau s) 0); [|contradiction].
  destruct (Req_dec_T (tmax - tmin) 0); [right | left]; reflexivity.
Qed.

Definition still_spec : LagSpec :=
  {| h0 := 90; dh := 2; ds_z := 1; s_z := 0; s_x := 0; ds_x := 1; s_y := 0;
     ds_y := 0; s_h := 0; ds_h := 100; tau := 0; dtau := 0;
     horizontal_dist := true; hour_of_day := 0; dhour_of_day := 48 |}.

Lemma zero_dtau_raises_witness :
  working_set still_spec demo_tbl <> []
  /\ dtau still_spec = 0
  /\ (cfi plain_lib demo_tbl still_spec = Raises OverflowError
      \/ cfi plain_lib demo_tbl still_spec = Raises ValueError).
Proof.
  assert (Hne : working_set still_spec demo_tbl <> []).
  { rewrite (working_set_default still_spec) by reflexivity. discriminate. }
  split; [exact Hne|]. split; [reflexivity|].
  exact (zero_dtau_raises plain_lib demo_tbl still_spec Hne eq_refl).
Defined.

(** ** The mean realized lags *)

Lemma sum_bounds (a b : R) (l : list R) :
  l <> [] -> Forall (fun x => a < x < b) l ->
  INR (length l) * a < Np.sum l < INR (length l) * b.
Proof.
  induction l as [|x r IH]; intros Hne Hall; [contradiction|].
  inversion Hall as [|x' r' Hx Hr]; subst.
  destruct r as [|y r'].
  - simpl. lra.
  - specialize (IH ltac:(discriminate) Hr).
    change (Np.sum (x :: y :: r')) with (x + Np.sum (y :: r')).
    change (length (x :: y :: r')) with (S (length (y :: r'))).
    rewrite S_INR. lra.
Qed.

Lemma sum_above (a : R) (l : list R) :
  l <> [] -> Forall (fun x => a < x) l -> INR (length l) * a < Np.sum l.
Proof.
  induction l as [|x r IH]; intros Hne Hall; [contradiction|].
  inversion Hall as [|x' r' Hx Hr]; subst.
  destruct r as [|y r'].
  - simpl. lra.
  - specialize (IH ltac:(discriminate) Hr).
    change (Np.sum (x :: y :: r')) with (x + Np.sum (y :: r')).
    change (length (x :: y :: r')) with (S (length (y :: r'))).
    rewrite S_INR. lra.
Qed.

Lemma mean_Num (l : list R) (x : R) :
  Np.mean l = Num x -> l <> [] /\ 0 < INR (length l) /\ Np.sum l = INR (length l) * x.
Proof.
  intros Hm. destruct l as [|y r]; [discriminate|].
  assert (Hn : 0 < INR (length (y :: r))) by (apply lt_0_INR; simpl; lia).
  assert (Hx : x = Np.sum (y :: r) / INR (length (y :: r))).
  { unfold Np.mean in Hm. congruence. }
  split; [discriminate|]. split; [exact Hn|]. rewrite Hx. field. lra.
Qed.

Lemma mean_between (a b : R) (l : list R) (x : R) :
  Forall (fun y => a < y < b) l -> Np.mean l = Num x -> a < x < b.
Proof.
  intros Hall Hm. destruct (mean_Num _ _ Hm) as [Hne [Hn Hs]].
  pose proof (sum_bounds a b l Hne Hall) as [H1 H2]. rewrite Hs in H1, H2.
  split; apply (Rmult_lt_reg_l (INR (length l))); assumption.
Qed.

Lemma mean_above (a : R) (l : list R) (x : R) :
  Forall (fun y => a < y) l -> Np.mean l = Num x -> a < x.
Proof.
  intros Hall Hm. destruct (mean_Num _ _ Hm) as [Hne [Hn Hs]].
  pose proof (sum_above a l Hne Hall) as H1. rewrite Hs in H1.
  apply (Rmult_lt_reg_l (INR (length l))); assumption.
Qed.

Lemma Forall_abs_between (c w : R) (l : list R) :
  Forall (fun x => Rabs (x - c) < w) l -> Forall (fun x => c - w < x < c + w) l.
Proof.
  apply Forall_impl. intros x Hx. apply Rabs_def2 in Hx. lra.
Qed.

(** The recorded lags of a run, each inside its window. *)
Lemma recorded_lags_bounds (s : LagSpec) (tbl : list Meas) (t0 : R) (st : Found) :
  find_pairs s tbl = Returns (t0, st) ->
  Forall (fun x => Rabs (x - tau s) < dtau s / 2) (taus st)
  /\ Forall (fun x => Rabs (x - s_z s) < ds_z s / 2) (s_zs st)
  /\ Forall (fun x => 2 < x) (s_hs st)
  /\ (horizontal_dist s = true ->
      Forall (fun x => Rabs (x - s_h s) < ds_h s / 2) (s_hs st))
  /\ (horizontal_dist s = false ->
      Forall (fun x => Rabs (x - s_x s) < ds_x s / 2) (s_xs st)
      /\ Forall (fun x => Rabs (x - s_y s) < ds_y s / 2) (s_ys st)).
Proof.
  intros Hf. destruct (find_pairs_Inv _ _ _ _ Hf) as [tmax [n HI]].
  pose proof (inv_accepted _ _ _ _ _ _ HI) as Hacc.
  rewrite (inv_taus _ _ _ _ _ _ HI), (inv_s_zs _ _ _ _ _ _ HI),
    (inv_s_hs _ _ _ _ _ _ HI), (inv_s_xs _ _ _ _ _ _ HI), (inv_s_ys _ _ _ _ _ _ HI).
  assert (Hl : Forall (fun p =>
            Rabs (lag_t tbl (fst p) (snd p) - tau s) < dtau s / 2
            /\ Rabs (lag_z tbl (fst p) (snd p) - s_z s) < ds_z s / 2
            /\ 2 < hor_dist tbl (fst p) (snd p)
            /\ (if horizontal_dist s
                then Rabs (hor_dist tbl (fst p) (snd p) - s_h s) < ds_h s / 2
                else Rabs (east tbl (fst p) (snd p) - s_x s) < ds_x s / 2
                  /\ Rabs (north tbl (fst p) (snd p) - s_y s) < ds_y s / 2)) (pairs st)).
  { eapply Forall_impl; [|exact Hacc]. intros p Hp.
    pose proof (accepted_lags _ _ _ _ _ _ Hp) as [Ht [Hz Hd]].
    pose proof (accepted_floors _ _ _ _ _ _ Hp) as [Hfl _]. auto. }
  split; [|split; [|split; [|split]]].
  - apply Forall_map_iff. eapply Forall_impl; [|exact Hl].
    intros p Hp. cbv beta in Hp. tauto.
  - apply Forall_map_iff. eapply Forall_impl; [|exact Hl].
    intros p Hp. cbv beta in Hp. tauto.
  - apply Forall_map_iff. eapply Forall_impl; [|exact Hl].
    intros p Hp. cbv beta in Hp. tauto.
  - intros Hh. rewrite Hh in Hl. apply Forall_map_iff.
    eapply Forall_impl; [|exact Hl]. intros p Hp. cbv beta in Hp. tauto.
  - intros Hh. rewrite Hh in Hl.
    split; apply Forall_map_iff; (eapply Forall_impl; [|exact Hl]);
      intros p Hp; cbv beta in Hp; tauto.
Qed.

(** What a returning call answers as mean lags. *)
Lemma cfi_Returns_lags (L : Lib) (meas : list Meas) (s : LagSpec) (r : InversionResult) :
  cfi L meas s = Returns r ->
  exists t0 st,
    find_pairs s (working_set s meas) = Returns (t0, st)
    /\ mean_tau r = Np.mean (taus st) /\ mean_sx r = Np.mean (s_xs st)
    /\ mean_sy r = Np.mean (s_ys st) /\ mean_sz r = Np.mean (s_zs st)
    /\ mean_sh r = Np.mean (s_hs st).
Proof.
  unfold cfi. intros H.
  destruct (find_pairs s (working_set s meas)) as [[t0 st]|e]; [|discriminate].
  cbn [bind] in H.
  destruct (density_model L (tods st)) as [countf|e]; [|discriminate].
  cbn [bind] in H.
  destruct (design countf (working_set s meas) t0 (pairs st)) as [d|e]; [|discriminate].
  cbn [bind] in H. destruct (invert L d) as [a e].
  injection H as <-. exists t0, st. simpl. repeat split; reflexivity.
Qed.

(** X7. The mean lags a call returns, when they are numbers, lie inside the
    requested windows: the mean temporal lag within [dtau/2] of [tau], the
    mean vertical offset within [ds_z/2] of [s_z], the mean horizontal
    distance above 2 km and, with [horizontal_dist], within [ds_h/2] of
    [s_h]; without it the mean east and north offsets within [ds_x/2] of
    [s_x] and [ds_y/2] of [s_y]. *)
Theorem mean_lags_inside_windows (L : Lib) (meas : list Meas) (s : LagSpec)
  (r : InversionResult) :
  cfi L meas s = Returns r ->
  (forall x, mean_tau r = Num x -> Rabs (x - tau s) < dtau s / 2)
  /\ (forall x, mean_sz r = Num x -> Rabs (x - s_z s) < ds_z s / 2)
  /\ (forall x, mean_sh r = Num x ->
        2 < x /\ (horizontal_dist s = true -> Rabs (x - s_h s) < ds_h s / 2))
  /\ (horizontal_dist s = false ->
      (forall x, mean_sx r = Num x -> Rabs (x - s_x s) < ds_x s / 2)
      /\ (forall x, mean_sy r = Num x -> Rabs (x - s_y s) < ds_y s / 2)).
Proof.
  intros H. destruct (cfi_Returns_lags _ _ _ _ H)
    as [t0 [st [Hf [Ht [Hx [Hy [Hz Hh]]]]]]].
  destruct (recorded_lags_bounds _ _ _ _ Hf) as [Wt [Wz [Wf [Wh Wxy]]]].
  rewrite Ht, Hz, Hh, Hx, Hy.
  split; [|split; [|split]].
  - intros x Hm. apply Forall_abs_between in Wt.
    pose proof (mean_between _ _ _ _ Wt Hm). apply Rabs_def1; lra.
  - intros x Hm. apply Forall_abs_between in Wz.
    pose proof (mean_between _ _ _ _ Wz Hm). apply Rabs_def1; lra.
  - intros x Hm. split.
    + exact (mean_above _ _ _ Wf Hm).
    + intros Hhd. specialize (Wh Hhd). apply Forall_abs_between in Wh.
      pose proof (mean_between _ _ _ _ Wh Hm). apply Rabs_def1; lra.
  - intros Hhd. destruct (Wxy Hhd) as [Wx Wy]. split; intros x Hm.
    + apply Forall_abs_between in Wx.
      pose proof (mean_between _ _ _ _ Wx Hm). apply Rabs_def1; lra.
    + apply Forall_abs_between in Wy.
      pose proof (mean_between _ _ _ _ Wy Hm). apply Rabs_def1; lra.
Qed.

Lemma design_const (c : R) (tbl : list Meas) (t0 : R) (prs : list (nat * nat)) :
  exists d, design (fun _ => Returns c) tbl t0 prs = Returns d.
Proof.
  induction prs as [|[k l] rest [d IH]]; simpl.
  - eexists. reflexivity.
  - rewrite IH. eexists. reflexivity.
Qed.

Lemma plain_cfi_returns (meas : list Meas) (s : LagSpec) (t0 : R) (st : Found) :
  find_pairs s (working_set s meas) = Returns (t0, st) ->
  exists r, cfi plain_lib meas s = Returns r.
Proof.
  intros Hf. unfold cfi. rewrite Hf. cbn [bind].
  destruct (density_model_Returns plain_lib (tods st)) as [countf Hc].
  { simpl. lia. }
  rewrite Hc. cbn [bind].
  assert (Hcf : countf = fun _ => Returns 1).
  { unfold density_model in Hc. simpl n_histogram in Hc.
    destruct (empty_histogram (map (fun x => Np.mod_ (x / 3600) 24) (tods st)) 48)
      as [thist tbins].
    destruct (set_index _ 0 0) as [z1|e]; [|discriminate]. cbn [bind] in Hc.
    destruct (set_index z1 (length z1 - 1) 24) as [z2|e]; [|discriminate].
    cbn [bind] in Hc. injection Hc as <-. reflexivity. }
  rewrite Hcf.
  destruct (design_const 1 (working_set s meas) t0 (pairs st)) as [d Hd].
  rewrite Hd. cbn [bind]. destruct (invert plain_lib d) as [a e].
  eexists. reflexivity.
Qed.

Lemma mean_lags_inside_windows_witness :
  exists r,
    cfi plain_lib demo_tbl demo_spec = Returns r
    /\ (forall x, mean_tau r = Num x -> Rabs (x - tau demo_spec) < dtau demo_spec / 2)
    /\ (forall x, mean_sz r = Num x -> Rabs (x - s_z demo_spec) < ds_z demo_spec / 2)
    /\ (forall x, mean_sh r = Num x ->
          2 < x /\ (horizontal_dist demo_spec = true ->
                    Rabs (x - s_h demo_spec) < ds_h demo_spec / 2)).
Proof.
  destruct (plain_cfi_returns demo_tbl demo_spec 0 demo_found demo_run) as [r Hr].
  exists r. split; [exact Hr|].
  destruct (mean_lags_inside_windows plain_lib demo_tbl demo_spec r Hr)
    as [H1 [H2 [H3 _]]].
  auto.
Defined.

Lemma mean_NaN (l : list R) : Np.mean l = NaN <-> l = [].
Proof.
  destruct l; simpl; split; intros H; try reflexivity; discriminate.
Qed.

(** X8. The five mean lags of a returning call are NaN together, exactly when
    the call accepted no pair, and then all six [acf] and all six [err]
    entries are NaN. *)
Theorem nan_mean_lags_mean_no_estimate (L : Lib) (meas : list Meas) (s : LagSpec)
  (r : InversionResult) :
  cfi L meas s = Returns r ->
  mean_tau r = NaN ->
  mean_sx r = NaN /\ mean_sy r = NaN /\ mean_sz r = NaN /\ mean_sh r = NaN
  /\ acf r = repeat NaN 6 /\ err r = repeat NaN 6.
Proof.
  intros H Hnan.
  destruct (cfi_Returns _ _ _ _ H) as [t0 [st [countf [d [Hf [_ [Hd Hinv]]]]]]].
  destruct (cfi_Returns_lags _ _ _ _ H) as [t0' [st' [Hf' [Ht [Hx [Hy [Hz Hh]]]]]]].
  rewrite Hf in Hf'. injection Hf' as <- <-.
  destruct (find_pairs_Inv _ _ _ _ Hf) as [tmax [n HI]].
  rewrite Ht in Hnan. apply mean_NaN in Hnan.
  rewrite (inv_taus _ _ _ _ _ _ HI) in Hnan. apply map_eq_nil in Hnan.
  rewrite Hx, Hy, Hz, Hh.
  rewrite (inv_s_xs _ _ _ _ _ _ HI), (inv_s_ys _ _ _ _ _ _ HI),
    (inv_s_zs _ _ _ _ _ _ HI), (inv_s_hs _ _ _ _ _ _ HI), Hnan.
  rewrite Hnan in Hd. simpl in Hd. injection Hd as <-.
  unfold invert in Hinv. simpl in Hinv. injection Hinv as <- <-.
  simpl. repeat split; reflexivity.
Qed.

Lemma nan_mean_lags_mean_no_estimate_witness :
  exists r,
    cfi plain_lib short_tbl demo_spec = Returns r
    /\ mean_tau r = NaN
    /\ mean_sx r = NaN /\ mean_sy r = NaN /\ mean_sz r = NaN /\ mean_sh r = NaN
    /\ acf r = repeat NaN 6 /\ err r = repeat NaN 6.
Proof.
  assert (Hf : find_pairs demo_spec (working_set demo_spec short_tbl) = Returns (0, found0)).
  { rewrite (working_set_default demo_spec) by reflexivity. exact short_find_pairs. }
  destruct (plain_cfi_returns short_tbl demo_spec 0 found0 Hf) as [r Hr].
  exists r.
  destruct (cfi_Returns_lags _ _ _ _ Hr) as [t0 [st [Hf' [Ht _]]]].
  rewrite Hf in Hf'. injection Hf' as <- <-.
  split; [exact Hr|]. split; [exact Ht|].
  exact (nan_mean_lags_mean_no_estimate plain_lib short_tbl demo_spec r Hr Ht).
Defined.

(** ** The weights *)

Lemma weight_hour_in_day (tbl : list Meas) (t0 : R) (k : nat) :
  0 <= weight_hour tbl t0 k < 24.
Proof. unfold weight_hour. apply mod_bounds. lra. Qed.

(** X9. The loop of lines 269-294 evaluates [countf] only at hours in
    [0, 24): if [countf] answers there, the design is built without an
    exception, and [A], [Ao], [m], [mo] and [ws] hold one entry per pair,
    the rows of [A] and [Ao] six columns each. *)
Theorem design_returns_on_day (countf : R -> result R) (tbl : list Meas) (t0 : R)
  (prs : list (nat * nat)) :
  (forall h, 0 <= h < 24 -> exists c, countf h = Returns c) ->
  exists d,
    design countf tbl t0 prs = Returns d
    /\ length (A d) = length prs /\ length (Ao d) = length prs
    /\ length (m d) = length prs /\ length (mo d) = length prs
    /\ length (ws d) = length prs
    /\ Forall (fun row => length row = 6%nat) (A d)
    /\ Forall (fun row => length row = 6%nat) (Ao d).
Proof.
  intros Hc. induction prs as [|[k l] rest IH].
  - eexists. split; [reflexivity|]. simpl. repeat split; constructor.
  - destruct IH as [d [Hd [H1 [H2 [H3 [H4 [H5 [H6 H7]]]]]]]].
    destruct (Hc _ (weight_hour_in_day tbl t0 k)) as [c Hck].
    simpl. rewrite Hck. cbn [bind]. rewrite Hd. cbn [bind].
    eexists. split; [reflexivity|]. simpl.
    repeat split; try congruence; constructor; auto.
Qed.

Lemma design_returns_on_day_witness :
  (forall h, 0 <= h < 24 -> exists c, (fun _ : R => Returns 2) h = Returns c)
  /\ exists d,
      design (fun _ => Returns 2) demo_tbl 0 (pairs demo_found) = Returns d
      /\ length (A d) = length (pairs demo_found)
      /\ length (Ao d) = length (pairs demo_found)
      /\ length (m d) = length (pairs demo_found)
      /\ length (mo d) = length (pairs demo_found)
      /\ length (ws d) = length (pairs demo_found)
      /\ Forall (fun row => length row = 6%nat) (A d)
      /\ Forall (fun row => length row = 6%nat) (Ao d).
Proof.
  assert (Hc : forall h, 0 <= h < 24 -> exists c, (fun _ : R => Returns 2) h = Returns c).
  { intros h _. exists 2. reflexivity. }
  split; [exact Hc|].
  exact (design_returns_on_day (fun _ => Returns 2) demo_tbl 0 (pairs demo_found) Hc).
Defined.

(** ** The time-of-day restriction, again *)

(** X10. An hour window that covers the whole day,
    [hour_of_day - dhour_of_day/2 <= 0] and [24 <= hour_of_day +
    dhour_of_day/2], keeps every measurement in its place: the defaults
    ([hour_of_day = 0], [dhour_of_day = 48]) switch the restriction off. *)
Theorem whole_day_window_keeps_all (s : LagSpec) (meas : list Meas) :
  hour_of_day s - dhour_of_day s / 2 <= 0 ->
  24 <= hour_of_day s + dhour_of_day s / 2 ->
  working_set s meas = meas.
Proof.
  intros H1 H2. unfold working_set.
  induction meas as [|x r IH]; simpl; [reflexivity|].
  assert (Hx : in_hour_window s x = true).
  { unfold in_hour_window. apply Rleb_true.
    pose proof (mod_bounds (t x / 3600) 24 ltac:(lra)) as Hb. fold (hod x) in Hb.
    apply Rabs_le. lra. }
  rewrite Hx, IH. reflexivity.
Qed.

Lemma whole_day_window_keeps_all_witness :
  hour_of_day default_spec - dhour_of_day default_spec / 2 <= 0
  /\ 24 <= hour_of_day default_spec + dhour_of_day default_spec / 2
  /\ working_set default_spec demo_tbl = demo_tbl.
Proof.
  assert (H1 : hour_of_day default_spec - dhour_of_day default_spec / 2 <= 0)
    by (simpl; lra).
  assert (H2 : 24 <= hour_of_day default_spec + dhour_of_day default_spec / 2)
    by (simpl; lra).
  split; [exact H1|]. split; [exact H2|].
  exact (whole_day_window_keeps_all default_spec demo_tbl H1 H2).
Defined.

(** * The mean wind lookup, [vel] (lines 35-45) *)

(** [n.round(x)] as an integer: to the nearest, a tie to the even one. *)
Definition round_ (x : R) : Z :=
  let f := Zfloor x in
  if Rlt_dec (x - IZR f) (1 / 2) then f
  else if Rlt_dec (1 / 2) (x - IZR f) then (f + 1)%Z
  else if Z.even f then f else (f + 1)%Z.

(** [a[i]] along an axis of length [n]: a negative index counts from the
    end, an index outside [-n, n) is an [IndexError]. *)
Definition py_index (n : nat) (i : Z) : result nat :=
  if ((0 <=? i) && (i <? Z.of_nat n))%Z then Returns (Z.to_nat i)
  else if ((- Z.of_nat n <=? i) && (i <? 0))%Z then Returns (Z.to_nat (Z.of_nat n + i))
  else Raises IndexError.

(** The gridded mean wind [v], of shape [(2, shape1, shape2)]: component,
    time, height.  Its entries may be NaN. *)
Record Grid : Type := mkGrid {
  shape1 : nat;
  shape2 : nat;
  v_at : nat -> nat -> nat -> fval
}.

(** [x[0]]. *)
Definition first (x : list R) : result R :=
  match x with
  | [] => Raises IndexError
  | a :: _ => Returns a
  end.

(** Entry of [ti] (lines 40, 43, 44) and of [hi] (lines 41, 42) for one
    measurement, for [dt <> 0] and [dh <> 0]. *)
Definition ti_of (g : Grid) (times0 dt tm : R) : Z :=
  let i := round_ ((tm - times0) / dt) in
  let i := if (i <? 0)%Z then 0%Z else i in
  if (i >? Z.of_nat (shape1 g) - 1)%Z then (Z.of_nat (shape1 g) - 1)%Z else i.

Definition hi_of (g : Grid) (rgs0 dh alt : R) : Z :=
  let j := Zfloor ((alt - rgs0) / dh) in
  if (j >? Z.of_nat (shape2 g) - 1)%Z then (Z.of_nat (shape2 g) - 1)%Z else j.

(** [v[c, ti, hi]] for one pair of indices. *)
Definition lookup (g : Grid) (c : nat) (i j : Z) : result fval :=
  a <- py_index (shape1 g) i ;;
  b <- py_index (shape2 g) j ;;
  Returns (v_at g c a b).

(** [x <- f a] for every [a], in order; the first exception ends it. *)
Fixpoint map_result {X Y : Type} (f : X -> result Y) (l : list X) : result (list Y) :=
  match l with
  | [] => Returns []
  | a :: r => y <- f a ;; ys <- map_result f r ;; Returns (y :: ys)
  end.

(** [vel(t, alt, lats, lons, times, rgs, v, dt, dh)]: [pts] holds the
    parallel arrays [t] and [alt]; [lats] and [lons] are not used. *)
Definition vel (pts : list (R * R)) (times rgs : list R) (g : Grid) (dt dh : R)
  : result (list fval * list fval) :=
  times0 <- first times ;;
  rgs0 <- first rgs ;;
  let ti := map (fun p => ti_of g times0 dt (fst p)) pts in
  let hi := map (fun p => hi_of g rgs0 dh (snd p)) pts in
  vu <- map_result (fun ij => lookup g 0 (fst ij) (snd ij)) (combine ti hi) ;;
  vv <- map_result (fun ij => lookup g 1 (fst ij) (snd ij)) (combine ti hi) ;;
  Returns (vu, vv).

(** ** Rounding *)

Lemma round_near (x : R) : Rabs (x - IZR (round_ x)) <= 1 / 2.
Proof.
  unfold round_. pose proof (Zfloor_bound x) as [H1 H2].
  destruct (Rlt_dec (x - IZR (Zfloor x)) (1 / 2)).
  - apply Rabs_le. lra.
  - destruct (Rlt_dec (1 / 2) (x - IZR (Zfloor x))).
    + rewrite plus_IZR. apply Rabs_le. lra.
    + destruct (Z.even (Zfloor x)).
      * apply Rabs_le. lra.
      * rewrite plus_IZR. apply Rabs_le. lra.
Qed.

Lemma Rabs_le_between (x a : R) : Rabs x <= a -> - a <= x <= a.
Proof. unfold Rabs. destruct (Rcase_abs x); lra. Qed.

Lemma round_ge (x : R) (z : Z) : IZR z <= x -> (z <= round_ x)%Z.
Proof.
  intros H. pose proof (round_near x) as Hn. apply Rabs_le_between in Hn.
  assert (IZR z - 1 < IZR (round_ x)) by lra.
  rewrite <- minus_IZR in H0. apply lt_IZR in H0. lia.
Qed.

Lemma round_le (x : R) (z : Z) : x <= IZR z -> (round_ x <= z)%Z.
Proof.
  intros H. pose proof (round_near x) as Hn. apply Rabs_le_between in Hn.
  assert (IZR (round_ x) < IZR z + 1) by lra.
  rewrite <- plus_IZR in H0. apply lt_IZR in H0. lia.
Qed.

(** ** The indices [vel] reads at *)

Lemma ti_of_cases (g : Grid) (times0 dt tm : R) :
  let i := round_ ((tm - times0) / dt) in
  let n := Z.of_nat (shape1 g) in
  (1 <= n)%Z ->
  (0 <= ti_of g times0 dt tm <= n - 1)%Z
  /\ ((i <= 0)%Z -> ti_of g times0 dt tm = 0%Z)
  /\ ((n - 1 <= i)%Z -> ti_of g times0 dt tm = (n - 1)%Z)
  /\ ((0 <= i <= n - 1)%Z -> ti_of g times0 dt tm = i).
Proof.
  intros i n Hn. unfold ti_of. fold i. fold n.
  rewrite Z.gtb_ltb.
  destruct (Z.ltb_spec i 0); destruct (Z.ltb_spec (n - 1) 0);
    try destruct (Z.ltb_spec (n - 1) i); repeat split; intros; lia.
Qed.

Lemma quotient_ge (x d : R) (z : Z) : 0 < d -> IZR z * d <= x -> IZR z <= x / d.
Proof.
  intros Hd H. apply (Rmult_le_reg_r d); [exact Hd|].
  replace (x / d * d) with x by (field; lra). exact H.
Qed.

Lemma quotient_le (x d : R) (z : Z) : 0 < d -> x <= IZR z * d -> x / d <= IZR z.
Proof.
  intros Hd H. apply (Rmult_le_reg_r d); [exact Hd|].
  replace (x / d * d) with x by (field; lra). exact H.
Qed.

(** X11. The time index of [vel] is always a valid index of the time axis,
    [0 <= ti <= shape1 - 1]: for [dt > 0], a time at or before the first
    grid time reads the first sample and a time at or after the last grid
    time reads the last one. *)
Theorem vel_time_index_clamped (g : Grid) (times0 dt tm : R) :
  (1 <= shape1 g)%nat -> 0 < dt ->
  (0 <= ti_of g times0 dt tm <= Z.of_nat (shape1 g) - 1)%Z
  /\ (tm <= times0 -> ti_of g times0 dt tm = 0%Z)
  /\ (times0 + IZR (Z.of_nat (shape1 g) - 1) * dt <= tm ->
      ti_of g times0 dt tm = (Z.of_nat (shape1 g) - 1)%Z).
Proof.
  intros Hn Hd.
  destruct (ti_of_cases g times0 dt tm ltac:(lia)) as [Hb [Hlo [Hhi _]]].
  split; [exact Hb|]. split.
  - intros Ht. apply Hlo. apply round_le. apply quotient_le; [exact Hd|]. simpl. lra.
  - intros Ht. apply Hhi. apply round_ge. apply quotient_ge; [exact Hd|]. lra.
Qed.

(** A grid of three times and two heights; component 0 is [10 i + j] at
    time [i] and height [j], component 1 is NaN. *)
Definition demo_grid : Grid :=
  {| shape1 := 3; shape2 := 2;
     v_at := fun c i j => match c with
                          | O => Num (10 * INR i + INR j)
                          | _ => NaN
                          end |}.

Lemma vel_time_index_clamped_witness :
  (1 <= shape1 demo_grid)%nat /\ 0 < 1800
  /\ (0 <= ti_of demo_grid 0 1800 5000 <= Z.of_nat (shape1 demo_grid) - 1)%Z
  /\ (5000 <= 0 -> ti_of demo_grid 0 1800 5000 = 0%Z)
  /\ (0 + IZR (Z.of_nat (shape1 demo_grid) - 1) * 1800 <= 5000 ->
      ti_of demo_grid 0 1800 5000 = (Z.of_nat (shape1 demo_grid) - 1)%Z).
Proof.
  assert (Hn : (1 <= shape1 demo_grid)%nat) by (simpl; lia).
  assert (Hd : 0 < 1800) by lra.
  split; [exact Hn|]. split; [exact Hd|].
  exact (vel_time_index_clamped demo_grid 0 1800 5000 Hn Hd).
Defined.

(** X12. Inside the span of the grid times, [vel] reads the nearest time
    sample: the grid time of index [ti] is at most [dt/2] away from the
    measurement's time. *)
Theorem vel_reads_nearest_time (g : Grid) (times0 dt tm : R) :
  (1 <= shape1 g)%nat -> 0 < dt ->
  times0 <= tm <= times0 + IZR (Z.of_nat (shape1 g) - 1) * dt ->
  Rabs (tm - (times0 + IZR (ti_of g times0 dt tm) * dt)) <= dt / 2.
Proof.
  intros Hn Hd [H1 H2].
  destruct (ti_of_cases g times0 dt tm ltac:(lia)) as [_ [_ [_ Hin]]].
  rewrite Hin.
  - pose proof (round_near ((tm - times0) / dt)) as Hr.
    apply Rabs_le_between in Hr. destruct Hr as [Hr1 Hr2].
    apply (Rmult_le_compat_r dt) in Hr1; [|lra].
    apply (Rmult_le_compat_r dt) in Hr2; [|lra].
    replace (((tm - times0) / dt - IZR (round_ ((tm - times0) / dt))) * dt)
      with (tm - times0 - IZR (round_ ((tm - times0) / dt)) * dt) in Hr1, Hr2
      by (field; lra).
    apply Rabs_le. lra.
  - split.
    + apply round_ge. apply quotient_ge; [exact Hd|]. simpl. lra.
    + apply round_le. apply quotient_le; [exact Hd|]. lra.
Qed.

Lemma vel_reads_nearest_time_witness :
  (1 <= shape1 demo_grid)%nat /\ 0 < 1800
  /\ 0 <= 2000 <= 0 + IZR (Z.of_nat (shape1 demo_grid) - 1) * 1800
  /\ Rabs (2000 - (0 + IZR (ti_of demo_grid 0 1800 2000) * 1800)) <= 1800 / 2.
Proof.
  assert (Hn : (1 <= shape1 demo_grid)%nat) by (simpl; lia).
  assert (Hd : 0 < 1800) by lra.
  assert (Ht : 0 <= 2000 <= 0 + IZR (Z.of_nat (shape1 demo_grid) - 1) * 1800)
    by (simpl; lra).
  split; [exact Hn|]. split; [exact Hd|]. split; [exact Ht|].
  exact (vel_reads_nearest_time demo_grid 0 1800 2000 Hn Hd Ht).
Defined.

Lemma hi_of_cases (g : Grid) (rgs0 dh alt : R) :
  let j := Zfloor ((alt - rgs0) / dh) in
  let n := Z.of_nat (shape2 g) in
  ((j <= n - 1)%Z -> hi_of g rgs0 dh alt = j)
  /\ ((n - 1 <= j)%Z -> hi_of g rgs0 dh alt = (n - 1)%Z).
Proof.
  intros j n. unfold hi_of. fold j. fold n. rewrite Z.gtb_ltb.
  destruct (Z.ltb_spec (n - 1) j); split; intros; lia.
Qed.

Lemma floor_quotient (x d : R) : 0 < d ->
  IZR (Zfloor (x / d)) * d <= x < (IZR (Zfloor (x / d)) + 1) * d.
Proof.
  intros Hd. pose proof (Zfloor_bound (x / d)) as [H1 H2].
  apply (Rmult_le_compat_r d) in H1; [|lra].
  apply (Rmult_lt_compat_r d) in H2; [|lra].
  replace (x / d * d) with x in H1, H2 by (field; lra). lra.
Qed.

(** X13. For [dh > 0] and an altitude at or above the lowest grid height,
    the height index of [vel] is a valid index of the height axis; below the
    top of the grid it is the bin that holds the altitude,
    [rgs0 + hi dh <= alt < rgs0 + (hi + 1) dh] (the floor, where the time
    index is the nearest sample), and above it the last bin. *)
Theorem vel_height_index_bin (g : Grid) (rgs0 dh alt : R) :
  (1 <= shape2 g)%nat -> 0 < dh -> rgs0 <= alt ->
  (0 <= hi_of g rgs0 dh alt <= Z.of_nat (shape2 g) - 1)%Z
  /\ (alt < rgs0 + IZR (Z.of_nat (shape2 g)) * dh ->
      rgs0 + IZR (hi_of g rgs0 dh alt) * dh <= alt
      < rgs0 + (IZR (hi_of g rgs0 dh alt) + 1) * dh)
  /\ (rgs0 + IZR (Z.of_nat (shape2 g)) * dh <= alt ->
      hi_of g rgs0 dh alt = (Z.of_nat (shape2 g) - 1)%Z).
Proof.
  intros Hn Hd Ha.
  destruct (hi_of_cases g rgs0 dh alt) as [Hlo Hhi].
  pose proof (floor_quotient (alt - rgs0) dh Hd) as [Hf1 Hf2].
  assert (Hj0 : (0 <= Zfloor ((alt - rgs0) / dh))%Z).
  { apply (Zfloor_lub 0). apply (quotient_ge _ _ 0 Hd). simpl. lra. }
  split; [|split].
  - destruct (Z_le_gt_dec (Zfloor ((alt - rgs0) / dh)) (Z.of_nat (shape2 g) - 1)).
    + rewrite Hlo by assumption. lia.
    + rewrite Hhi by lia. lia.
  - intros Htop.
    assert (Hj : (Zfloor ((alt - rgs0) / dh) <= Z.of_nat (shape2 g) - 1)%Z).
    { assert (IZR (Zfloor ((alt - rgs0) / dh)) < IZR (Z.of_nat (shape2 g))).
      { apply (Rmult_lt_reg_r dh); [exact Hd|]. lra. }
      apply lt_IZR in H. lia. }
    rewrite Hlo by exact Hj. lra.
  - intros Htop. apply Hhi.
    assert (Z.of_nat (shape2 g) <= Zfloor ((alt - rgs0) / dh))%Z.
    { apply Zfloor_lub. apply quotient_ge; [exact Hd|]. lra. }
    lia.
Qed.

Lemma vel_height_index_bin_witness :
  (1 <= shape2 demo_grid)%nat /\ 0 < 1 /\ 80 <= 81.5
  /\ (0 <= hi_of demo_grid 80 1 81.5 <= Z.of_nat (shape2 demo_grid) - 1)%Z
  /\ (81.5 < 80 + IZR (Z.of_nat (shape2 demo_grid)) * 1 ->
      80 + IZR (hi_of demo_grid 80 1 81.5) * 1 <= 81.5
      < 80 + (IZR (hi_of demo_grid 80 1 81.5) + 1) * 1)
  /\ (80 + IZR (Z.of_nat (shape2 demo_grid)) * 1 <= 81.5 ->
      hi_of demo_grid 80 1 81.5 = (Z.of_nat (shape2 demo_grid) - 1)%Z).
Proof.
  assert (Hn : (1 <= shape2 demo_grid)%nat) by (simpl; lia).
  assert (Hd : 0 < 1) by lra.
  assert (Ha : 80 <= 81.5) by lra.
  split; [exact Hn|]. split; [exact Hd|]. split; [exact Ha|].
  exact (vel_height_index_bin demo_grid 80 1 81.5 Hn Hd Ha).
Defined.

Lemma py_index_in (n : nat) (i : Z) :
  (0 <= i < Z.of_nat n)%Z -> py_index n i = Returns (Z.to_nat i).
Proof.
  intros H. unfold py_index.
  destruct (Z.leb_spec 0 i); destruct (Z.ltb_spec i (Z.of_nat n)); try lia.
  reflexivity.
Qed.

Lemma py_index_wrap (n : nat) (i : Z) :
  (- Z.of_nat n <= i < 0)%Z -> py_index n i = Returns (Z.to_nat (Z.of_nat n + i)).
Proof.
  intros H. unfold py_index.
  destruct (Z.leb_spec 0 i); try lia. simpl.
  destruct (Z.leb_spec (- Z.of_nat n) i); destruct (Z.ltb_spec i 0); try lia.
  reflexivity.
Qed.

Lemma py_index_out (n : nat) (i : Z) :
  (i < - Z.of_nat n \/ Z.of_nat n <= i)%Z -> py_index n i = Raises IndexError.
Proof.
  intros H. unfold py_index.
  destruct (Z.leb_spec 0 i); destruct (Z.ltb_spec i (Z.of_nat n));
    destruct (Z.leb_spec (- Z.of_nat n) i); destruct (Z.ltb_spec i 0);
    try lia; reflexivity.
Qed.

(** ** What [vel] returns and when it raises *)

Lemma hi_of_in_bounds (g : Grid) (rgs0 dh alt : R) :
  (1 <= shape2 g)%nat -> 0 < dh -> rgs0 <= alt ->
  (0 <= hi_of g rgs0 dh alt <= Z.of_nat (shape2 g) - 1)%Z.
Proof.
  intros Hn Hd Ha. destruct (hi_of_cases g rgs0 dh alt) as [Hlo Hhi].
  assert (Hj0 : (0 <= Zfloor ((alt - rgs0) / dh))%Z).
  { apply (Zfloor_lub 0). apply (quotient_ge _ _ 0 Hd). simpl. lra. }
  destruct (Z_le_gt_dec (Zfloor ((alt - rgs0) / dh)) (Z.of_nat (shape2 g) - 1)).
  - rewrite Hlo by assumption. lia.
  - rewrite Hhi by lia. lia.
Qed.

Lemma map_result_Returns {X Y : Type} (f : X -> result Y) (h : X -> Y) (l : list X) :
  Forall (fun x => f x = Returns (h x)) l -> map_result f l = Returns (map h l).
Proof.
  induction l as [|x r IH]; intros H; simpl; [reflexivity|].
  inversion H as [|x' r' Hx Hr]; subst. rewrite Hx. cbn [bind].
  rewrite (IH Hr). reflexivity.
Qed.

Lemma map_result_Raises {X Y : Type} (f : X -> result Y) (e0 : exn) (l : list X) :
  (forall x e, f x = Raises e -> e = e0) ->
  (exists x, In x l /\ f x = Raises e0) ->
  map_result f l = Raises e0.
Proof.
  intros Hall. induction l as [|x r IH]; intros [y [Hin Hy]]; [destruct Hin|].
  simpl. destruct (f x) as [v|e] eqn:Hx.
  - cbn [bind]. destruct Hin as [<-|Hin]; [congruence|].
    rewrite IH by (exists y; auto). reflexivity.
  - cbn [bind]. f_equal. exact (Hall x e Hx).
Qed.

Lemma lookup_only_IndexError (g : Grid) (c : nat) (i j : Z) (e : exn) :
  lookup g c i j = Raises e -> e = IndexError.
Proof.
  unfold lookup, py_index.
  destruct ((0 <=? i) && (i <? Z.of_nat (shape1 g)))%Z;
    [|destruct ((- Z.of_nat (shape1 g) <=? i) && (i <? 0))%Z];
    cbn [bind];
    (destruct ((0 <=? j) && (j <? Z.of_nat (shape2 g)))%Z;
     [|destruct ((- Z.of_nat (shape2 g) <=? j) && (j <? 0))%Z]);
    cbn [bind]; intros H; congruence.
Qed.

(** X14. With grids that are not empty, [dt > 0], [dh > 0] and every
    altitude at or above the lowest grid height, [vel] raises nothing: it
    returns, for each measurement in order, the two wind components stored at
    its time index and height index. *)
Theorem vel_returns_on_grid (pts : list (R * R)) (times rgs : list R) (g : Grid)
  (dt dh times0 rgs0 : R) :
  first times = Returns times0 -> first rgs = Returns rgs0 ->
  (1 <= shape1 g)%nat -> (1 <= shape2 g)%nat -> 0 < dt -> 0 < dh ->
  Forall (fun p => rgs0 <= snd p) pts ->
  vel pts times rgs g dt dh
  = Returns
      (map (fun p => v_at g 0 (Z.to_nat (ti_of g times0 dt (fst p)))
                       (Z.to_nat (hi_of g rgs0 dh (snd p)))) pts,
       map (fun p => v_at g 1 (Z.to_nat (ti_of g times0 dt (fst p)))
                       (Z.to_nat (hi_of g rgs0 dh (snd p)))) pts).
Proof.
  intros Ht Hr Hn1 Hn2 Hdt Hdh Hall. unfold vel. rewrite Ht, Hr. cbn [bind].
  assert (Hc : forall c,
    map_result (fun ij => lookup g c (fst ij) (snd ij))
      (combine (map (fun p => ti_of g times0 dt (fst p)) pts)
               (map (fun p => hi_of g rgs0 dh (snd p)) pts))
    = Returns (map (fun p => v_at g c (Z.to_nat (ti_of g times0 dt (fst p)))
                                (Z.to_nat (hi_of g rgs0 dh (snd p)))) pts)).
  { intros c. induction pts as [|p r IH]; [reflexivity|].
    inversion Hall as [|p' r' Hp Hrest]; subst.
    simpl. unfold lookup at 1.
    destruct (ti_of_cases g times0 dt (fst p) ltac:(lia)) as [Hb _].
    pose proof (hi_of_in_bounds g rgs0 dh (snd p) Hn2 Hdh Hp) as Hh.
    rewrite py_index_in by lia. cbn [bind].
    rewrite py_index_in by lia. cbn [bind].
    rewrite (IH Hrest). reflexivity. }
  rewrite !Hc. reflexivity.
Qed.

Lemma vel_returns_on_grid_witness :
  first [0; 1800; 3600] = Returns 0 /\ first [80; 81] = Returns 80
  /\ (1 <= shape1 demo_grid)%nat /\ (1 <= shape2 demo_grid)%nat
  /\ 0 < 1800 /\ 0 < 1
  /\ Forall (fun p => 80 <= snd p) [(2000, 81.5)]
  /\ vel [(2000, 81.5)] [0; 1800; 3600] [80; 81] demo_grid 1800 1
     = Returns
         (map (fun p => v_at demo_grid 0 (Z.to_nat (ti_of demo_grid 0 1800 (fst p)))
                          (Z.to_nat (hi_of demo_grid 80 1 (snd p)))) [(2000, 81.5)],
          map (fun p => v_at demo_grid 1 (Z.to_nat (ti_of demo_grid 0 1800 (fst p)))
                          (Z.to_nat (hi_of demo_grid 80 1 (snd p)))) [(2000, 81.5)]).
Proof.
  assert (Hn1 : (1 <= shape1 demo_grid)%nat) by (simpl; lia).
  assert (Hn2 : (1 <= shape2 demo_grid)%nat) by (simpl; lia).
  assert (Hdt : 0 < 1800) by lra.
  assert (Hdh : 0 < 1) by lra.
  assert (Hall : Forall (fun p : R * R => 80 <= snd p) [(2000, 81.5)]).
  { constructor; [simpl; lra | constructor]. }
  split; [reflexivity|]. split; [reflexivity|].
  split; [exact Hn1|]. split; [exact Hn2|]. split; [exact Hdt|]. split; [exact Hdh|].
  split; [exact Hall|].
  exact (vel_returns_on_grid [(2000, 81.5)] [0; 1800; 3600] [80; 81] demo_grid
           1800 1 0 80 eq_refl eq_refl Hn1 Hn2 Hdt Hdh Hall).
Defined.

(** X15. The height index is clamped at the top only.  For [dh > 0] an
    altitude below the lowest grid height has a negative index, which the
    array lookup counts from the end: within one [dh] below the grid it reads
    the highest bin, down to [shape2] bins below it reads bin
    [shape2 + hi], and any lower it is an [IndexError]. *)
Theorem vel_below_grid_reads_from_top (g : Grid) (rgs0 dh alt : R) (c : nat) (i : Z) :
  0 < dh -> alt < rgs0 -> (0 <= i < Z.of_nat (shape1 g))%Z ->
  (hi_of g rgs0 dh alt < 0)%Z
  /\ (rgs0 - dh <= alt -> hi_of g rgs0 dh alt = (-1)%Z)
  /\ (rgs0 - IZR (Z.of_nat (shape2 g)) * dh <= alt ->
      lookup g c i (hi_of g rgs0 dh alt)
      = Returns (v_at g c (Z.to_nat i)
                   (Z.to_nat (Z.of_nat (shape2 g) + hi_of g rgs0 dh alt))))
  /\ (alt < rgs0 - IZR (Z.of_nat (shape2 g)) * dh ->
      lookup g c i (hi_of g rgs0 dh alt) = Raises IndexError).
Proof.
  intros Hd Ha Hi.
  destruct (hi_of_cases g rgs0 dh alt) as [Hlo _].
  pose proof (floor_quotient (alt - rgs0) dh Hd) as [Hf1 Hf2].
  assert (Hneg : (Zfloor ((alt - rgs0) / dh) < 0)%Z).
  { apply lt_IZR. apply (Rmult_lt_reg_r dh); [exact Hd|]. simpl. lra. }
  rewrite Hlo by lia.
  split; [exact Hneg|]. split; [|split].
  - intros Hone. apply Zfloor_eq. split.
    + apply quotient_ge; [exact Hd|]. lra.
    + apply (Rmult_lt_reg_r dh); [exact Hd|].
      replace ((alt - rgs0) / dh * dh) with (alt - rgs0) by (field; lra). lra.
  - intros Hin. unfold lookup. rewrite py_index_in by exact Hi. cbn [bind].
    rewrite py_index_wrap; [reflexivity|]. split; [|exact Hneg].
    apply Zfloor_lub. apply quotient_ge; [exact Hd|]. rewrite opp_IZR. lra.
  - intros Hout. unfold lookup. rewrite py_index_in by exact Hi. cbn [bind].
    rewrite py_index_out; [reflexivity|]. left.
    apply lt_IZR. rewrite opp_IZR. apply (Rmult_lt_reg_r dh); [exact Hd|]. lra.
Qed.

Lemma vel_below_grid_reads_from_top_witness :
  0 < 1 /\ 79.5 < 80 /\ (0 <= 1 < Z.of_nat (shape1 demo_grid))%Z
  /\ (hi_of demo_grid 80 1 79.5 < 0)%Z
  /\ (80 - 1 <= 79.5 -> hi_of demo_grid 80 1 79.5 = (-1)%Z)
  /\ (80 - IZR (Z.of_nat (shape2 demo_grid)) * 1 <= 79.5 ->
      lookup demo_grid 0 1 (hi_of demo_grid 80 1 79.5)
      = Returns (v_at demo_grid 0 (Z.to_nat 1)
                   (Z.to_nat (Z.of_nat (shape2 demo_grid) + hi_of demo_grid 80 1 79.5))))
  /\ (79.5 < 80 - IZR (Z.of_nat (shape2 demo_grid)) * 1 ->
      lookup demo_grid 0 1 (hi_of demo_grid 80 1 79.5) = Raises IndexError).
Proof.
  assert (Hd : 0 < 1) by lra.
  assert (Ha : 79.5 < 80) by lra.
  assert (Hi : (0 <= 1 < Z.of_nat (shape1 demo_grid))%Z) by (simpl; lia).
  split; [exact Hd|]. split; [exact Ha|]. split; [exact Hi|].
  exact (vel_below_grid_reads_from_top demo_grid 80 1 79.5 0 1 Hd Ha Hi).
Defined.

Lemma lookup_only_IndexError_low (g : Grid) (c : nat) (i : Z) (rgs0 dh alt : R) :
  0 < dh -> alt < rgs0 - IZR (Z.of_nat (shape2 g)) * dh ->
  lookup g c i (hi_of g rgs0 dh alt) = Raises IndexError.
Proof.
  intros Hd Hlow.
  destruct (hi_of_cases g rgs0 dh alt) as [Hlo _].
  pose proof (floor_quotient (alt - rgs0) dh Hd) as [Hf1 Hf2].
  assert (Hneg : (Zfloor ((alt - rgs0) / dh) < - Z.of_nat (shape2 g))%Z).
  { apply lt_IZR. rewrite opp_IZR. apply (Rmult_lt_reg_r dh); [exact Hd|]. lra. }
  rewrite Hlo by lia.
  destruct (lookup g c i (Zfloor ((alt - rgs0) / dh))) as [v|e] eqn:Hl.
  - unfold lookup in Hl. destruct (py_index (shape1 g) i); [|discriminate].
    cbn [bind] in Hl. rewrite py_index_out in Hl by (left; exact Hneg). discriminate.
  - f_equal. exact (lookup_only_IndexError _ _ _ _ _ Hl).
Qed.

Lemma vel_Raises_below (pts : list (R * R)) (times rgs : list R) (g : Grid)
  (dt dh times0 rgs0 : R) (p : R * R) :
  first times = Returns times0 -> first rgs = Returns rgs0 ->
  0 < dh -> In p pts ->
  snd p < rgs0 - IZR (Z.of_nat (shape2 g)) * dh ->
  vel pts times rgs g dt dh = Raises IndexError.
Proof.
  intros Ht Hr Hd Hin Hlow. unfold vel. rewrite Ht, Hr. cbn [bind].
  rewrite (map_result_Raises _ IndexError); [reflexivity| |].
  - intros ij e. apply lookup_only_IndexError.
  - exists (ti_of g times0 dt (fst p), hi_of g rgs0 dh (snd p)). split.
    + clear Hlow. induction pts as [|q r IH]; [destruct Hin|].
      simpl. destruct Hin as [-> | Hin]; [left; reflexivity | right; auto].
    + cbn [fst snd]. apply lookup_only_IndexError_low; assumption.
Qed.

(** X16. [vel] raises an [IndexError] when [times] or [rgs] is empty, and,
    for [dh > 0], when some altitude lies more than [shape2] bins below the
    lowest grid height. *)
Theorem vel_raises_IndexError (pts : list (R * R)) (times rgs : list R) (g : Grid)
  (dt dh : R) :
  times = [] \/ rgs = []
  \/ (exists times0 rgs0 p,
        first times = Returns times0 /\ first rgs = Returns rgs0
        /\ 0 < dh /\ In p pts
        /\ snd p < rgs0 - IZR (Z.of_nat (shape2 g)) * dh) ->
  vel pts times rgs g dt dh = Raises IndexError.
Proof.
  intros [-> | [-> | [times0 [rgs0 [p [Ht [Hr [Hd [Hin Hlow]]]]]]]]].
  - reflexivity.
  - unfold vel. destruct times; reflexivity.
  - exact (vel_Raises_below pts times rgs g dt dh times0 rgs0 p Ht Hr Hd Hin Hlow).
Qed.

Lemma vel_raises_IndexError_witness :
  (exists times0 rgs0 p,
      first [0; 1800; 3600] = Returns times0 /\ first [80; 81] = Returns rgs0
      /\ 0 < 1 /\ In p [(2000, 81.5); (2000, 70)]
      /\ snd p < rgs0 - IZR (Z.of_nat (shape2 demo_grid)) * 1)
  /\ vel [(2000, 81.5); (2000, 70)] [0; 1800; 3600] [80; 81] demo_grid 1800 1
     = Raises IndexError.
Proof.
  assert (H : exists times0 rgs0 p,
      first [0; 1800; 3600] = Returns times0 /\ first [80; 81] = Returns rgs0
      /\ 0 < 1 /\ In p [(2000, 81.5); (2000, 70)]
      /\ snd p < rgs0 - IZR (Z.of_nat (shape2 demo_grid)) * 1).
  { exists 0, 80, (2000, 70). split; [reflexivity|]. split; [reflexivity|].
    split; [lra|]. split; [right; left; reflexivity|]. simpl. lra. }
  split; [exact H|].
  apply (vel_raises_IndexError [(2000, 81.5); (2000, 70)] [0; 1800; 3600] [80; 81]
           demo_grid 1800 1).
  right. right. exact H.
Defined.

(** * Reading the measurements, [get_meas] (lines 48-124)

    The two HDF5 files are the arguments of the embedding: [MeasFile] is what
    lines 59-68 read from [meas_file], [Wind.File] what lines 86-91 read from
    [mean_wind_file] when [mean_rem] is set. *)

(** ** Arithmetic on doubles that may be NaN *)

Definition add_f (a b : fval) : fval :=
  match a, b with
  | Num x, Num y => Num (x + y)
  | _, _ => NaN
  end.

Definition sub_f (a b : fval) : fval :=
  match a, b with
  | Num x, Num y => Num (x - y)
  | _, _ => NaN
  end.

Definition div_f (a : fval) (b : R) : fval :=
  match a with
  | Num x => Num (x / b)
  | NaN => NaN
  end.

Definition abs_f (a : fval) : fval :=
  match a with
  | Num x => Num (Rabs x)
  | NaN => NaN
  end.

(** [a < b]: False when either side is NaN. *)
Definition ltb_f (a b : fval) : bool :=
  match a, b with
  | Num x, Num y => x <? y
  | _, _ => false
  end.

Definition isfinite (a : fval) : bool :=
  match a with
  | Num _ => true
  | NaN => false
  end.

(** The entries of an array that are not NaN, in order. *)
Fixpoint finite (a : list fval) : list R :=
  match a with
  | [] => []
  | Num x :: r => x :: finite r
  | NaN :: r => finite r
  end.

(** [n.nanmean(a)]: the mean of the entries that are not NaN; NaN (and a
    warning) when there is none. *)
Definition nanmean (a : list fval) : fval := Np.mean (finite a).

(** Sorting, for the median. *)
Fixpoint insert (x : R) (l : list R) : list R :=
  match l with
  | [] => [x]
  | y :: r => if x <=? y then x :: l else y :: insert x r
  end.

Definition sort (l : list R) : list R := fold_right insert [] l.

(** [n.median(a)]: the middle entry of the sorted array, the mean of the two
    middle entries for an even length. *)
Definition median (a : list R) : fval :=
  let s := sort a in
  let n := length a in
  match n with
  | O => NaN
  | _ => if Nat.even n
         then Num ((nth (n / 2 - 1) s 0 + nth (n / 2) s 0) / 2)
         else Num (nth (n / 2) s 0)
  end.

(** [n.nanmedian(a)]: the median of the entries that are not NaN. *)
Definition nanmedian (a : list fval) : fval := median (finite a).

(** ** The files *)

(** The measurement file: the six arrays that [cfi] reads, a row per
    measurement, and the array ["dcos"], of shape (n, 2), when the file has
    that key. *)
Record MeasFile : Type := mkMeasFile {
  rows : list Meas;
  dcos : option (list (R * R))
}.

Module Wind.

(** The mean wind file: the grid [v] with its first time and height and its
    steps. *)
Record File : Type := mkFile {
  times : list R;
  rgs : list R;
  v : Grid;
  dt : R;
  dh : R
}.

End Wind.

(** A row of the dict that [get_meas] returns: the measurement and its
    direction cosines, [dcoss[k,:]]. *)
Definition Row : Type := (Meas * (R * R))%type.

(** ** The direction cosine threshold (lines 65-80) *)

(** [a[idx]] for an array of indices: an [IndexError] for an index past the
    end. *)
Definition take {X : Type} (a : list X) (idx : list nat) : result (list X) :=
  map_result (fun i => match nth_error a i with
                       | Some x => Returns x
                       | None => Raises IndexError
                       end) idx.

(** [dcos2 = n.sqrt(dcoss[:,0]**2.0 + dcoss[:,1]**2.0)], at one row. *)
Definition dcos2 (d : R * R) : R := sqrt (fst d ^ 2 + snd d ^ 2).

Definition dcos_filter (f : MeasFile) (dcos_thresh : R) : result (list Row) :=
  let dcoss := match dcos f with
               | Some d => d
               | None => repeat (0, 0) (length (rows f))
               end in
  let ok_idx := Np.where_ (fun d => dcos2 d <? dcos_thresh) dcoss in
  tbl <- take (rows f) ok_idx ;;
  dcoss <- take dcoss ok_idx ;;
  Returns (combine tbl dcoss).

(** ** The mean wind removal (lines 83-122) *)

(** [dopsp = dops + (vu*braggs[:,0]+vv*braggs[:,1])/2.0/n.pi], at one row. *)
Definition high_pass (x : Meas) (vu vv : fval) : fval :=
  add_f (Num (dops x))
        (div_f (div_f (add_f (mul_f vu (bragg x 0)) (mul_f vv (bragg x 1))) 2) PI).

Definition dopsp_of (tb : list Row) (vu vv : list fval) : list fval :=
  map (fun xv => high_pass (fst (fst xv)) (fst (snd xv)) (snd (snd xv)))
      (combine tb (combine vu vv)).

(** [resid = n.abs(n.nanmean(dopsp)-dopsp)] and
    [stdev_est = n.nanmedian(resid)]. *)
Definition resid_of (dopsp : list fval) : list fval :=
  map (fun d => abs_f (sub_f (nanmean dopsp) d)) dopsp.

Definition stdev_est_of (dopsp : list fval) : fval := nanmedian (resid_of dopsp).

(** The row with [dops] replaced. *)
Definition set_dops (x : Meas) (d : R) : Meas :=
  mkMeas (t x) (heights x) d (lats x) (lons x) (braggs x).

(** Lines 114-122: the rows at
    [n.where(n.isfinite(dopsp) & (resid < 5*stdev_est))[0]], with [dopsp] as
    their [dops]. *)
Definition select (stdev_est : fval) (tb : list Row) (dopsp resid : list fval)
  : list Row :=
  flat_map (fun xdr =>
              match fst (snd xdr) with
              | Num y => if ltb_f (snd (snd xdr)) (mul_f stdev_est 5)
                         then [(set_dops (fst (fst xdr)) y, snd (fst xdr))]
                         else []
              | NaN => []
              end)
           (combine tb (combine dopsp resid)).

(** [stdev_est2] (line 102) is only printed. *)
Definition remove_mean (w : Wind.File) (tb : list Row) : result (list Row) :=
  vs <- vel (map (fun x => (t (fst x), heights (fst x))) tb)
            (Wind.times w) (Wind.rgs w) (Wind.v w) (Wind.dt w) (Wind.dh w) ;;
  let '(vu, vv) := vs in
  let dopsp := dopsp_of tb vu vv in
  Returns (select (stdev_est_of dopsp) tb dopsp (resid_of dopsp)).

Definition get_meas (f : MeasFile) (mean_rem : bool) (dcos_thresh : R)
  (w : Wind.File) : result (list Row) :=
  tb <- dcos_filter f dcos_thresh ;;
  if mean_rem then remove_mean w tb else Returns tb.

(** The table that [cfi] reads from the dict. *)
Definition table (out : list Row) : list Meas := map fst out.

(** ** The direction cosine threshold *)

Lemma where_from_all {X : Type} (p : X -> bool) (i : nat) (a : list X) :
  (forall x, In x a -> p x = true) -> Np.where_from p i a = seq i (length a).
Proof.
  revert i. induction a as [|x r IH]; intros i H; simpl; [reflexivity|].
  rewrite (H x) by (left; reflexivity). f_equal. apply IH.
  intros y Hy. apply H. right. exact Hy.
Qed.

Lemma where_from_none {X : Type} (p : X -> bool) (i : nat) (a : list X) :
  (forall x, In x a -> p x = false) -> Np.where_from p i a = [].
Proof.
  revert i. induction a as [|x r IH]; intros i H; simpl; [reflexivity|].
  rewrite (H x) by (left; reflexivity). apply IH.
  intros y Hy. apply H. right. exact Hy.
Qed.

Lemma take_nil {X : Type} (a : list X) : take a [] = Returns [].
Proof. reflexivity. Qed.

Lemma take_seq_app {X : Type} (pre a : list X) :
  take (pre ++ a) (seq (length pre) (length a)) = Returns a.
Proof.
  revert pre. induction a as [|x r IH]; intros pre; [reflexivity|].
  unfold take. simpl.
  rewrite nth_error_app2 by lia. rewrite Nat.sub_diag. simpl. cbn [bind].
  specialize (IH (pre ++ [x])). rewrite <- app_assoc in IH. simpl in IH.
  rewrite length_app in IH. simpl in IH. rewrite Nat.add_1_r in IH.
  unfold take in IH. rewrite IH. reflexivity.
Qed.

Lemma take_all {X : Type} (a : list X) : take a (seq 0 (length a)) = Returns a.
Proof. exact (take_seq_app [] a). Qed.

Lemma dcos2_nonneg (d : R * R) : 0 <= dcos2 d.
Proof. unfold dcos2. apply sqrt_pos. Qed.

Lemma dcos2_zero : dcos2 (0, 0) = 0.
Proof.
  unfold dcos2. simpl. replace (0 * (0 * 1) + 0 * (0 * 1)) with 0 by ring.
  apply sqrt_0.
Qed.

Lemma combine_repeat {X Y : Type} (a : list X) (y : Y) :
  combine a (repeat y (length a)) = map (fun x => (x, y)) a.
Proof. induction a as [|x r IH]; simpl; [reflexivity|]. rewrite IH. reflexivity. Qed.

Lemma dcos_filter_nonpositive (f : MeasFile) (thr : R) :
  thr <= 0 -> dcos_filter f thr = Returns [].
Proof.
  intros H. unfold dcos_filter, Np.where_.
  rewrite where_from_none; [reflexivity|].
  intros d _. apply Rltb_false. pose proof (dcos2_nonneg d). lra.
Qed.

(** X17. A measurement file without the key ["dcos"] passes the direction
    cosine threshold whole when [dcos_thresh] is positive, with zeros as its
    direction cosines, and not at all otherwise: without mean removal
    [get_meas] returns every measurement of the file, in order, or none. *)
Theorem get_meas_without_dcos (f : MeasFile) (thr : R) (w : Wind.File) :
  dcos f = None ->
  get_meas f false thr w
  = Returns (if 0 <? thr then map (fun x => (x, (0, 0))) (rows f) else []).
Proof.
  intros Hd. destruct (Rlt_dec 0 thr) as [Hpos|Hneg].
  - rewrite (proj2 (Rltb_true 0 thr) Hpos).
    unfold get_meas, dcos_filter, Np.where_. rewrite Hd.
    rewrite where_from_all.
    + rewrite repeat_length, take_all. cbn [bind].
      rewrite <- (repeat_length (0, 0) (length (rows f))) at 2.
      rewrite take_all. cbn [bind]. rewrite combine_repeat. reflexivity.
    + intros d Hin. apply repeat_spec in Hin. subst d.
      apply Rltb_true. rewrite dcos2_zero. exact Hpos.
  - rewrite (proj2 (Rltb_false 0 thr) Hneg).
    unfold get_meas. rewrite dcos_filter_nonpositive by lra. reflexivity.
Qed.

(** Two measurements below the mean wind grid of [demo_grid], one of them
    half a step below. *)
Definition demo_file : MeasFile :=
  {| rows := [at_ 0 0; at_ 100 0.1]; dcos := None |}.

Definition demo_wind : Wind.File :=
  {| Wind.times := [0; 1800; 3600]; Wind.rgs := [80; 81]; Wind.v := demo_grid;
     Wind.dt := 1800; Wind.dh := 1 |}.

Lemma get_meas_without_dcos_witness :
  dcos demo_file = None
  /\ get_meas demo_file false 0.8 demo_wind
     = Returns (if 0 <? 0.8 then map (fun x => (x, (0, 0))) (rows demo_file) else []).
Proof.
  split; [reflexivity|].
  exact (get_meas_without_dcos demo_file 0.8 demo_wind eq_refl).
Defined.

(** X18. With a [dcos_thresh] that is zero or negative no measurement passes,
    whatever the file holds: [get_meas] returns the empty table, and [cfi]
    called on what it returns raises a [ValueError]. *)
Theorem get_meas_nonpositive_threshold (L : Lib) (f : MeasFile) (thr : R)
  (w : Wind.File) (s : LagSpec) :
  thr <= 0 ->
  get_meas f false thr w = Returns []
  /\ (out <- get_meas f false thr w ;; cfi L (table out) s) = Raises ValueError.
Proof.
  intros H.
  assert (Hg : get_meas f false thr w = Returns []).
  { unfold get_meas. rewrite dcos_filter_nonpositive by exact H. reflexivity. }
  split; [exact Hg|].
  rewrite Hg. cbn [bind].
  unfold cfi, table, working_set. cbn [map filter]. rewrite find_pairs_empty. reflexivity.
Qed.

Lemma get_meas_nonpositive_threshold_witness :
  0 <= 0
  /\ get_meas demo_file false 0 demo_wind = Returns []
  /\ (out <- get_meas demo_file false 0 demo_wind ;; cfi plain_lib (table out) default_spec)
     = Raises ValueError.
Proof.
  assert (H : 0 <= 0) by lra.
  split; [exact H|].
  exact (get_meas_nonpositive_threshold plain_lib demo_file 0 demo_wind default_spec H).
Defined.

(** ** The mean wind removal *)

Lemma map_result_length {X Y : Type} (f : X -> result Y) (l : list X) (ys : list Y) :
  map_result f l = Returns ys -> length ys = length l.
Proof.
  revert ys. induction l as [|x r IH]; intros ys H; simpl in H.
  - injection H as <-. reflexivity.
  - destruct (f x); [|discriminate]. cbn [bind] in H.
    destruct (map_result f r) as [zs|]; [|discriminate]. cbn [bind] in H.
    injection H as <-. simpl. f_equal. apply IH. reflexivity.
Qed.

Lemma vel_length (pts : list (R * R)) (times rgs : list R) (g : Grid) (dt dh : R)
  (vu vv : list fval) :
  vel pts times rgs g dt dh = Returns (vu, vv) ->
  length vu = length pts /\ length vv = length pts.
Proof.
  unfold vel. destruct (first times); [|discriminate]. cbn [bind].
  destruct (first rgs); [|discriminate]. cbn [bind].
  destruct (map_result _ _) as [us|] eqn:Hu; [|discriminate]. cbn [bind].
  destruct (map_result _ _) as [vs|] eqn:Hv in |- *; [|discriminate]. cbn [bind].
  intros H. injection H as <- <-.
  apply map_result_length in Hu, Hv.
  rewrite length_combine, !length_map, Nat.min_id in Hu, Hv. split; assumption.
Qed.

Lemma get_meas_mean_rem_Returns (f : MeasFile) (thr : R) (w : Wind.File) (out : list Row) :
  get_meas f true thr w = Returns out ->
  exists tb vu vv,
    dcos_filter f thr = Returns tb
    /\ vel (map (fun x => (t (fst x), heights (fst x))) tb)
           (Wind.times w) (Wind.rgs w) (Wind.v w) (Wind.dt w) (Wind.dh w)
       = Returns (vu, vv)
    /\ length vu = length tb /\ length vv = length tb
    /\ out = select (stdev_est_of (dopsp_of tb vu vv)) tb (dopsp_of tb vu vv)
               (resid_of (dopsp_of tb vu vv)).
Proof.
  unfold get_meas. destruct (dcos_filter f thr) as [tb|]; [|discriminate].
  cbn [bind]. unfold remove_mean.
  destruct (vel _ _ _ _ _ _) as [[vu vv]|] eqn:Hv; [|discriminate]. cbn [bind].
  intros H. injection H as <-.
  exists tb, vu, vv. pose proof (vel_length _ _ _ _ _ _ _ _ Hv) as [H1 H2].
  rewrite length_map in H1, H2. repeat split; assumption || reflexivity.
Qed.

Lemma In_combine_map_r {X Y Z : Type} (g : Y -> Z) (a : list X) (b : list Y)
  (x : X) (y : Y) (z : Z) :
  In (x, (y, z)) (combine a (combine b (map g b))) ->
  z = g y /\ In (x, y) (combine a b).
Proof.
  revert b. induction a as [|x0 a IH]; intros [|y0 b] H; simpl in H; try contradiction.
  destruct H as [H|H].
  - injection H as -> -> <-. split; [reflexivity | left; reflexivity].
  - destruct (IH b H) as [H1 H2]. split; [exact H1 | right; exact H2].
Qed.

Lemma In_combine_map_self {X Y Z : Type} (h : X * Y -> Z) (a : list X) (b : list Y)
  (x : X) (z : Z) :
  In (x, z) (combine a (map h (combine a b))) ->
  exists y, In (x, y) (combine a b) /\ z = h (x, y).
Proof.
  revert b. induction a as [|x0 a IH]; intros [|y0 b] H; simpl in H; try contradiction.
  destruct H as [H|H].
  - injection H as -> <-. exists y0. split; [left; reflexivity | reflexivity].
  - destruct (IH b H) as [y [H1 H2]]. exists y. split; [right; exact H1 | exact H2].
Qed.

(** The rows that [select] keeps. *)
Lemma In_select (sdf : fval) (tb : list Row) (dopsp : list fval) (r : Row) :
  In r (select sdf tb dopsp (resid_of dopsp)) ->
  exists x y,
    In (x, Num y) (combine tb dopsp)
    /\ r = (set_dops (fst x) y, snd x)
    /\ ltb_f (abs_f (sub_f (nanmean dopsp) (Num y))) (mul_f sdf 5) = true.
Proof.
  unfold select, resid_of. intros H. apply in_flat_map in H.
  destruct H as [[x [d z]] [Hin Hr]]. cbn [fst snd] in Hr.
  apply In_combine_map_r in Hin. destruct Hin as [-> Hin].
  destruct d as [y|]; [|contradiction].
  destruct (ltb_f _ _) eqn:Hlt; [|contradiction].
  destruct Hr as [<-|[]]. exists x, y. repeat split; assumption.
Qed.

Lemma high_pass_Num (x : Meas) (vu vv : fval) (y : R) :
  high_pass x vu vv = Num y ->
  exists u v, vu = Num u /\ vv = Num v
              /\ y = dops x + (u * bragg x 0 + v * bragg x 1) / 2 / PI.
Proof.
  unfold high_pass. destruct vu as [u|], vv as [v|]; simpl; try discriminate.
  intros H. injection H as <-. exists u, v. repeat split; reflexivity.
Qed.

Lemma ltb_f_true (a b : fval) :
  ltb_f a b = true <-> exists x y, a = Num x /\ b = Num y /\ x < y.
Proof.
  split.
  - destruct a as [x|], b as [y|]; simpl; try discriminate.
    intros H. apply Rltb_true in H. exists x, y. repeat split; assumption.
  - intros [x [y [-> [-> H]]]]. simpl. apply Rltb_true. exact H.
Qed.

(** What a kept row satisfies, in numbers. *)
Lemma kept_within (mu sdf : fval) (y : R) :
  ltb_f (abs_f (sub_f mu (Num y))) (mul_f sdf 5) = true ->
  exists m sd, mu = Num m /\ sdf = Num sd /\ Rabs (m - y) < 5 * sd /\ 0 < sd.
Proof.
  intros H. apply ltb_f_true in H. destruct H as [a [b [Ha [Hb Hlt]]]].
  destruct mu as [m|]; [|discriminate]. destruct sdf as [sd|]; [|discriminate].
  simpl in Ha, Hb. injection Ha as <-. injection Hb as <-.
  exists m, sd. pose proof (Rabs_pos (m - y)). repeat split; lra.
Qed.

(** X19. With mean removal, every row that [get_meas] returns is a row that
    passed the direction cosine threshold and whose mean wind, as [vel] looks
    it up, has two components that are numbers; its [dops] is the Doppler of
    that row plus the projection of the mean wind on its Bragg vector over
    [2 pi], and its other fields are unchanged.  A row with a NaN in its
    mean wind is dropped, also when the Bragg component it multiplies is
    zero. *)
Theorem get_meas_mean_removed (f : MeasFile) (thr : R) (w : Wind.File)
  (tb out : list Row) (vu vv : list fval) :
  dcos_filter f thr = Returns tb ->
  vel (map (fun x => (t (fst x), heights (fst x))) tb)
      (Wind.times w) (Wind.rgs w) (Wind.v w) (Wind.dt w) (Wind.dh w)
  = Returns (vu, vv) ->
  get_meas f true thr w = Returns out ->
  Forall (fun r =>
            exists x u v,
              In (x, (Num u, Num v)) (combine tb (combine vu vv))
              /\ r = (set_dops (fst x)
                        (dops (fst x)
                         + (u * bragg (fst x) 0 + v * bragg (fst x) 1) / 2 / PI),
                      snd x)) out.
Proof.
  intros Hd Hv Hg.
  destruct (get_meas_mean_rem_Returns _ _ _ _ Hg) as [tb' [vu' [vv' [Hd' [Hv' [_ [_ ->]]]]]]].
  rewrite Hd in Hd'. injection Hd' as <-.
  rewrite Hv in Hv'. injection Hv' as <- <-.
  apply Forall_forall. intros r Hr.
  apply In_select in Hr. destruct Hr as [x [y [Hin [-> _]]]].
  unfold dopsp_of in Hin. apply In_combine_map_self in Hin.
  destruct Hin as [[a b] [Hin Hy]]. cbn [fst snd] in Hy. symmetry in Hy.
  apply high_pass_Num in Hy. destruct Hy as [u [v [-> [-> ->]]]].
  exists x, u, v. split; [exact Hin | reflexivity].
Qed.

(** X20. With mean removal, when [get_meas] returns any row at all, the mean
    of the high-passed Dopplers and the median absolute deviation
    [stdev_est] are numbers, [stdev_est] is positive, and the [dops] of every
    returned row is less than [5 stdev_est] away from that mean. *)
Theorem get_meas_within_five_deviations (f : MeasFile) (thr : R) (w : Wind.File)
  (tb out : list Row) (vu vv : list fval) :
  dcos_filter f thr = Returns tb ->
  vel (map (fun x => (t (fst x), heights (fst x))) tb)
      (Wind.times w) (Wind.rgs w) (Wind.v w) (Wind.dt w) (Wind.dh w)
  = Returns (vu, vv) ->
  get_meas f true thr w = Returns out ->
  out <> [] ->
  exists mu sd,
    nanmean (dopsp_of tb vu vv) = Num mu
    /\ stdev_est_of (dopsp_of tb vu vv) = Num sd
    /\ 0 < sd
    /\ Forall (fun r => Rabs (mu - dops (fst r)) < 5 * sd) out.
Proof.
  intros Hd Hv Hg Hne.
  destruct (get_meas_mean_rem_Returns _ _ _ _ Hg) as [tb' [vu' [vv' [Hd' [Hv' [_ [_ Hout]]]]]]].
  rewrite Hd in Hd'. injection Hd' as <-.
  rewrite Hv in Hv'. injection Hv' as <- <-.
  destruct out as [|r0 rest]; [contradiction|].
  assert (H0 : In r0 (r0 :: rest)) by (left; reflexivity).
  rewrite Hout in H0. apply In_select in H0.
  destruct H0 as [x0 [y0 [_ [_ Hk0]]]].
  apply kept_within in Hk0. destruct Hk0 as [mu [sd [Hmu [Hsd [_ Hpos]]]]].
  exists mu, sd. repeat split; try assumption.
  apply Forall_forall. intros r Hr. rewrite Hout in Hr.
  apply In_select in Hr. destruct Hr as [x [y [_ [-> Hk]]]].
  apply kept_within in Hk. destruct Hk as [mu' [sd' [Hmu' [Hsd' [Hlt _]]]]].
  rewrite Hmu in Hmu'. injection Hmu' as <-.
  rewrite Hsd in Hsd'. injection Hsd' as <-.
  exact Hlt.
Qed.

(** ** The median *)

Lemma insert_perm (x : R) (l : list R) : Permutation (insert x l) (x :: l).
Proof.
  induction l as [|y r IH]; simpl; [apply Permutation_refl|].
  destruct (x <=? y); [apply Permutation_refl|].
  eapply perm_trans; [apply perm_skip; exact IH | apply perm_swap].
Qed.

Lemma sort_perm (l : list R) : Permutation (sort l) l.
Proof.
  induction l as [|x r IH]; simpl; [apply perm_nil|].
  eapply perm_trans; [apply insert_perm | apply perm_skip; exact IH].
Qed.

Lemma sort_length (l : list R) : length (sort l) = length l.
Proof. apply Permutation_length, sort_perm. Qed.

(** Ascending order, by positions. *)
Definition ascending (l : list R) : Prop :=
  forall i j, (i <= j < length l)%nat -> nth i l 0 <= nth j l 0.

Lemma ascending_cons (x : R) (l : list R) :
  (forall y, In y l -> x <= y) -> ascending l -> ascending (x :: l).
Proof.
  intros Hx Hl i j [Hij Hj]. destruct i as [|i], j as [|j]; simpl in *.
  - lra.
  - apply Hx. apply nth_In. lia.
  - lia.
  - apply Hl. lia.
Qed.

Lemma ascending_tail (x : R) (l : list R) : ascending (x :: l) -> ascending l.
Proof. intros H i j Hij. apply (H (S i) (S j)). simpl. lia. Qed.

Lemma ascending_head (x : R) (l : list R) (y : R) :
  ascending (x :: l) -> In y l -> x <= y.
Proof.
  intros H Hin. apply (In_nth _ _ 0) in Hin. destruct Hin as [j [Hj <-]].
  apply (H 0%nat (S j)). simpl. lia.
Qed.

Lemma insert_ascending (x : R) (l : list R) : ascending l -> ascending (insert x l).
Proof.
  induction l as [|y r IH]; intros Hl; simpl.
  - apply ascending_cons; [intros y [] | intros i j Hij; simpl in Hij; lia].
  - destruct (Rle_dec x y) as [Hxy|Hxy].
    + rewrite (proj2 (Rleb_true x y) Hxy). apply ascending_cons; [|exact Hl].
      intros z [<-|Hz]; [exact Hxy|].
      pose proof (ascending_head _ _ _ Hl Hz). lra.
    + rewrite (proj2 (Rleb_false x y) Hxy). apply ascending_cons.
      * intros z Hz. apply (Permutation_in _ (insert_perm x r)) in Hz.
        destruct Hz as [<-|Hz]; [lra | exact (ascending_head _ _ _ Hl Hz)].
      * apply IH. exact (ascending_tail _ _ Hl).
Qed.

Lemma sort_ascending (l : list R) : ascending (sort l).
Proof.
  induction l as [|x r IH]; simpl.
  - intros i j Hij. simpl in Hij. lia.
  - apply insert_ascending. exact IH.
Qed.

Lemma filter_length_perm (p : R -> bool) (l l' : list R) :
  Permutation l l' -> length (filter p l) = length (filter p l').
Proof.
  intros H. induction H as [|x l l' H IH|x y l|l l' l'' H1 IH1 H2 IH2]; simpl.
  - reflexivity.
  - destruct (p x); simpl; congruence.
  - destruct (p x), (p y); reflexivity.
  - congruence.
Qed.

Lemma filter_length_impl {X : Type} (p q : X -> bool) (l : list X) :
  (forall x, p x = true -> q x = true) ->
  (length (filter p l) <= length (filter q l))%nat.
Proof.
  intros H. induction l as [|x r IH]; simpl; [lia|].
  destruct (p x) eqn:Hp.
  - rewrite (H x Hp). simpl. lia.
  - destruct (q x); simpl; lia.
Qed.

Lemma filter_length_prefix (m : R) (l : list R) (a : nat) :
  (a <= length l)%nat -> (forall i, (i < a)%nat -> nth i l 0 <= m) ->
  (a <= length (filter (fun x => (x <=? m)%R) l))%nat.
Proof.
  revert a. induction l as [|x r IH]; intros a Ha H; simpl in *; [lia|].
  destruct a as [|a]; [lia|].
  rewrite (proj2 (Rleb_true x m) (H 0%nat ltac:(lia))). simpl.
  apply le_n_S. apply IH; [lia|]. intros i Hi. apply (H (S i)). lia.
Qed.

(** At least half of the entries are at or below the median. *)
Lemma median_half (l : list R) (m : R) :
  median l = Num m ->
  (length l <= 2 * length (filter (fun x => (x <=? m)%R) l))%nat.
Proof.
  unfold median. intros H.
  rewrite (filter_length_perm _ _ _ (Permutation_sym (sort_perm l))).
  pose proof (sort_ascending l) as Hs. pose proof (sort_length l) as Hlen.
  assert (Hn : length l <> 0%nat) by (intros E; rewrite E in H; discriminate).
  assert (H' : (if Nat.even (length l)
                then Num ((nth (length l / 2 - 1) (sort l) 0
                           + nth (length l / 2) (sort l) 0) / 2)
                else Num (nth (length l / 2) (sort l) 0)) = Num m).
  { destruct (length l); [contradiction | exact H]. }
  clear H. revert H' Hs Hlen Hn. generalize (sort l) as s, (length l) as n.
  intros s n H Hs Hlen Hn.
  destruct (Nat.even n) eqn:He.
  - apply (f_equal (fun v => match v with Num x => x | NaN => 0 end)) in H.
    cbv beta iota in H. rewrite <- H.
    apply Nat.even_spec in He. destruct He as [k Hk].
    assert (Hdiv : (n / 2 = k)%nat).
    { rewrite Hk, Nat.mul_comm. apply Nat.div_mul. lia. }
    rewrite Hdiv.
    assert (Hp : (k <= length (filter (fun x => (x <=? (nth (k - 1) s 0 + nth k s 0) / 2)%R)
                                   s))%nat).
    { apply filter_length_prefix; [lia|]. intros i Hi.
      pose proof (Hs i (k - 1)%nat ltac:(lia)).
      pose proof (Hs (k - 1)%nat k ltac:(lia)). lra. }
    lia.
  - apply (f_equal (fun v => match v with Num x => x | NaN => 0 end)) in H.
    cbv beta iota in H. rewrite <- H.
    assert (Ho : Nat.odd n = true) by (rewrite <- Nat.negb_even, He; reflexivity).
    apply Nat.odd_spec in Ho. destruct Ho as [k Hk].
    assert (Hdiv : (n / 2 = k)%nat).
    { rewrite Hk, Nat.mul_comm, Nat.div_add_l by lia. simpl. lia. }
    rewrite Hdiv.
    assert (Hp : (S k <= length (filter (fun x => (x <=? nth k s 0)%R) s))%nat).
    { apply filter_length_prefix; [lia|]. intros i Hi. apply Hs. lia. }
    lia.
Qed.

(** ** How many rows the mean wind removal keeps *)

Lemma finite_resid (dopsp : list fval) (mu : fval) :
  finite (map (fun d => abs_f (sub_f mu d)) dopsp)
  = match mu with
    | Num m => map (fun y => Rabs (m - y)) (finite dopsp)
    | NaN => []
    end.
Proof.
  destruct mu as [m|]; induction dopsp as [|d r IH]; simpl; try reflexivity.
  - destruct d as [y|]; simpl; [f_equal; exact IH | exact IH].
  - destruct d as [y|]; simpl; exact IH.
Qed.

Lemma select_length (sdf mu : fval) (tb : list Row) (dopsp : list fval) :
  length tb = length dopsp ->
  length (select sdf tb dopsp (map (fun d => abs_f (sub_f mu d)) dopsp))
  = length (filter (fun y => ltb_f (abs_f (sub_f mu (Num y))) (mul_f sdf 5))
                   (finite dopsp)).
Proof.
  unfold select. revert dopsp.
  induction tb as [|x tb IH]; intros [|d r] Hlen; simpl in Hlen; try discriminate.
  - reflexivity.
  - cbn [map combine flat_map fst snd]. rewrite length_app.
    match goal with
    | |- (_ + ?b)%nat = _ =>
        assert (Hb : b = length (filter (fun y => ltb_f (abs_f (sub_f mu (Num y)))
                                                        (mul_f sdf 5)) (finite r)))
          by exact (IH r ltac:(lia));
        rewrite Hb
    end.
    destruct d as [y|]; cbn [finite filter].
    + destruct (ltb_f _ _); reflexivity.
    + reflexivity.
Qed.

Lemma dopsp_of_length (tb : list Row) (vu vv : list fval) :
  length vu = length tb -> length vv = length tb ->
  length (dopsp_of tb vu vv) = length tb.
Proof.
  intros H1 H2. unfold dopsp_of.
  rewrite length_map, !length_combine, H1, H2, !Nat.min_id. reflexivity.
Qed.

(** X21. The mean wind removal keeps nothing when at most one of the rows
    that pass the threshold has a high-passed Doppler that is a number: with
    none the mean is NaN, with one the deviation of that row is zero and so is
    the median, and [0 < 5 * 0] fails. *)
Theorem get_meas_single_row_removed (f : MeasFile) (thr : R) (w : Wind.File)
  (tb : list Row) (vu vv : list fval) :
  dcos_filter f thr = Returns tb ->
  vel (map (fun x => (t (fst x), heights (fst x))) tb)
      (Wind.times w) (Wind.rgs w) (Wind.v w) (Wind.dt w) (Wind.dh w)
  = Returns (vu, vv) ->
  (length (finite (dopsp_of tb vu vv)) <= 1)%nat ->
  get_meas f true thr w = Returns [].
Proof.
  intros Hd Hv Hone.
  pose proof (vel_length _ _ _ _ _ _ _ _ Hv) as [H1 H2]. rewrite length_map in H1, H2.
  unfold get_meas. rewrite Hd. cbn [bind]. unfold remove_mean. rewrite Hv. cbn [bind].
  f_equal. apply length_zero_iff_nil.
  unfold resid_of. rewrite select_length by (symmetry; apply dopsp_of_length; assumption).
  unfold stdev_est_of, nanmedian, resid_of. rewrite finite_resid.
  unfold nanmean.
  destruct (finite (dopsp_of tb vu vv)) as [|y [|z r]]; simpl in Hone; try lia.
  - reflexivity.
  - simpl. unfold Np.sum. simpl.
    replace ((y + 0) / 1 - y) with 0 by (field).
    rewrite Rabs_R0. rewrite (proj2 (Rltb_false 0 (0 * 5))) by lra. reflexivity.
Qed.

(** X22. When the median absolute deviation [stdev_est] is a positive number,
    the mean wind removal keeps at least half of the rows whose high-passed
    Doppler is a number: the rows that deviate at most [stdev_est] are half
    of them, and all of these are within [5 stdev_est]. *)
Theorem get_meas_keeps_half (f : MeasFile) (thr : R) (w : Wind.File)
  (tb out : list Row) (vu vv : list fval) (sd : R) :
  dcos_filter f thr = Returns tb ->
  vel (map (fun x => (t (fst x), heights (fst x))) tb)
      (Wind.times w) (Wind.rgs w) (Wind.v w) (Wind.dt w) (Wind.dh w)
  = Returns (vu, vv) ->
  get_meas f true thr w = Returns out ->
  stdev_est_of (dopsp_of tb vu vv) = Num sd -> 0 < sd ->
  (length (finite (dopsp_of tb vu vv)) <= 2 * length out)%nat.
Proof.
  intros Hd Hv Hg Hsd Hpos.
  destruct (get_meas_mean_rem_Returns _ _ _ _ Hg)
    as [tb' [vu' [vv' [Hd' [Hv' [H1 [H2 ->]]]]]]].
  rewrite Hd in Hd'. injection Hd' as <-.
  rewrite Hv in Hv'. injection Hv' as <- <-.
  unfold resid_of at 1.
  rewrite select_length by (symmetry; apply dopsp_of_length; assumption).
  rewrite Hsd. unfold stdev_est_of, nanmedian, resid_of in Hsd.
  rewrite finite_resid in Hsd.
  destruct (nanmean (dopsp_of tb vu vv)) as [mu|]; [|discriminate].
  apply median_half in Hsd. rewrite length_map in Hsd.
  assert (Hf : length (filter (fun x => x <=? sd)
                         (map (fun y => Rabs (mu - y)) (finite (dopsp_of tb vu vv))))
               = length (filter (fun y => Rabs (mu - y) <=? sd) (finite (dopsp_of tb vu vv)))).
  { generalize (finite (dopsp_of tb vu vv)). intros l.
    induction l as [|y r IH]; simpl; [reflexivity|].
    destruct (Rabs (mu - y) <=? sd); simpl; rewrite IH; reflexivity. }
  rewrite Hf in Hsd.
  pose proof (filter_length_impl
                (fun y => Rabs (mu - y) <=? sd)
                (fun y => ltb_f (abs_f (sub_f (Num mu) (Num y))) (mul_f (Num sd) 5))
                (finite (dopsp_of tb vu vv))) as Himp.
  assert (Hle : (length (filter (fun y => (Rabs (mu - y) <=? sd)%R)
                                (finite (dopsp_of tb vu vv)))
                 <= length (filter (fun y => ltb_f (abs_f (sub_f (Num mu) (Num y)))
                                                   (mul_f (Num sd) 5))
                                   (finite (dopsp_of tb vu vv))))%nat).
  { apply Himp. intros y Hy. apply Rleb_true in Hy. simpl. apply Rltb_true. lra. }
  lia.
Qed.

(** ** A worked run of the mean wind removal

    Three measurements at 90 km, at 0 s, 2000 s and 3600 s, and a mean wind
    grid of three times and two heights whose last time holds no data. *)

Lemma round_eq (x : R) (z : Z) : Rabs (x - IZR z) < 1 / 2 -> round_ x = z.
Proof.
  intros H. assert (Hb : - (1 / 2) < x - IZR z < 1 / 2).
  { unfold Rabs in H. destruct (Rcase_abs (x - IZR z)); lra. }
  unfold round_. destruct (Rle_dec (IZR z) x) as [Hz|Hz].
  - rewrite (Zfloor_eq z x) by lra.
    destruct (Rlt_dec (x - IZR z) (1 / 2)); [reflexivity | lra].
  - rewrite (Zfloor_eq (z - 1) x) by (rewrite minus_IZR; lra).
    rewrite minus_IZR.
    destruct (Rlt_dec (x - (IZR z - 1)) (1 / 2)); [lra|].
    destruct (Rlt_dec (1 / 2) (x - (IZR z - 1))); [lia | lra].
Qed.

Definition gap_grid : Grid :=
  {| shape1 := 3; shape2 := 2;
     v_at := fun c i j => match i with
                          | 2%nat => NaN
                          | _ => Num (10 * INR i + INR j)
                          end |}.

Definition gap_file : MeasFile :=
  {| rows := [at_ 0 0; at_ 2000 0; at_ 3600 0]; dcos := None |}.

Definition gap_wind : Wind.File :=
  {| Wind.times := [0; 1800; 3600]; Wind.rgs := [80; 81]; Wind.v := gap_grid;
     Wind.dt := 1800; Wind.dh := 1 |}.

Definition gap_tb : list Row :=
  [(at_ 0 0, (0, 0)); (at_ 2000 0, (0, 0)); (at_ 3600 0, (0, 0))].

Definition gap_out : list Row :=
  [(set_dops (at_ 0 0) (1 + (1 * 1 + 1 * 0) / 2 / PI), (0, 0));
   (set_dops (at_ 2000 0) (1 + (11 * 1 + 11 * 0) / 2 / PI), (0, 0))].

Lemma gap_dcos_filter : dcos_filter gap_file 0.8 = Returns gap_tb.
Proof.
  unfold dcos_filter, Np.where_. simpl. rewrite dcos2_zero.
  rewrite (proj2 (Rltb_true 0 0.8)) by lra. reflexivity.
Qed.

Lemma gap_ti (tm : R) (z : Z) :
  Rabs ((tm - 0) / 1800 - IZR z) < 1 / 2 -> (0 <= z <= 2)%Z ->
  ti_of gap_grid 0 1800 tm = z.
Proof.
  intros H Hz. unfold ti_of. rewrite (round_eq _ z H). simpl.
  destruct (Z.ltb_spec z 0); [lia|]. rewrite Z.gtb_ltb.
  destruct (Z.ltb_spec 2 z); [lia | reflexivity].
Qed.

Lemma gap_hi : hi_of gap_grid 80 1 90 = 1%Z.
Proof.
  unfold hi_of. rewrite (Zfloor_eq 10) by lra. reflexivity.
Qed.

Lemma gap_vel :
  vel (map (fun x => (t (fst x), heights (fst x))) gap_tb)
      (Wind.times gap_wind) (Wind.rgs gap_wind) (Wind.v gap_wind)
      (Wind.dt gap_wind) (Wind.dh gap_wind)
  = Returns ([Num 1; Num 11; NaN], [Num 1; Num 11; NaN]).
Proof.
  unfold vel. simpl. rewrite gap_hi.
  rewrite (gap_ti 0 0), (gap_ti 2000 1), (gap_ti 3600 2);
    try lia; try (unfold Rabs; match goal with |- context [Rcase_abs ?x] =>
                                 destruct (Rcase_abs x) end; lra).
  unfold lookup, py_index. simpl.
  assert (H1 : 10 * 0 + 1 = 1) by lra.
  assert (H11 : 10 * 1 + 1 = 11) by lra.
  rewrite H1, H11. reflexivity.
Qed.

Lemma gap_dopsp :
  dopsp_of gap_tb [Num 1; Num 11; NaN] [Num 1; Num 11; NaN]
  = [Num (1 + (1 * 1 + 1 * 0) / 2 / PI); Num (1 + (11 * 1 + 11 * 0) / 2 / PI); NaN].
Proof. reflexivity. Qed.

Lemma gap_nanmean :
  nanmean [Num (1 + (1 * 1 + 1 * 0) / 2 / PI); Num (1 + (11 * 1 + 11 * 0) / 2 / PI); NaN]
  = Num (1 + 3 / PI).
Proof.
  unfold nanmean, Np.mean, Np.sum. simpl. f_equal. field. exact PI_neq0.
Qed.

Lemma gap_resid :
  resid_of [Num (1 + (1 * 1 + 1 * 0) / 2 / PI); Num (1 + (11 * 1 + 11 * 0) / 2 / PI); NaN]
  = [Num (5 / 2 / PI); Num (5 / 2 / PI); NaN].
Proof.
  assert (Hp : 0 < / PI) by (apply Rinv_0_lt_compat, PI_RGT_0).
  unfold resid_of. rewrite gap_nanmean. simpl.
  replace (1 + 3 / PI - (1 + (1 * 1 + 1 * 0) / 2 / PI)) with (5 / 2 / PI)
    by (field; exact PI_neq0).
  replace (1 + 3 / PI - (1 + (11 * 1 + 11 * 0) / 2 / PI)) with (- (5 / 2 / PI))
    by (field; exact PI_neq0).
  rewrite Rabs_Ropp, Rabs_pos_eq by (unfold Rdiv; lra). reflexivity.
Qed.

Lemma gap_stdev_est :
  stdev_est_of (dopsp_of gap_tb [Num 1; Num 11; NaN] [Num 1; Num 11; NaN])
  = Num (5 / 2 / PI).
Proof.
  unfold stdev_est_of. rewrite gap_dopsp, gap_resid.
  unfold nanmedian, median. simpl.
  rewrite (proj2 (Rleb_true (5 / 2 / PI) (5 / 2 / PI))) by lra. simpl.
  f_equal. field. exact PI_neq0.
Qed.

Lemma gap_get_meas : get_meas gap_file true 0.8 gap_wind = Returns gap_out.
Proof.
  assert (Hp : 0 < / PI) by (apply Rinv_0_lt_compat, PI_RGT_0).
  unfold get_meas. rewrite gap_dcos_filter. cbn [bind].
  unfold remove_mean. rewrite gap_vel. cbn [bind]. f_equal.
  rewrite gap_stdev_est, gap_dopsp, gap_resid.
  unfold select. simpl.
  rewrite (proj2 (Rltb_true (5 / 2 / PI) (5 / 2 / PI * 5))) by (unfold Rdiv; lra).
  reflexivity.
Qed.

Lemma get_meas_mean_removed_witness :
  dcos_filter gap_file 0.8 = Returns gap_tb
  /\ vel (map (fun x => (t (fst x), heights (fst x))) gap_tb)
         (Wind.times gap_wind) (Wind.rgs gap_wind) (Wind.v gap_wind)
         (Wind.dt gap_wind) (Wind.dh gap_wind)
     = Returns ([Num 1; Num 11; NaN], [Num 1; Num 11; NaN])
  /\ get_meas gap_file true 0.8 gap_wind = Returns gap_out
  /\ Forall (fun r =>
               exists x u v,
                 In (x, (Num u, Num v))
                    (combine gap_tb (combine [Num 1; Num 11; NaN] [Num 1; Num 11; NaN]))
                 /\ r = (set_dops (fst x)
                           (dops (fst x)
                            + (u * bragg (fst x) 0 + v * bragg (fst x) 1) / 2 / PI),
                         snd x)) gap_out.
Proof.
  split; [exact gap_dcos_filter|]. split; [exact gap_vel|]. split; [exact gap_get_meas|].
  exact (get_meas_mean_removed gap_file 0.8 gap_wind gap_tb gap_out _ _
           gap_dcos_filter gap_vel gap_get_meas).
Defined.

Lemma gap_out_nonempty : gap_out <> [].
Proof. discriminate. Qed.

Lemma get_meas_within_five_deviations_witness :
  dcos_filter gap_file 0.8 = Returns gap_tb
  /\ vel (map (fun x => (t (fst x), heights (fst x))) gap_tb)
         (Wind.times gap_wind) (Wind.rgs gap_wind) (Wind.v gap_wind)
         (Wind.dt gap_wind) (Wind.dh gap_wind)
     = Returns ([Num 1; Num 11; NaN], [Num 1; Num 11; NaN])
  /\ get_meas gap_file true 0.8 gap_wind = Returns gap_out
  /\ gap_out <> []
  /\ exists mu sd,
       nanmean (dopsp_of gap_tb [Num 1; Num 11; NaN] [Num 1; Num 11; NaN]) = Num mu
       /\ stdev_est_of (dopsp_of gap_tb [Num 1; Num 11; NaN] [Num 1; Num 11; NaN]) = Num sd
       /\ 0 < sd
       /\ Forall (fun r => Rabs (mu - dops (fst r)) < 5 * sd) gap_out.
Proof.
  split; [exact gap_dcos_filter|]. split; [exact gap_vel|]. split; [exact gap_get_meas|].
  split; [exact gap_out_nonempty|].
  exact (get_meas_within_five_deviations gap_file 0.8 gap_wind gap_tb gap_out _ _
           gap_dcos_filter gap_vel gap_get_meas gap_out_nonempty).
Defined.

Lemma gap_stdev_pos : 0 < 5 / 2 / PI.
Proof.
  assert (Hp : 0 < / PI) by (apply Rinv_0_lt_compat, PI_RGT_0). unfold Rdiv. lra.
Qed.

Lemma get_meas_keeps_half_witness :
  dcos_filter gap_file 0.8 = Returns gap_tb
  /\ vel (map (fun x => (t (fst x), heights (fst x))) gap_tb)
         (Wind.times gap_wind) (Wind.rgs gap_wind) (Wind.v gap_wind)
         (Wind.dt gap_wind) (Wind.dh gap_wind)
     = Returns ([Num 1; Num 11; NaN], [Num 1; Num 11; NaN])
  /\ get_meas gap_file true 0.8 gap_wind = Returns gap_out
  /\ stdev_est_of (dopsp_of gap_tb [Num 1; Num 11; NaN] [Num 1; Num 11; NaN])
     = Num (5 / 2 / PI)
  /\ 0 < 5 / 2 / PI
  /\ (length (finite (dopsp_of gap_tb [Num 1; Num 11; NaN] [Num 1; Num 11; NaN]))
      <= 2 * length gap_out)%nat.
Proof.
  split; [exact gap_dcos_filter|]. split; [exact gap_vel|]. split; [exact gap_get_meas|].
  split; [exact gap_stdev_est|]. split; [exact gap_stdev_pos|].
  exact (get_meas_keeps_half gap_file 0.8 gap_wind gap_tb gap_out _ _ _
           gap_dcos_filter gap_vel gap_get_meas gap_stdev_est gap_stdev_pos).
Defined.

(** One measurement, inside the grid. *)
Definition lone_file : MeasFile := {| rows := [at_ 0 0]; dcos := None |}.

Definition lone_tb : list Row := [(at_ 0 0, (0, 0))].

Lemma lone_dcos_filter : dcos_filter lone_file 0.8 = Returns lone_tb.
Proof.
  unfold dcos_filter, Np.where_. simpl. rewrite dcos2_zero.
  rewrite (proj2 (Rltb_true 0 0.8)) by lra. reflexivity.
Qed.

Lemma lone_vel :
  vel (map (fun x => (t (fst x), heights (fst x))) lone_tb)
      (Wind.times gap_wind) (Wind.rgs gap_wind) (Wind.v gap_wind)
      (Wind.dt gap_wind) (Wind.dh gap_wind)
  = Returns ([Num 1], [Num 1]).
Proof.
  unfold vel. simpl. rewrite gap_hi.
  rewrite (gap_ti 0 0);
    try lia; try (unfold Rabs; match goal with |- context [Rcase_abs ?x] =>
                                 destruct (Rcase_abs x) end; lra).
  unfold lookup, py_index. simpl.
  assert (H1 : 10 * 0 + 1 = 1) by lra. rewrite H1. reflexivity.
Qed.

Lemma get_meas_single_row_removed_witness :
  dcos_filter lone_file 0.8 = Returns lone_tb
  /\ vel (map (fun x => (t (fst x), heights (fst x))) lone_tb)
         (Wind.times gap_wind) (Wind.rgs gap_wind) (Wind.v gap_wind)
         (Wind.dt gap_wind) (Wind.dh gap_wind)
     = Returns ([Num 1], [Num 1])
  /\ (length (finite (dopsp_of lone_tb [Num 1] [Num 1])) <= 1)%nat
  /\ get_meas lone_file true 0.8 gap_wind = Returns [].
Proof.
  assert (H : (length (finite (dopsp_of lone_tb [Num 1] [Num 1])) <= 1)%nat)
    by (simpl; lia).
  split; [exact lone_dcos_filter|]. split; [exact lone_vel|]. split; [exact H|].
  exact (get_meas_single_row_removed lone_file 0.8 gap_wind _ _ _
           lone_dcos_filter lone_vel H).
Defined.

(** ** When the mean wind lookup raises *)

(** X23. With mean removal, [get_meas] does not drop a measurement that lies
    far below the mean wind grid: for [dh > 0], one row that passed the
    threshold and lies more than [shape2] bins below the lowest grid height
    makes the whole call raise the [IndexError] of [vel]. *)
Theorem get_meas_raises_below_grid (f : MeasFile) (thr : R) (w : Wind.File)
  (tb : list Row) (times0 rgs0 : R) (x : Row) :
  dcos_filter f thr = Returns tb ->
  first (Wind.times w) = Returns times0 ->
  first (Wind.rgs w) = Returns rgs0 ->
  0 < Wind.dh w ->
  In x tb ->
  heights (fst x) < rgs0 - IZR (Z.of_nat (shape2 (Wind.v w))) * Wind.dh w ->
  get_meas f true thr w = Raises IndexError.
Proof.
  intros Hd Ht Hr Hdh Hin Hlow.
  unfold get_meas. rewrite Hd. cbn [bind]. unfold remove_mean.
  rewrite (vel_Raises_below _ _ _ _ _ _ times0 rgs0 (t (fst x), heights (fst x)) Ht Hr Hdh).
  - reflexivity.
  - apply in_map_iff. exists x. split; [reflexivity | exact Hin].
  - exact Hlow.
Qed.

(** A measurement at 70 km, ten bins below the grid. *)
Definition low_file : MeasFile :=
  {| rows := [at_ 0 0; mkMeas 100 70 1 0 0 (1, 0, 0)]; dcos := None |}.

Definition low_tb : list Row :=
  [(at_ 0 0, (0, 0)); (mkMeas 100 70 1 0 0 (1, 0, 0), (0, 0))].

Lemma low_dcos_filter : dcos_filter low_file 0.8 = Returns low_tb.
Proof.
  unfold dcos_filter, Np.where_. simpl. rewrite dcos2_zero.
  rewrite (proj2 (Rltb_true 0 0.8)) by lra. reflexivity.
Qed.

Lemma get_meas_raises_below_grid_witness :
  dcos_filter low_file 0.8 = Returns low_tb
  /\ first (Wind.times gap_wind) = Returns 0
  /\ first (Wind.rgs gap_wind) = Returns 80
  /\ 0 < Wind.dh gap_wind
  /\ In (mkMeas 100 70 1 0 0 (1, 0, 0), (0, 0)) low_tb
  /\ heights (fst (mkMeas 100 70 1 0 0 (1, 0, 0), (0, 0)))
     < 80 - IZR (Z.of_nat (shape2 (Wind.v gap_wind))) * Wind.dh gap_wind
  /\ get_meas low_file true 0.8 gap_wind = Raises IndexError.
Proof.
  assert (Hdh : 0 < Wind.dh gap_wind) by (simpl; lra).
  assert (Hin : In (mkMeas 100 70 1 0 0 (1, 0, 0), (0, 0)) low_tb)
    by (right; left; reflexivity).
  assert (Hlow : heights (fst (mkMeas 100 70 1 0 0 (1, 0, 0), (0, 0)))
                 < 80 - IZR (Z.of_nat (shape2 (Wind.v gap_wind))) * Wind.dh gap_wind)
    by (simpl; lra).
  split; [exact low_dcos_filter|]. split; [reflexivity|]. split; [reflexivity|].
  split; [exact Hdh|]. split; [exact Hin|]. split; [exact Hlow|].
  exact (get_meas_raises_below_grid low_file 0.8 gap_wind low_tb 0 80 _
           low_dcos_filter eq_refl eq_refl Hdh Hin Hlow).
Defined.

(** * The sweeps over lags: [hor_acfs] (lines 323-377), [ver_acfs] (lines
    381-435), [temporal_acfs] (lines 439-493) and [mean_wind_cf] (lines
    541-581)

    Each sweep calls [cfi] once per lag and stores the estimate as a row.
    [hor_acfs] and [ver_acfs] unpack the result of [cfi] into their own
    variable [tau] (lines 336 and 396), so the mean temporal lag of one call
    is the [tau] of the next, and it is NaN when the call found no pair.
    Printing, plotting and the writing of the HDF5 files are not part of the
    embedding: a sweep answers the arrays it computed. *)

(** ** [cfi] with a lag [tau] that may be NaN

    [cfi] reads [tau] on lines 199 and 223 only, in comparisons; a comparison
    with NaN is False. *)

Section PairFinderNaN.

Variable s : LagSpec.
(** The argument [tau]; the field [tau s] is not read. *)
Variable tau_f : fval.
Variable tbl : list Meas.

(** The mask of lines 220-223. *)
Definition lag_mask_f (k l : nat) : bool :=
  dist_filter s tbl k l
  && (Rabs ((heights (get tbl l) - heights (get tbl k)) - s_z s) <? ds_z s / 2)
  && negb (Nat.eqb l k)
  && ltb_f (abs_f (sub_f (Num (t (get tbl l) - t (get tbl k))) tau_f))
           (Num (dtau s / 2)).

(** The mask of [idx1] (line 199). *)
Definition lagged_mask_f (it0 it1 : R) (x : Meas) : bool :=
  (h0 s + s_z s - 0.5 * dh s <? heights x) && (heights x <? h0 s + s_z s + 0.5 * dh s)
  && ltb_f (add_f (Num it0) tau_f) (Num (t x))
  && ltb_f (Num (t x)) (add_f (Num it1) tau_f).

Definition scan_f (idx1 : list nat) (st : Found) (k : nat) : Found :=
  fold_left (visit tbl k) (filter (lag_mask_f k) idx1) st.

Definition window_f (t0 tmax : R) (n_times : Z) (st : Found) (i : Z) : Found :=
  let it0 := it0_of s t0 i in
  let it1 := it1_of s t0 tmax n_times i in
  let idx0 := Np.where_ (ref_mask s it0 it1) tbl in
  let idx1 := Np.where_ (lagged_mask_f it0 it1) tbl in
  fold_left (scan_f idx1) idx0 st.

Definition find_pairs_f : result (R * Found) :=
  tmax <- Np.max_ (map t tbl) ;;
  tmin <- Np.min_ (map t tbl) ;;
  n_times <- n_times_of s tmax tmin ;;
  let t0 := tmin in
  Returns (t0, fold_left (window_f t0 tmax n_times) (Np.range n_times) found0).

End PairFinderNaN.

Definition cfi_f (L : Lib) (meas : list Meas) (s : LagSpec) (tau_f : fval)
  : result InversionResult :=
  let tbl := working_set s meas in
  found <- find_pairs_f s tau_f tbl ;;
  let '(t0, st) := found in
  countf <- density_model L (tods st) ;;
  d <- design countf tbl t0 (pairs st) ;;
  let '(acf, err) := invert L d in
  Returns (mkResult acf err (Np.mean (taus st)) (Np.mean (s_xs st))
             (Np.mean (s_ys st)) (Np.mean (s_zs st)) (Np.mean (s_hs st))).

(** The lag specification with [tau] set. *)
Definition with_tau (s : LagSpec) (x : R) : LagSpec :=
  mkLagSpec (h0 s) (dh s) (ds_z s) (s_z s) (s_x s) (ds_x s) (s_y s) (ds_y s)
            (s_h s) (ds_h s) x (dtau s) (horizontal_dist s)
            (hour_of_day s) (dhour_of_day s).

(** ** The sweeps *)

(** The keyword arguments of the calls of lines 336, 396, 460-469 and
    560-567, in the order of the fields of [LagSpec]; what a call does not
    pass is the default of [cfi]. *)
Definition hor_call (h0 dh ds_h ds_z dtau s_h : R) : LagSpec :=
  mkLagSpec h0 dh ds_z 0 0 1 0 0 s_h ds_h 0 dtau true 0 48.

Definition ver_call (h0 dh ds_h ds_z dtau s_z : R) : LagSpec :=
  mkLagSpec h0 dh ds_z s_z 0 1 0 0 0 ds_h 0 dtau true 0 48.

Definition temporal_call (h0 dh ds_h ds_z dtau tau : R) : LagSpec :=
  mkLagSpec h0 dh ds_z 0 0 1 0 0 0 ds_h tau dtau true 0 48.

Definition mean_wind_call (ds_h h0 t0 : R) : LagSpec :=
  mkLagSpec h0 2 2 0 0 1 0 0 0 ds_h 0 1800 true t0 1.

(** The rows of a sweep: [acfs], [errs], and the realized lags [shs] or
    [szs]. *)
Record Sweep : Type := mkSweep {
  acfs : list (list fval);
  errs : list (list fval);
  lags : list fval
}.

(** The loop of lines 335-341 and of lines 394-401: [call x] holds the
    keyword arguments for the lag [x], [pick] is the mean lag that is
    appended ([sh], [sz]), and the [tau] of the next call is the mean
    temporal lag of this one.  An exception of [cfi] ends the sweep. *)
Fixpoint lag_sweep (L : Lib) (meas : list Meas) (call : R -> LagSpec)
  (pick : InversionResult -> fval) (tau_f : fval) (xs : list R) : result Sweep :=
  match xs with
  | [] => Returns (mkSweep [] [] [])
  | x :: rest =>
      r <- cfi_f L meas (call x) tau_f ;;
      sw <- lag_sweep L meas call pick (mean_tau r) rest ;;
      Returns (mkSweep (acf r :: acfs sw) (err r :: errs sw) (pick r :: lags sw))
  end.

(** [hor_acfs]: the arrays written to the file. *)
Definition hor_acfs (L : Lib) (meas : list Meas) (h0 dh tau : R) (s_h : list R)
  (ds_h ds_z dtau : R) : result Sweep :=
  lag_sweep L meas (hor_call h0 dh ds_h ds_z dtau) mean_sh (Num tau) s_h.

(** [a[i]] of a one-dimensional array, and [a[i, j]] of an array of shape
    (n, 6): an [IndexError] past the end of the first axis. *)
Definition index {X : Type} (a : list X) (i : nat) : result X :=
  match nth_error a i with
  | Some x => Returns x
  | None => Raises IndexError
  end.

Definition index2 (a : list (list fval)) (i j : nat) : result fval :=
  row <- index a i ;;
  Returns (nth j row NaN).

(** Lines 423-424, for column [j] of [acfs]:
    [2.0*1.01*acfs[0,j] - 2.0*acfs[:,j]]. *)
Definition structure_function (acfs : list (list fval)) (j : nat) : result (list fval) :=
  a0 <- index2 acfs 0 j ;;
  Returns (map (fun row => sub_f (mul_f a0 (2 * 1.01)) (mul_f (nth j row NaN) 2)) acfs).

(** [ver_acfs]: the arrays plotted.  After the loop the structure functions
    [sfu] and [sfv] are computed from [acfs], and line 428 reads [sfu[2]] and
    [szs[2]] for the factor [a] of the reference line of the plot; the value
    of [a] is not part of the embedding.  The argument [s_h] is not used. *)
Definition ver_acfs (L : Lib) (meas : list Meas) (h0 dh tau : R) (s_z : list R)
  (ds_h ds_z dtau : R) : result Sweep :=
  sw <- lag_sweep L meas (ver_call h0 dh ds_h ds_z dtau) mean_sz (Num tau) s_z ;;
  sfu <- structure_function (acfs sw) 0 ;;
  sfv <- structure_function (acfs sw) 1 ;;
  sfu2 <- index sfu 2 ;;
  szs2 <- index (lags sw) 2 ;;
  Returns sw.

(** [temporal_acfs]: each lag of [tau] is passed as it is; [n.max(tau)] names
    the file (line 486), after the loop. *)
Definition temporal_acfs (L : Lib) (meas : list Meas) (h0 dh : R) (tau : list R)
  (dtau ds_h ds_z : R) : result (list R * list (list fval)) :=
  acfs <- map_result (fun x => r <- cfi L meas (temporal_call h0 dh ds_h ds_z dtau x) ;;
                               Returns (acf r)) tau ;;
  _ <- Np.max_ tau ;;
  Returns (tau, acfs).

(** [mean_wind_cf]: the measurements are those of [get_meas] without mean
    removal and with its default threshold; the loops run over the heights
    and, inside, over the hours, and [C[ti,hi,:]] is the estimate for hour
    [ti] and height [hi].  The argument [dtau] is not used. *)
Definition mean_wind_cf (L : Lib) (f : MeasFile) (w : Wind.File)
  (heights hour_of_day : list R) (ds_h : R) : result (list (list (list fval))) :=
  out <- get_meas f false 0.8 w ;;
  cols <- map_result
            (fun h0 => map_result
                         (fun t0 => r <- cfi L (table out) (mean_wind_call ds_h h0 t0) ;;
                                    Returns (acf r))
                         hour_of_day)
            heights ;;
  Returns (map (fun ti => map (fun col => nth ti col nan6) cols)
               (seq 0 (length hour_of_day))).

(** ** [cfi] with a lag that is a number, and with NaN *)

Lemma lag_mask_f_Num (s : LagSpec) (x : R) (tbl : list Meas) (k l : nat) :
  lag_mask_f s (Num x) tbl k l = lag_mask (with_tau s x) tbl k l.
Proof. reflexivity. Qed.

Lemma lagged_mask_f_Num (s : LagSpec) (x : R) (it0 it1 : R) (y : Meas) :
  lagged_mask_f s (Num x) it0 it1 y = lagged_mask (with_tau s x) it0 it1 y.
Proof. reflexivity. Qed.

Lemma find_pairs_f_Num (s : LagSpec) (x : R) (tbl : list Meas) :
  find_pairs_f s (Num x) tbl = find_pairs (with_tau s x) tbl.
Proof.
  unfold find_pairs_f, find_pairs.
  destruct (Np.max_ (map t tbl)) as [tmax|]; [|reflexivity]. cbn [bind].
  destruct (Np.min_ (map t tbl)) as [tmin|]; [|reflexivity]. cbn [bind].
  change (n_times_of (with_tau s x) tmax tmin) with (n_times_of s tmax tmin).
  destruct (n_times_of s tmax tmin) as [n|]; [|reflexivity]. cbn [bind].
  reflexivity.
Qed.

(** For a [tau] that is a number, [cfi_f] is [cfi]. *)
Lemma cfi_f_Num (L : Lib) (meas : list Meas) (s : LagSpec) (x : R) :
  cfi_f L meas s (Num x) = cfi L meas (with_tau s x).
Proof.
  unfold cfi_f, cfi.
  change (working_set (with_tau s x) meas) with (working_set s meas).
  rewrite find_pairs_f_Num. reflexivity.
Qed.

Lemma with_tau_same (s : LagSpec) : with_tau s (tau s) = s.
Proof. destruct s. reflexivity. Qed.

Lemma ltb_f_NaN_l (b : fval) : ltb_f NaN b = false.
Proof. reflexivity. Qed.

Lemma window_f_NaN (s : LagSpec) (tbl : list Meas) (t0 tmax : R) (n_times : Z)
  (st : Found) (i : Z) :
  window_f s NaN tbl t0 tmax n_times st i = st.
Proof.
  unfold window_f, Np.where_.
  rewrite (where_from_none (lagged_mask_f s NaN _ _)).
  - generalize (Np.where_from (ref_mask s (it0_of s t0 i) (it1_of s t0 tmax n_times i))
                  0 tbl).
    intros idx0. induction idx0 as [|k r IH]; simpl; [reflexivity | exact IH].
  - intros x _. unfold lagged_mask_f. simpl.
    rewrite andb_false_r. reflexivity.
Qed.

(** With [tau = nan] no pair is found, whatever the table holds. *)
Lemma find_pairs_f_NaN (s : LagSpec) (tbl : list Meas) (t0 : R) (st : Found) :
  find_pairs_f s NaN tbl = Returns (t0, st) -> st = found0.
Proof.
  unfold find_pairs_f.
  destruct (Np.max_ (map t tbl)) as [tmax|]; [|discriminate]. cbn [bind].
  destruct (Np.min_ (map t tbl)) as [tmin|]; [|discriminate]. cbn [bind].
  destruct (n_times_of s tmax tmin) as [n|]; [|discriminate]. cbn [bind].
  intros H. injection H as _ <-.
  generalize (Np.range n). intros l.
  induction l as [|i r IH]; simpl; [reflexivity|].
  rewrite window_f_NaN. exact IH.
Qed.

Definition no_estimate : InversionResult :=
  mkResult nan6 nan6 NaN NaN NaN NaN NaN.

Lemma cfi_f_Returns (L : Lib) (meas : list Meas) (s : LagSpec) (tf : fval)
  (r : InversionResult) :
  cfi_f L meas s tf = Returns r ->
  exists t0 st countf d,
    find_pairs_f s tf (working_set s meas) = Returns (t0, st)
    /\ density_model L (tods st) = Returns countf
    /\ design countf (working_set s meas) t0 (pairs st) = Returns d
    /\ r = mkResult (fst (invert L d)) (snd (invert L d)) (Np.mean (taus st))
             (Np.mean (s_xs st)) (Np.mean (s_ys st)) (Np.mean (s_zs st))
             (Np.mean (s_hs st)).
Proof.
  unfold cfi_f. intros H.
  destruct (find_pairs_f s tf (working_set s meas)) as [[t0 st]|e]; [|discriminate].
  cbn [bind] in H.
  destruct (density_model L (tods st)) as [countf|e] eqn:Hc; [|discriminate].
  cbn [bind] in H.
  destruct (design countf (working_set s meas) t0 (pairs st)) as [d|e] eqn:Hd;
    [|discriminate].
  cbn [bind] in H. destruct (invert L d) as [a e] eqn:Hi.
  injection H as <-. exists t0, st, countf, d.
  split; [reflexivity|]. split; [exact Hc|]. split; [exact Hd|].
  rewrite Hi. reflexivity.
Qed.

(** A call that found no pair answers NaN everywhere. *)
Lemma cfi_f_no_pairs (L : Lib) (meas : list Meas) (s : LagSpec) (tf : fval)
  (r : InversionResult) (t0 : R) (st : Found) :
  cfi_f L meas s tf = Returns r ->
  find_pairs_f s tf (working_set s meas) = Returns (t0, st) ->
  pairs st = [] -> taus st = [] -> s_xs st = [] -> s_ys st = [] ->
  s_zs st = [] -> s_hs st = [] ->
  r = no_estimate.
Proof.
  intros H Hf Hp H1 H2 H3 H4 H5.
  destruct (cfi_f_Returns _ _ _ _ _ H) as [t0' [st' [countf [d [Hf' [_ [Hd ->]]]]]]].
  rewrite Hf in Hf'. injection Hf' as <- <-.
  rewrite Hp in Hd. simpl in Hd. injection Hd as <-.
  rewrite H1, H2, H3, H4, H5. reflexivity.
Qed.

Lemma cfi_f_NaN (L : Lib) (meas : list Meas) (s : LagSpec) (r : InversionResult) :
  cfi_f L meas s NaN = Returns r -> r = no_estimate.
Proof.
  intros H.
  destruct (cfi_f_Returns _ _ _ _ _ H) as [t0 [st [countf [d [Hf _]]]]].
  pose proof (find_pairs_f_NaN _ _ _ _ Hf) as ->.
  exact (cfi_f_no_pairs _ _ _ _ _ _ _ H Hf eq_refl eq_refl eq_refl eq_refl eq_refl eq_refl).
Qed.

(** The recorded lists of a run, by its pairs. *)
Lemma find_pairs_lists (s : LagSpec) (tbl : list Meas) (t0 : R) (st : Found) :
  find_pairs s tbl = Returns (t0, st) ->
  (pairs st = [] <-> taus st = [])
  /\ (pairs st = [] <-> s_zs st = [])
  /\ (pairs st = [] <-> s_hs st = [])
  /\ (pairs st = [] -> s_xs st = [] /\ s_ys st = []).
Proof.
  intros Hf. destruct (find_pairs_Inv _ _ _ _ Hf) as [tmax [n HI]].
  rewrite (inv_taus _ _ _ _ _ _ HI), (inv_s_zs _ _ _ _ _ _ HI),
    (inv_s_hs _ _ _ _ _ _ HI), (inv_s_xs _ _ _ _ _ _ HI), (inv_s_ys _ _ _ _ _ _ HI).
  split; [|split; [|split]].
  - split; intros E; [rewrite E; reflexivity | apply map_eq_nil in E; exact E].
  - split; intros E; [rewrite E; reflexivity | apply map_eq_nil in E; exact E].
  - split; intros E; [rewrite E; reflexivity | apply map_eq_nil in E; exact E].
  - intros E. rewrite E. split; reflexivity.
Qed.

(** One NaN among the mean lags [tau], [sz], [sh] of a returning call: the
    call found no pair, and everything it answers is NaN. *)
Lemma cfi_f_nan_lag (L : Lib) (meas : list Meas) (s : LagSpec) (tf : fval)
  (r : InversionResult) :
  cfi_f L meas s tf = Returns r ->
  mean_tau r = NaN \/ mean_sz r = NaN \/ mean_sh r = NaN ->
  r = no_estimate.
Proof.
  intros H Hnan. destruct tf as [x|]; [|exact (cfi_f_NaN _ _ _ _ H)].
  destruct (cfi_f_Returns _ _ _ _ _ H) as [t0 [st [countf [d [Hf [_ [_ Hr]]]]]]].
  pose proof Hf as Hf'. rewrite find_pairs_f_Num in Hf'.
  change (working_set s meas) with (working_set (with_tau s x) meas) in Hf'.
  destruct (find_pairs_lists _ _ _ _ Hf') as [Ht [Hz [Hh Hxy]]].
  assert (Hp : pairs st = []).
  { rewrite Hr in Hnan. cbn [mean_tau mean_sz mean_sh] in Hnan.
    destruct Hnan as [Hn|[Hn|Hn]]; apply mean_NaN in Hn; tauto. }
  destruct (Hxy Hp) as [Hx Hy].
  apply (cfi_f_no_pairs _ _ _ _ _ _ _ H Hf Hp); tauto.
Qed.

(** The mean temporal lag of a call is within [dtau/2] of its [tau]. *)
Lemma cfi_f_mean_tau (L : Lib) (meas : list Meas) (s : LagSpec) (x y : R)
  (r : InversionResult) :
  cfi_f L meas s (Num x) = Returns r -> mean_tau r = Num y ->
  Rabs (y - x) < dtau s / 2.
Proof.
  intros H Hm. rewrite cfi_f_Num in H.
  destruct (cfi_Returns_lags _ _ _ _ H) as [t0 [st [Hf [Ht _]]]].
  destruct (recorded_lags_bounds _ _ _ _ Hf) as [Wt _].
  rewrite Ht in Hm. apply Forall_abs_between in Wt.
  pose proof (mean_between _ _ _ _ Wt Hm) as Hb.
  change (tau (with_tau s x)) with x in Hb.
  change (dtau (with_tau s x)) with (dtau s) in Hb.
  apply Rabs_def1; lra.
Qed.

(** ** The loop with feedback *)

Section LagSweep.

Variable L : Lib.
Variable meas : list Meas.
Variable call : R -> LagSpec.
Variable pick : InversionResult -> fval.

Lemma lag_sweep_cons (tf : fval) (x : R) (rest : list R) (sw : Sweep) :
  lag_sweep L meas call pick tf (x :: rest) = Returns sw ->
  exists r sw',
    cfi_f L meas (call x) tf = Returns r
    /\ lag_sweep L meas call pick (mean_tau r) rest = Returns sw'
    /\ sw = mkSweep (acf r :: acfs sw') (err r :: errs sw') (pick r :: lags sw').
Proof.
  simpl. destruct (cfi_f L meas (call x) tf) as [r|]; [|discriminate]. cbn [bind].
  destruct (lag_sweep L meas call pick (mean_tau r) rest) as [sw'|] eqn:Hs;
    [|discriminate].
  cbn [bind]. intros H. injection H as <-. exists r, sw'.
  split; [reflexivity|]. split; [exact Hs | reflexivity].
Qed.

Lemma lag_sweep_length (tf : fval) (xs : list R) (sw : Sweep) :
  lag_sweep L meas call pick tf xs = Returns sw ->
  length (acfs sw) = length xs /\ length (errs sw) = length xs
  /\ length (lags sw) = length xs.
Proof.
  revert tf sw. induction xs as [|x rest IH]; intros tf sw H.
  - simpl in H. injection H as <-. repeat split; reflexivity.
  - destruct (lag_sweep_cons _ _ _ _ H) as [r [sw' [Hr [Hs ->]]]].
    destruct (IH _ _ Hs) as [H1 [H2 H3]]. simpl. repeat split; congruence.
Qed.

(** The lags at which the rows of a sweep are estimated: the first at the
    [tau] passed, each later one at the mean temporal lag of the row
    before. *)
Lemma lag_sweep_taus (dt : R) (tf : fval) (xs : list R) (sw : Sweep) :
  (forall x, dtau (call x) = dt) ->
  lag_sweep L meas call pick tf xs = Returns sw ->
  exists tfs,
    length tfs = length xs
    /\ (xs <> [] -> nth_error tfs 0 = Some tf)
    /\ (forall li x, nth_error xs li = Some x ->
          exists r tl,
            nth_error tfs li = Some tl
            /\ cfi_f L meas (call x) tl = Returns r
            /\ nth_error (acfs sw) li = Some (acf r)
            /\ nth_error (errs sw) li = Some (err r)
            /\ nth_error (lags sw) li = Some (pick r)
            /\ ((S li < length xs)%nat -> nth_error tfs (S li) = Some (mean_tau r)))
    /\ (forall tau0 li y, tf = Num tau0 -> nth_error tfs li = Some (Num y) ->
          Rabs (y - tau0) <= INR li * (dt / 2))
    /\ (tf = NaN -> forall li y, nth_error tfs li <> Some (Num y)).
Proof.
  intros Hdt. revert tf sw. induction xs as [|x rest IH]; intros tf sw H.
  - exists []. split; [reflexivity|]. split; [intros E; contradiction|].
    split; [|split].
    + intros li x Hx. destruct li; discriminate.
    + intros tau0 li y _ Hy. destruct li; discriminate.
    + intros _ li y Hy. destruct li; discriminate.
  - destruct (lag_sweep_cons _ _ _ _ H) as [r [sw' [Hr [Hs ->]]]].
    destruct (IH _ _ Hs) as [tfs [Hlen [Hhd [Hrows [Hb Hn]]]]].
    exists (tf :: tfs). split; [simpl; congruence|].
    split; [intros _; reflexivity|]. split; [|split].
    + intros [|li] y Hy; simpl in Hy.
      * injection Hy as <-. exists r, tf.
        split; [reflexivity|]. split; [exact Hr|].
        split; [reflexivity|]. split; [reflexivity|]. split; [reflexivity|].
        intros Hlt. simpl. apply Hhd. intros E. rewrite E in Hlt. simpl in Hlt. lia.
      * destruct (Hrows li y Hy) as [r' [tl [H1 [H2 [H3 [H4 [H5 H6]]]]]]].
        exists r', tl. repeat split; try assumption.
        intros Hlt. simpl. apply H6. simpl in Hlt. lia.
    + intros tau0 [|li] y -> Hy; simpl in Hy.
      * injection Hy as <-. rewrite Rminus_diag, Rabs_R0. simpl. lra.
      * destruct (mean_tau r) as [y1|] eqn:Hm.
        -- pose proof (Hb y1 li y eq_refl Hy) as H1.
           pose proof (cfi_f_mean_tau _ _ _ _ _ _ Hr Hm) as H2.
           rewrite Hdt in H2. rewrite S_INR.
           replace (y - tau0) with ((y - y1) + (y1 - tau0)) by ring.
           pose proof (Rabs_triang (y - y1) (y1 - tau0)). lra.
        -- exfalso. exact (Hn eq_refl li y Hy).
    + intros -> [|li] y Hy; simpl in Hy; [discriminate|].
      pose proof (cfi_f_NaN _ _ _ _ Hr) as ->.
      exact (Hn eq_refl li y Hy).
Qed.

Hypothesis pick_nan :
  forall r, pick r = NaN -> mean_tau r = NaN \/ mean_sz r = NaN \/ mean_sh r = NaN.
Hypothesis pick_no_estimate : pick no_estimate = NaN.

(** From [tau = nan] on, every row is NaN. *)
Lemma lag_sweep_NaN (xs : list R) (sw : Sweep) (lj : nat) :
  lag_sweep L meas call pick NaN xs = Returns sw ->
  (lj < length xs)%nat ->
  nth_error (acfs sw) lj = Some nan6
  /\ nth_error (errs sw) lj = Some nan6
  /\ nth_error (lags sw) lj = Some NaN.
Proof.
  revert sw lj. induction xs as [|x rest IH]; intros sw lj H Hlt; [simpl in Hlt; lia|].
  destruct (lag_sweep_cons _ _ _ _ H) as [r [sw' [Hr [Hs ->]]]].
  pose proof (cfi_f_NaN _ _ _ _ Hr) as ->.
  destruct lj as [|lj]; simpl.
  - rewrite pick_no_estimate. repeat split; reflexivity.
  - apply (IH _ _ Hs). simpl in Hlt. lia.
Qed.

(** A row without a realized lag, and every row after it. *)
Lemma lag_sweep_nan_persists (tf : fval) (xs : list R) (sw : Sweep) (li lj : nat) :
  lag_sweep L meas call pick tf xs = Returns sw ->
  nth_error (lags sw) li = Some NaN ->
  (li <= lj < length xs)%nat ->
  nth_error (acfs sw) lj = Some nan6
  /\ nth_error (errs sw) lj = Some nan6
  /\ nth_error (lags sw) lj = Some NaN.
Proof.
  revert tf sw li lj. induction xs as [|x rest IH]; intros tf sw li lj H Hli Hlj;
    [simpl in Hlj; lia|].
  destruct (lag_sweep_cons _ _ _ _ H) as [r [sw' [Hr [Hs ->]]]].
  destruct li as [|li]; simpl in Hli.
  - injection Hli as Hp.
    pose proof (cfi_f_nan_lag _ _ _ _ _ Hr (pick_nan _ Hp)) as ->.
    destruct lj as [|lj]; simpl.
    + rewrite pick_no_estimate. repeat split; reflexivity.
    + apply (lag_sweep_NaN _ _ _ Hs). simpl in Hlj. lia.
  - destruct lj as [|lj]; [lia|]. simpl.
    apply (IH _ _ li lj Hs Hli). simpl in Hlj. lia.
Qed.

End LagSweep.

(** ** [hor_acfs] *)

(** X24. In [hor_acfs] a lag without a pair spoils the rest of the sweep.
    When row [li] has no realized lag ([shs[li]] is NaN: [cfi] found no pair
    there), the [tau] handed to the next call is NaN, and in every later row
    too the six estimates, the six errors and the realized lag are NaN,
    whatever pairs the table holds at those lags. *)
Theorem hor_acfs_nan_persists (L : Lib) (meas : list Meas) (h0 dh tau : R)
  (s_h : list R) (ds_h ds_z dtau : R) (sw : Sweep) (li lj : nat) :
  hor_acfs L meas h0 dh tau s_h ds_h ds_z dtau = Returns sw ->
  nth_error (lags sw) li = Some NaN ->
  (li <= lj < length s_h)%nat ->
  nth_error (acfs sw) lj = Some nan6
  /\ nth_error (errs sw) lj = Some nan6
  /\ nth_error (lags sw) lj = Some NaN.
Proof.
  unfold hor_acfs. intros H Hli Hlj.
  assert (Hp : forall r, mean_sh r = NaN ->
                         mean_tau r = NaN \/ mean_sz r = NaN \/ mean_sh r = NaN)
    by (intros r Hr; right; right; exact Hr).
  exact (lag_sweep_nan_persists L meas (hor_call h0 dh ds_h ds_z dtau) mean_sh
           Hp eq_refl (Num tau) s_h sw li lj H Hli Hlj).
Qed.

(** X25. In [hor_acfs] only the first row is estimated at the requested
    [tau].  There is a list [taus], one entry per row, that starts with the
    requested [tau]; row [li] is the answer of [cfi] for the lag [s_h[li]] at
    [taus[li]], and the next entry [taus[li+1]] is the mean temporal lag that
    this very call returned.  While an entry is a number it is within
    [li * dtau / 2] of the requested [tau], one half window more per row. *)
Theorem hor_acfs_tau_drift (L : Lib) (meas : list Meas) (h0 dh tau : R)
  (s_h : list R) (ds_h ds_z dtau : R) (sw : Sweep) :
  hor_acfs L meas h0 dh tau s_h ds_h ds_z dtau = Returns sw ->
  exists taus,
    length taus = length s_h
    /\ (s_h <> [] -> nth_error taus 0 = Some (Num tau))
    /\ (forall li x, nth_error s_h li = Some x ->
          exists r tl,
            nth_error taus li = Some tl
            /\ cfi_f L meas (hor_call h0 dh ds_h ds_z dtau x) tl = Returns r
            /\ nth_error (acfs sw) li = Some (acf r)
            /\ nth_error (errs sw) li = Some (err r)
            /\ nth_error (lags sw) li = Some (mean_sh r)
            /\ ((S li < length s_h)%nat ->
                nth_error taus (S li) = Some (mean_tau r)))
    /\ (forall li y, nth_error taus li = Some (Num y) ->
          Rabs (y - tau) <= INR li * (dtau / 2)).
Proof.
  unfold hor_acfs. intros H.
  destruct (lag_sweep_taus L meas (hor_call h0 dh ds_h ds_z dtau) mean_sh dtau
              (Num tau) s_h sw) as [tfs [H1 [H0 [H2 [H3 _]]]]].
  - intros x. reflexivity.
  - exact H.
  - exists tfs. split; [exact H1|]. split; [exact H0|]. split; [exact H2|].
    intros li y Hy. exact (H3 tau li y eq_refl Hy).
Qed.

(** ** [ver_acfs] *)

Lemma index_Returns {X : Type} (a : list X) (i : nat) (x : X) :
  index a i = Returns x -> (i < length a)%nat.
Proof.
  unfold index. destruct (nth_error a i) eqn:E; [|discriminate].
  intros _. apply nth_error_Some. congruence.
Qed.

Lemma index_past {X : Type} (a : list X) (i : nat) :
  (length a <= i)%nat -> index a i = Raises IndexError.
Proof.
  intros H. unfold index. apply nth_error_None in H. rewrite H. reflexivity.
Qed.

Lemma structure_function_Returns (a : list (list fval)) (j : nat) (sf : list fval) :
  structure_function a j = Returns sf -> length sf = length a.
Proof.
  unfold structure_function, index2. destruct (index a 0); [|discriminate].
  cbn [bind]. intros H. injection H as <-. apply length_map.
Qed.

Lemma structure_function_Raises (a : list (list fval)) (j : nat) (e : exn) :
  structure_function a j = Raises e -> e = IndexError /\ a = [].
Proof.
  unfold structure_function, index2, index. destruct a as [|row a]; simpl.
  - intros H. injection H as <-. split; reflexivity.
  - discriminate.
Qed.

Lemma ver_acfs_Returns (L : Lib) (meas : list Meas) (h0 dh tau : R)
  (s_z : list R) (ds_h ds_z dtau : R) (sw : Sweep) :
  ver_acfs L meas h0 dh tau s_z ds_h ds_z dtau = Returns sw ->
  lag_sweep L meas (ver_call h0 dh ds_h ds_z dtau) mean_sz (Num tau) s_z = Returns sw
  /\ (3 <= length s_z)%nat.
Proof.
  unfold ver_acfs.
  destruct (lag_sweep _ _ _ _ _ _) as [sw'|] eqn:Hs; [|discriminate]. cbn [bind].
  destruct (structure_function (acfs sw') 0) as [sfu|] eqn:Hu; [|discriminate].
  cbn [bind].
  destruct (structure_function (acfs sw') 1) as [sfv|]; [|discriminate]. cbn [bind].
  destruct (index sfu 2) as [u2|] eqn:H2; [|discriminate]. cbn [bind].
  destruct (index (lags sw') 2) as [z2|]; [|discriminate]. cbn [bind].
  intros H. injection H as <-. split; [reflexivity|].
  apply index_Returns in H2. apply structure_function_Returns in Hu.
  destruct (lag_sweep_length _ _ _ _ _ _ _ Hs) as [Ha _]. lia.
Qed.

(** X26. [ver_acfs] feeds [tau] back as [hor_acfs] does.  When row [li] has
    no realized vertical lag ([szs[li]] is NaN), every later row is NaN in
    its six estimates, its six errors and its realized lag. *)
Theorem ver_acfs_nan_persists (L : Lib) (meas : list Meas) (h0 dh tau : R)
  (s_z : list R) (ds_h ds_z dtau : R) (sw : Sweep) (li lj : nat) :
  ver_acfs L meas h0 dh tau s_z ds_h ds_z dtau = Returns sw ->
  nth_error (lags sw) li = Some NaN ->
  (li <= lj < length s_z)%nat ->
  nth_error (acfs sw) lj = Some nan6
  /\ nth_error (errs sw) lj = Some nan6
  /\ nth_error (lags sw) lj = Some NaN.
Proof.
  intros H Hli Hlj. apply ver_acfs_Returns in H. destruct H as [H _].
  assert (Hp : forall r, mean_sz r = NaN ->
                         mean_tau r = NaN \/ mean_sz r = NaN \/ mean_sh r = NaN)
    by (intros r Hr; right; left; exact Hr).
  exact (lag_sweep_nan_persists L meas (ver_call h0 dh ds_h ds_z dtau) mean_sz
           Hp eq_refl (Num tau) s_z sw li lj H Hli Hlj).
Qed.

(** X27. In [ver_acfs] too only the first row is estimated at the requested
    [tau]: there is a list [taus] that starts with it; row [li] is the answer
    of [cfi] for the vertical lag [s_z[li]] at [taus[li]], and [taus[li+1]]
    is the mean temporal lag that this call returned.  While an entry is a
    number it is within [li * dtau / 2] of the requested [tau]. *)
Theorem ver_acfs_tau_drift (L : Lib) (meas : list Meas) (h0 dh tau : R)
  (s_z : list R) (ds_h ds_z dtau : R) (sw : Sweep) :
  ver_acfs L meas h0 dh tau s_z ds_h ds_z dtau = Returns sw ->
  exists taus,
    length taus = length s_z
    /\ nth_error taus 0 = Some (Num tau)
    /\ (forall li x, nth_error s_z li = Some x ->
          exists r tl,
            nth_error taus li = Some tl
            /\ cfi_f L meas (ver_call h0 dh ds_h ds_z dtau x) tl = Returns r
            /\ nth_error (acfs sw) li = Some (acf r)
            /\ nth_error (errs sw) li = Some (err r)
            /\ nth_error (lags sw) li = Some (mean_sz r)
            /\ ((S li < length s_z)%nat ->
                nth_error taus (S li) = Some (mean_tau r)))
    /\ (forall li y, nth_error taus li = Some (Num y) ->
          Rabs (y - tau) <= INR li * (dtau / 2)).
Proof.
  intros H. apply ver_acfs_Returns in H. destruct H as [H Hlen].
  destruct (lag_sweep_taus L meas (ver_call h0 dh ds_h ds_z dtau) mean_sz dtau
              (Num tau) s_z sw) as [tfs [H1 [H0 [H2 [H3 _]]]]].
  - intros x. reflexivity.
  - exact H.
  - exists tfs. split; [exact H1|]. split.
    + apply H0. intros E. rewrite E in Hlen. simpl in Hlen. lia.
    + split; [exact H2|]. intros li y Hy. exact (H3 tau li y eq_refl Hy).
Qed.

(** X28. [ver_acfs] needs three lags.  The sweep has one row per lag, the
    structure function [sfu] as many entries as the sweep has rows, and
    lines 423 and 428 read row 0 of [acfs] and entry 2 of [sfu] and of [szs]:
    with fewer than three lags the call never completes, and when every call
    of [cfi] returns it raises an [IndexError]. *)
Theorem ver_acfs_needs_three_lags (L : Lib) (meas : list Meas) (h0 dh tau : R)
  (s_z : list R) (ds_h ds_z dtau : R) :
  (length s_z < 3)%nat ->
  (exists e, ver_acfs L meas h0 dh tau s_z ds_h ds_z dtau = Raises e)
  /\ (forall sw,
        lag_sweep L meas (ver_call h0 dh ds_h ds_z dtau) mean_sz (Num tau) s_z
        = Returns sw ->
        ver_acfs L meas h0 dh tau s_z ds_h ds_z dtau = Raises IndexError).
Proof.
  intros Hlen.
  assert (Hall : forall sw,
    lag_sweep L meas (ver_call h0 dh ds_h ds_z dtau) mean_sz (Num tau) s_z = Returns sw ->
    ver_acfs L meas h0 dh tau s_z ds_h ds_z dtau = Raises IndexError).
  { intros sw Hs. unfold ver_acfs. rewrite Hs. cbn [bind].
    destruct (lag_sweep_length _ _ _ _ _ _ _ Hs) as [Ha _].
    destruct (structure_function (acfs sw) 0) as [sfu|e] eqn:Hu; cbn [bind].
    - destruct (structure_function (acfs sw) 1) as [sfv|e] eqn:Hv; cbn [bind].
      + apply structure_function_Returns in Hu.
        rewrite index_past by lia. reflexivity.
      + apply structure_function_Raises in Hv. destruct Hv as [-> _]. reflexivity.
    - apply structure_function_Raises in Hu. destruct Hu as [-> _]. reflexivity. }
  split; [|exact Hall].
  destruct (lag_sweep L meas (ver_call h0 dh ds_h ds_z dtau) mean_sz (Num tau) s_z)
    as [sw|e] eqn:Hs.
  - exists IndexError. exact (Hall sw eq_refl).
  - exists e. unfold ver_acfs. rewrite Hs. reflexivity.
Qed.

(** ** [temporal_acfs] *)

Lemma map_result_nth {X Y : Type} (f : X -> result Y) (l : list X) (ys : list Y) :
  map_result f l = Returns ys ->
  forall i x, nth_error l i = Some x ->
              exists y, f x = Returns y /\ nth_error ys i = Some y.
Proof.
  revert ys. induction l as [|a r IH]; intros ys H i x Hx.
  - destruct i; discriminate.
  - simpl in H. destruct (f a) as [y|] eqn:Hy; [|discriminate]. cbn [bind] in H.
    destruct (map_result f r) as [zs|]; [|discriminate]. cbn [bind] in H.
    injection H as <-. destruct i as [|i]; simpl in Hx.
    + injection Hx as <-. exists y. split; [exact Hy | reflexivity].
    + exact (IH zs eq_refl i x Hx).
Qed.

Lemma temporal_acfs_Returns (L : Lib) (meas : list Meas) (h0 dh : R) (tau : list R)
  (dtau ds_h ds_z : R) (lags_out : list R) (rows_out : list (list fval)) :
  temporal_acfs L meas h0 dh tau dtau ds_h ds_z = Returns (lags_out, rows_out) ->
  forall li x, nth_error tau li = Some x ->
    exists r,
      cfi L meas (temporal_call h0 dh ds_h ds_z dtau x) = Returns r
      /\ nth_error rows_out li = Some (acf r).
Proof.
  unfold temporal_acfs.
  destruct (map_result _ tau) as [rows|] eqn:Hm; [|discriminate]. cbn [bind].
  destruct (Np.max_ tau) as [mx|] eqn:Hx; [|discriminate]. cbn [bind].
  intros H. injection H as <- <-.
  intros li x Hli. destruct (map_result_nth _ _ _ Hm li x Hli) as [y [Hy Hn]].
  destruct (cfi L meas (temporal_call h0 dh ds_h ds_z dtau x)) as [r|]; [|discriminate].
  cbn [bind] in Hy. injection Hy as <-. exists r. split; [reflexivity | exact Hn].
Qed.

(** The pairs behind a row of [temporal_acfs], by their temporal lag. *)
Lemma temporal_pairs_lag (meas : list Meas) (h0 dh ds_h ds_z dt x t0 : R)
  (st : Found) (k l : nat) :
  find_pairs (temporal_call h0 dh ds_h ds_z dt x) meas = Returns (t0, st) ->
  In (k, l) (pairs st) ->
  Rabs (lag_t meas k l - x) < dt / 2.
Proof.
  intros Hf Hin. destruct (find_pairs_Inv _ _ _ _ Hf) as [tmax [n HI]].
  pose proof (inv_accepted _ _ _ _ _ _ HI) as Hacc.
  rewrite Forall_forall in Hacc.
  destruct (accepted_lags _ _ _ _ _ _ (Hacc _ Hin)) as [Ht _]. exact Ht.
Qed.

Lemma lag_t_swap (tbl : list Meas) (k l : nat) : lag_t tbl l k = - lag_t tbl k l.
Proof. unfold lag_t. ring. Qed.

(** X29. Two rows of [temporal_acfs] whose lags are not negative and at
    least [dtau] apart are estimated from different pairs of measurements:
    the calls of [cfi] behind the two rows accept no pair in common, in
    either order of its two measurements. *)
Theorem temporal_acfs_rows_share_no_pair (L : Lib) (meas : list Meas) (h0 dh : R)
  (tau : list R) (dtau ds_h ds_z : R) (lags_out : list R)
  (rows_out : list (list fval)) (li lj : nat) (x_i x_j : R) :
  temporal_acfs L meas h0 dh tau dtau ds_h ds_z = Returns (lags_out, rows_out) ->
  nth_error tau li = Some x_i -> nth_error tau lj = Some x_j ->
  0 <= x_i -> 0 <= x_j -> dtau <= Rabs (x_i - x_j) ->
  exists r_i r_j t0 st_i st_j,
    cfi L meas (temporal_call h0 dh ds_h ds_z dtau x_i) = Returns r_i
    /\ nth_error rows_out li = Some (acf r_i)
    /\ cfi L meas (temporal_call h0 dh ds_h ds_z dtau x_j) = Returns r_j
    /\ nth_error rows_out lj = Some (acf r_j)
    /\ find_pairs (temporal_call h0 dh ds_h ds_z dtau x_i) meas = Returns (t0, st_i)
    /\ find_pairs (temporal_call h0 dh ds_h ds_z dtau x_j) meas = Returns (t0, st_j)
    /\ forall k l, In (k, l) (pairs st_i) ->
                   ~ In (k, l) (pairs st_j) /\ ~ In (l, k) (pairs st_j).
Proof.
  intros H Hi Hj Hpi Hpj Hgap.
  destruct (temporal_acfs_Returns _ _ _ _ _ _ _ _ _ _ H li x_i Hi) as [r_i [Hri Hni]].
  destruct (temporal_acfs_Returns _ _ _ _ _ _ _ _ _ _ H lj x_j Hj) as [r_j [Hrj Hnj]].
  destruct (cfi_Returns_lags _ _ _ _ Hri) as [t0 [st_i [Hfi _]]].
  destruct (cfi_Returns_lags _ _ _ _ Hrj) as [t0' [st_j [Hfj _]]].
  rewrite working_set_default in Hfi, Hfj by reflexivity.
  assert (Et : t0' = t0).
  { apply find_pairs_Returns in Hfi, Hfj.
    destruct Hfi as [_ [_ [_ [Hmin _]]]]. destruct Hfj as [_ [_ [_ [Hmin' _]]]].
    congruence. }
  subst t0'.
  exists r_i, r_j, t0, st_i, st_j. repeat (split; [assumption|]).
  intros k l Hin.
  pose proof (temporal_pairs_lag _ _ _ _ _ _ _ _ _ _ _ Hfi Hin) as Hl.
  apply Rabs_def2 in Hl.
  split; intros Hin';
    pose proof (temporal_pairs_lag _ _ _ _ _ _ _ _ _ _ _ Hfj Hin') as Hl';
    try rewrite (lag_t_swap meas k l) in Hl'; apply Rabs_def2 in Hl';
    revert Hgap; unfold Rabs; destruct (Rcase_abs (x_i - x_j)); lra.
Qed.

(** ** [mean_wind_cf] *)

Lemma map_result_raises {X Y : Type} (f : X -> result Y) (l : list X) (x : X) :
  In x l -> (exists e, f x = Raises e) -> exists e, map_result f l = Raises e.
Proof.
  intros Hin [e He]. induction l as [|a r IH]; [destruct Hin|].
  simpl. destruct (f a) as [y|e'] eqn:Ha.
  - cbn [bind]. destruct Hin as [->|Hin]; [congruence|].
    destruct (IH Hin) as [e'' ->]. exists e''. reflexivity.
  - exists e'. reflexivity.
Qed.

(** X30. [mean_wind_cf] completes only if every hour of [hour_of_day] has a
    measurement within half an hour of it (the plain difference of hours of
    the time-of-day restriction).  With an hour that has none, and at least
    one height, the call of [cfi] for it raises, and so does
    [mean_wind_cf]: no correlation function is returned for the other hours
    and heights either. *)
Theorem mean_wind_cf_empty_hour_raises (L : Lib) (f : MeasFile) (w : Wind.File)
  (heights hour_of_day : list R) (ds_h : R) (out : list Row) (t0 : R) :
  get_meas f false 0.8 w = Returns out ->
  heights <> [] ->
  In t0 hour_of_day ->
  Forall (fun x => 1 / 2 < Rabs (hod x - t0)) (table out) ->
  exists e, mean_wind_cf L f w heights hour_of_day ds_h = Raises e.
Proof.
  intros Hg Hh Hin Hall. unfold mean_wind_cf. rewrite Hg. cbn [bind].
  destruct heights as [|h0 hs]; [contradiction|].
  assert (Hc : cfi L (table out) (mean_wind_call ds_h h0 t0) = Raises ValueError).
  { unfold cfi.
    assert (Hw : working_set (mean_wind_call ds_h h0 t0) (table out) = []).
    { unfold working_set. generalize dependent (table out). intros l Hl.
      induction l as [|x r IH]; [reflexivity|].
      inversion Hl as [|x' r' Hx Hr]; subst. simpl.
      unfold in_hour_window at 1. simpl.
      rewrite (proj2 (Rleb_false (Rabs (hod x - t0)) (1 / 2))) by lra.
      exact (IH Hr). }
    rewrite Hw, find_pairs_empty. reflexivity. }
  destruct (map_result_raises
              (fun t1 => r <- cfi L (table out) (mean_wind_call ds_h h0 t1) ;;
                         Returns (acf r)) hour_of_day t0 Hin) as [e He].
  { exists ValueError. rewrite Hc. reflexivity. }
  destruct (map_result_raises
              (fun h1 => map_result
                           (fun t1 => r <- cfi L (table out) (mean_wind_call ds_h h1 t1) ;;
                                      Returns (acf r)) hour_of_day)
              (h0 :: hs) h0 (or_introl eq_refl)) as [e' He'].
  { exists e. exact He. }
  rewrite He'. exists e'. reflexivity.
Qed.

(** ** Worked sweeps

    The four measurements of [demo_tbl] hold one pair at the default lags,
    90 s apart.  A sweep over the horizontal lags 0 and 1000 km estimates its
    second row at [tau = 90], finds no pair there, and a sweep over the
    vertical lags 0, 5 and 6 km estimates its third row at [tau = nan].  A
    sweep over the temporal lags 0 and 300 s returns two rows, a window
    [dtau = 300] apart. *)

Lemma find_pairs_nonempty (s : LagSpec) (tbl : list Meas) :
  tbl <> [] -> dtau s <> 0 -> exists t0 st, find_pairs s tbl = Returns (t0, st).
Proof.
  intros Hne Hd.
  assert (Hm : map t tbl <> []) by (destruct tbl; [contradiction | discriminate]).
  destruct (max_nonempty _ Hm) as [tmax Hmax].
  destruct (min_nonempty _ Hm) as [tmin Hmin].
  unfold find_pairs. rewrite Hmax, Hmin. cbn [bind]. unfold n_times_of.
  destruct (Req_dec_T (dtau s) 0); [contradiction|]. cbn [bind].
  eexists. eexists. reflexivity.
Qed.

(** A call none of whose pairs passes the mask of lines 220-223. *)
Lemma cfi_no_lag_mask (L : Lib) (meas : list Meas) (s : LagSpec) (r : InversionResult) :
  cfi L meas s = Returns r ->
  (forall k l, lag_mask s (working_set s meas) k l = false) ->
  r = no_estimate.
Proof.
  intros H Hmask.
  destruct (cfi_Returns_lags _ _ _ _ H) as [t0 [st [Hf [Ht _]]]].
  destruct (find_pairs_Inv _ _ _ _ Hf) as [tmax [n HI]].
  assert (Hp : pairs st = []).
  { pose proof (inv_accepted _ _ _ _ _ _ HI) as Hacc.
    destruct (pairs st) as [|p rest]; [reflexivity|].
    inversion Hacc as [|p' rest' [_ [Hm _]] _]; subst.
    rewrite Hmask in Hm. discriminate. }
  rewrite <- (with_tau_same s), <- cfi_f_Num in H.
  apply (cfi_f_nan_lag _ _ _ _ _ H). left.
  rewrite Ht, (inv_taus _ _ _ _ _ _ HI), Hp. reflexivity.
Qed.

Lemma plain_cfi_f_NaN (meas : list Meas) (s : LagSpec) :
  working_set s meas <> [] -> dtau s <> 0 ->
  cfi_f plain_lib meas s NaN = Returns no_estimate.
Proof.
  intros Hne Hd.
  assert (Hm : map t (working_set s meas) <> [])
    by (destruct (working_set s meas); [contradiction | discriminate]).
  destruct (max_nonempty _ Hm) as [tmax Hmax].
  destruct (min_nonempty _ Hm) as [tmin Hmin].
  assert (Hf : exists st, find_pairs_f s NaN (working_set s meas) = Returns (tmin, st)).
  { unfold find_pairs_f. rewrite Hmax, Hmin. cbn [bind]. unfold n_times_of.
    destruct (Req_dec_T (dtau s) 0); [contradiction|]. cbn [bind].
    eexists. reflexivity. }
  destruct Hf as [st Hf]. pose proof (find_pairs_f_NaN _ _ _ _ Hf) as ->.
  unfold cfi_f. rewrite Hf. reflexivity.
Qed.

Lemma demo_lons (l : nat) : lons (get demo_tbl l) = 0.
Proof. destruct l as [|[|[|[|[|l]]]]]; reflexivity. Qed.

Lemma demo_lats (l : nat) : 0 <= lats (get demo_tbl l) <= 0.1.
Proof. destruct l as [|[|[|[|[|l]]]]]; simpl; lra. Qed.

Lemma demo_heights (l : nat) : heights (get demo_tbl l) = 90 \/ heights (get demo_tbl l) = 0.
Proof. destruct l as [|[|[|[|[|l]]]]]; simpl; auto. Qed.

Lemma demo_hor_dist_le (k l : nat) : hor_dist demo_tbl k l <= 12.
Proof.
  rewrite hor_dist_north by (rewrite !demo_lons; reflexivity).
  pose proof (demo_lats k). pose proof (demo_lats l).
  unfold latdeg2km, Rabs. destruct (Rcase_abs _); lra.
Qed.

Lemma demo_first_call :
  exists r1,
    cfi plain_lib demo_tbl demo_spec = Returns r1
    /\ mean_tau r1 = Num ((90 + 0) / 1).
Proof.
  destruct (plain_cfi_returns demo_tbl demo_spec 0 demo_found demo_run) as [r1 Hr].
  exists r1. split; [exact Hr|].
  destruct (cfi_Returns_lags _ _ _ _ Hr) as [t0 [st [Hf [Ht _]]]].
  rewrite demo_run in Hf. injection Hf as <- <-. exact Ht.
Qed.

Lemma demo_far_call (y : R) :
  cfi_f plain_lib demo_tbl (hor_call 90 2 100 1 300 1000) (Num y) = Returns no_estimate.
Proof.
  rewrite cfi_f_Num.
  set (s := with_tau (hor_call 90 2 100 1 300 1000) y).
  assert (Hw : working_set s demo_tbl = demo_tbl)
    by (apply working_set_default; reflexivity).
  destruct (find_pairs_nonempty s (working_set s demo_tbl)) as [t0 [st Hf]].
  { rewrite Hw. discriminate. }
  { simpl. lra. }
  destruct (plain_cfi_returns demo_tbl s t0 st Hf) as [r Hr].
  rewrite Hr. f_equal. apply (cfi_no_lag_mask _ _ _ _ Hr).
  intros k l. rewrite Hw. unfold lag_mask, dist_filter. simpl.
  pose proof (demo_hor_dist_le k l) as Hle.
  pose proof (hor_dist_nonneg demo_tbl k l) as Hge.
  rewrite (proj2 (Rltb_false (Rabs (hor_dist demo_tbl k l - 1000)) (100 / 2))).
  - reflexivity.
  - unfold Rabs. destruct (Rcase_abs _); lra.
Qed.

Definition demo_s_h : list R := [0; 1000].

Lemma demo_hor_acfs :
  exists r1,
    cfi plain_lib demo_tbl demo_spec = Returns r1
    /\ hor_acfs plain_lib demo_tbl 90 2 0 demo_s_h 100 1 300
       = Returns (mkSweep [acf r1; nan6] [err r1; nan6] [mean_sh r1; NaN]).
Proof.
  destruct demo_first_call as [r1 [Hr Hm]]. exists r1. split; [exact Hr|].
  unfold hor_acfs, demo_s_h. simpl lag_sweep.
  rewrite cfi_f_Num.
  change (with_tau (hor_call 90 2 100 1 300 0) 0) with demo_spec.
  rewrite Hr. cbn [bind]. rewrite Hm, demo_far_call. reflexivity.
Qed.

Lemma hor_acfs_nan_persists_witness :
  exists sw,
    hor_acfs plain_lib demo_tbl 90 2 0 demo_s_h 100 1 300 = Returns sw
    /\ nth_error (lags sw) 1 = Some NaN
    /\ (1 <= 1 < length demo_s_h)%nat
    /\ nth_error (acfs sw) 1 = Some nan6
    /\ nth_error (errs sw) 1 = Some nan6
    /\ nth_error (lags sw) 1 = Some NaN.
Proof.
  destruct demo_hor_acfs as [r1 [_ Hsw]].
  assert (Hlj : (1 <= 1 < length demo_s_h)%nat) by (simpl; lia).
  eexists. split; [exact Hsw|]. split; [reflexivity|]. split; [exact Hlj|].
  exact (hor_acfs_nan_persists plain_lib demo_tbl 90 2 0 demo_s_h 100 1 300 _ 1 1
           Hsw eq_refl Hlj).
Defined.

Lemma hor_acfs_tau_drift_witness :
  exists sw,
    hor_acfs plain_lib demo_tbl 90 2 0 demo_s_h 100 1 300 = Returns sw
    /\ exists taus,
         length taus = length demo_s_h
         /\ (demo_s_h <> [] -> nth_error taus 0 = Some (Num 0))
         /\ (forall li x, nth_error demo_s_h li = Some x ->
               exists r tl,
                 nth_error taus li = Some tl
                 /\ cfi_f plain_lib demo_tbl (hor_call 90 2 100 1 300 x) tl = Returns r
                 /\ nth_error (acfs sw) li = Some (acf r)
                 /\ nth_error (errs sw) li = Some (err r)
                 /\ nth_error (lags sw) li = Some (mean_sh r)
                 /\ ((S li < length demo_s_h)%nat ->
                     nth_error taus (S li) = Some (mean_tau r)))
         /\ (forall li y, nth_error taus li = Some (Num y) ->
               Rabs (y - 0) <= INR li * (300 / 2)).
Proof.
  destruct demo_hor_acfs as [r1 [_ Hsw]].
  eexists. split; [exact Hsw|].
  exact (hor_acfs_tau_drift plain_lib demo_tbl 90 2 0 demo_s_h 100 1 300 _ Hsw).
Defined.

Lemma demo_high_call (x y : R) :
  5 <= x <= 6 ->
  cfi_f plain_lib demo_tbl (ver_call 90 2 100 1 300 x) (Num y) = Returns no_estimate.
Proof.
  intros Hx. rewrite cfi_f_Num.
  set (s := with_tau (ver_call 90 2 100 1 300 x) y).
  assert (Hw : working_set s demo_tbl = demo_tbl)
    by (apply working_set_default; reflexivity).
  destruct (find_pairs_nonempty s (working_set s demo_tbl)) as [t0 [st Hf]].
  { rewrite Hw. discriminate. }
  { simpl. lra. }
  destruct (plain_cfi_returns demo_tbl s t0 st Hf) as [r Hr].
  rewrite Hr. f_equal. apply (cfi_no_lag_mask _ _ _ _ Hr).
  intros k l. rewrite Hw. unfold lag_mask. simpl.
  rewrite (proj2 (Rltb_false
                    (Rabs (heights (get demo_tbl l) - heights (get demo_tbl k) - x))
                    (1 / 2))).
  - rewrite andb_false_r. reflexivity.
  - destruct (demo_heights k) as [-> | ->], (demo_heights l) as [-> | ->];
      unfold Rabs; destruct (Rcase_abs _); lra.
Qed.

Definition demo_s_z : list R := [0; 5; 6].

Lemma demo_ver_acfs :
  exists r1,
    cfi plain_lib demo_tbl demo_spec = Returns r1
    /\ ver_acfs plain_lib demo_tbl 90 2 0 demo_s_z 100 1 300
       = Returns (mkSweep [acf r1; nan6; nan6] [err r1; nan6; nan6]
                    [mean_sz r1; NaN; NaN]).
Proof.
  destruct demo_first_call as [r1 [Hr Hm]]. exists r1. split; [exact Hr|].
  unfold ver_acfs, demo_s_z. simpl lag_sweep.
  rewrite cfi_f_Num.
  change (with_tau (ver_call 90 2 100 1 300 0) 0) with demo_spec.
  rewrite Hr. cbn [bind]. rewrite Hm, demo_high_call by lra. cbn [bind].
  change (mean_tau no_estimate) with NaN.
  rewrite plain_cfi_f_NaN.
  - reflexivity.
  - rewrite working_set_default by reflexivity. discriminate.
  - simpl. lra.
Qed.

Lemma ver_acfs_nan_persists_witness :
  exists sw,
    ver_acfs plain_lib demo_tbl 90 2 0 demo_s_z 100 1 300 = Returns sw
    /\ nth_error (lags sw) 1 = Some NaN
    /\ (1 <= 2 < length demo_s_z)%nat
    /\ nth_error (acfs sw) 2 = Some nan6
    /\ nth_error (errs sw) 2 = Some nan6
    /\ nth_error (lags sw) 2 = Some NaN.
Proof.
  destruct demo_ver_acfs as [r1 [_ Hsw]].
  assert (Hlj : (1 <= 2 < length demo_s_z)%nat) by (simpl; lia).
  eexists. split; [exact Hsw|]. split; [reflexivity|]. split; [exact Hlj|].
  exact (ver_acfs_nan_persists plain_lib demo_tbl 90 2 0 demo_s_z 100 1 300 _ 1 2
           Hsw eq_refl Hlj).
Defined.

Lemma ver_acfs_tau_drift_witness :
  exists sw,
    ver_acfs plain_lib demo_tbl 90 2 0 demo_s_z 100 1 300 = Returns sw
    /\ exists taus,
         length taus = length demo_s_z
         /\ nth_error taus 0 = Some (Num 0)
         /\ (forall li x, nth_error demo_s_z li = Some x ->
               exists r tl,
                 nth_error taus li = Some tl
                 /\ cfi_f plain_lib demo_tbl (ver_call 90 2 100 1 300 x) tl = Returns r
                 /\ nth_error (acfs sw) li = Some (acf r)
                 /\ nth_error (errs sw) li = Some (err r)
                 /\ nth_error (lags sw) li = Some (mean_sz r)
                 /\ ((S li < length demo_s_z)%nat ->
                     nth_error taus (S li) = Some (mean_tau r)))
         /\ (forall li y, nth_error taus li = Some (Num y) ->
               Rabs (y - 0) <= INR li * (300 / 2)).
Proof.
  destruct demo_ver_acfs as [r1 [_ Hsw]].
  eexists. split; [exact Hsw|].
  exact (ver_acfs_tau_drift plain_lib demo_tbl 90 2 0 demo_s_z 100 1 300 _ Hsw).
Defined.

Definition two_lags : list R := [0; 5].

Lemma ver_acfs_needs_three_lags_witness :
  (length two_lags < 3)%nat
  /\ (exists e, ver_acfs plain_lib demo_tbl 90 2 0 two_lags 100 1 300 = Raises e)
  /\ (forall sw,
        lag_sweep plain_lib demo_tbl (ver_call 90 2 100 1 300) mean_sz (Num 0) two_lags
        = Returns sw ->
        ver_acfs plain_lib demo_tbl 90 2 0 two_lags 100 1 300 = Raises IndexError).
Proof.
  assert (H : (length two_lags < 3)%nat) by (simpl; lia).
  split; [exact H|].
  exact (ver_acfs_needs_three_lags plain_lib demo_tbl 90 2 0 two_lags 100 1 300 H).
Defined.

Definition lag_pair : list R := [0; 300].

Lemma demo_temporal_acfs :
  exists rows_out,
    temporal_acfs plain_lib demo_tbl 90 2 lag_pair 300 100 1
    = Returns (lag_pair, rows_out).
Proof.
  assert (Hc : forall x, exists r,
             cfi plain_lib demo_tbl (temporal_call 90 2 100 1 300 x) = Returns r).
  { intros x. set (s := temporal_call 90 2 100 1 300 x).
    destruct (find_pairs_nonempty s (working_set s demo_tbl)) as [t0 [st Hf]].
    - rewrite working_set_default by reflexivity. discriminate.
    - simpl. lra.
    - exact (plain_cfi_returns demo_tbl s t0 st Hf). }
  destruct (Hc 0) as [r0 H0]. destruct (Hc 300) as [r1 H1].
  destruct (max_nonempty lag_pair ltac:(discriminate)) as [mx Hx].
  exists [acf r0; acf r1].
  unfold temporal_acfs. rewrite Hx. unfold lag_pair. simpl map_result.
  rewrite H0. cbn [bind]. rewrite H1. reflexivity.
Qed.

Lemma temporal_acfs_rows_share_no_pair_witness :
  exists rows_out,
    temporal_acfs plain_lib demo_tbl 90 2 lag_pair 300 100 1
    = Returns (lag_pair, rows_out)
    /\ nth_error lag_pair 0 = Some 0 /\ nth_error lag_pair 1 = Some 300
    /\ 0 <= 0 /\ 0 <= 300 /\ 300 <= Rabs (0 - 300)
    /\ exists r_i r_j t0 st_i st_j,
         cfi plain_lib demo_tbl (temporal_call 90 2 100 1 300 0) = Returns r_i
         /\ nth_error rows_out 0 = Some (acf r_i)
         /\ cfi plain_lib demo_tbl (temporal_call 90 2 100 1 300 300) = Returns r_j
         /\ nth_error rows_out 1 = Some (acf r_j)
         /\ find_pairs (temporal_call 90 2 100 1 300 0) demo_tbl = Returns (t0, st_i)
         /\ find_pairs (temporal_call 90 2 100 1 300 300) demo_tbl = Returns (t0, st_j)
         /\ forall k l, In (k, l) (pairs st_i) ->
                        ~ In (k, l) (pairs st_j) /\ ~ In (l, k) (pairs st_j).
Proof.
  destruct demo_temporal_acfs as [rows_out Ht].
  assert (H0 : 0 <= 0) by lra.
  assert (H1 : 0 <= 300) by lra.
  assert (Hg : 300 <= Rabs (0 - 300)).
  { unfold Rabs. destruct (Rcase_abs (0 - 300)); lra. }
  exists rows_out. split; [exact Ht|]. split; [reflexivity|]. split; [reflexivity|].
  split; [exact H0|]. split; [exact H1|]. split; [exact Hg|].
  exact (temporal_acfs_rows_share_no_pair plain_lib demo_tbl 90 2 lag_pair 300 100 1
           lag_pair rows_out 0 1 0 300 Ht eq_refl eq_refl H0 H1 Hg).
Defined.

Lemma hod_first_day (x : Meas) : 0 <= t x < 86400 -> hod x = t x / 3600.
Proof.
  intros H. unfold hod. rewrite (mod_eq _ _ 0%Z); lra.
Qed.

Definition noon : list R := [12].
Definition one_height : list R := [90].

Lemma demo_get_meas :
  get_meas demo_file false 0.8 demo_wind
  = Returns [(at_ 0 0, (0, 0)); (at_ 100 0.1, (0, 0))].
Proof.
  unfold get_meas, dcos_filter, Np.where_. simpl. rewrite dcos2_zero.
  rewrite (proj2 (Rltb_true 0 0.8)) by lra. reflexivity.
Qed.

Lemma mean_wind_cf_empty_hour_raises_witness :
  get_meas demo_file false 0.8 demo_wind
  = Returns [(at_ 0 0, (0, 0)); (at_ 100 0.1, (0, 0))]
  /\ one_height <> []
  /\ In 12 noon
  /\ Forall (fun x => 1 / 2 < Rabs (hod x - 12))
            (table [(at_ 0 0, (0, 0)); (at_ 100 0.1, (0, 0))])
  /\ exists e, mean_wind_cf plain_lib demo_file demo_wind one_height noon 300 = Raises e.
Proof.
  assert (Hh : one_height <> []) by discriminate.
  assert (Hin : In 12 noon) by (left; reflexivity).
  assert (Hall : Forall (fun x => 1 / 2 < Rabs (hod x - 12))
                   (table [(at_ 0 0, (0, 0)); (at_ 100 0.1, (0, 0))])).
  { simpl. constructor; [|constructor; [|constructor]];
      rewrite hod_first_day by (simpl; lra); simpl;
      unfold Rabs; destruct (Rcase_abs _); lra. }
  split; [exact demo_get_meas|]. split; [exact Hh|]. split; [exact Hin|].
  split; [exact Hall|].
  exact (mean_wind_cf_empty_hour_raises plain_lib demo_file demo_wind one_height noon
           300 _ 12 demo_get_meas Hh Hin Hall).
Defined.
